(** * Mainframe legacy archiver: validation, ledger, query and teardown lambdas

    A shallow embedding of the Python sources
    - [back_end/glue/iceberg_etl_job.py]   (column normalizer),
    - [back_end/lambda/validation.py]      (validation engine),
    - [back_end/lambda/athena_query.py]    (bounded query primitive and
                                            its handler),
    - [back_end/lambda/metadata_logger.py] (job ledger),
    - [back_end/lambda/delete_handler.py]  (teardown coordinator),
    - [back_end/lambda/upload_handler.py]  (signed uploads, pipeline start),
    - [back_end/lambda/auth_middleware.py] (identity of a request),
    followed by the properties of the specification that are settled on it
    and by further properties of the same code.

    Conventions.  A Python [str] is a Rocq [string]; its characters are the
    code points 0..255 (Latin-1), on which [str.lower] and [str.strip] are
    character-wise.  A Python [int] is a [Z].  A call that may raise returns
    a [result].  The remote services (Athena, Glue, S3, DynamoDB) are records
    of responses, passed explicitly. *)

From Stdlib Require Import ZArith List String Ascii Bool Lia.
From stdpp Require Import base decidable option list gmap strings.

Local Open Scope string_scope.
Local Open Scope Z_scope.

(* ===================================================================== *)
(** * Python runtime fragment *)
(* ===================================================================== *)

Module Py.

(** ** Exceptions *)

(** An exception: its class name and its message. *)
Record exn : Type := Exn { exn_class : string; exn_msg : string }.

Definition Exception (msg : string) : exn := Exn "Exception" msg.

Inductive result (A : Type) : Type :=
| Ok (a : A)
| Raise (e : exn).
Arguments Ok {A} a.
Arguments Raise {A} e.

Definition bind {A B} (m : result A) (k : A -> result B) : result B :=
  match m with
  | Ok a => k a
  | Raise e => Raise e
  end.

Definition raises {A} (m : result A) : bool :=
  match m with Ok _ => false | Raise _ => true end.

(** ** Characters *)

Definition ord (c : ascii) : N := N_of_ascii c.
Definition chr (n : N) : ascii := ascii_of_N n.

Definition between (lo hi : N) (c : ascii) : bool :=
  ((lo <=? ord c) && (ord c <=? hi))%N.

(** [str.isspace] on one character: TAB LF VT FF CR, FS GS RS US, SPACE,
    NEL and NBSP are the white-space code points below 256. *)
Definition isspace (c : ascii) : bool :=
  between 9 13 c || between 28 32 c || (ord c =? 133)%N || (ord c =? 160)%N.

(** [str.lower] on one character: A-Z and the Latin-1 capitals
    (0xC0-0xDE without the multiplication sign 0xD7) move up by 32. *)
Definition lower_char (c : ascii) : ascii :=
  if between 65 90 c || (between 192 222 c && negb (ord c =? 215)%N)
  then chr (ord c + 32)
  else c.

(** ** Strings *)

Fixpoint lower (s : string) : string :=
  match s with
  | EmptyString => EmptyString
  | String c r => String (lower_char c) (lower r)
  end.

Fixpoint lstrip (s : string) : string :=
  match s with
  | EmptyString => EmptyString
  | String c r => if isspace c then lstrip r else s
  end.

Fixpoint rstrip (s : string) : string :=
  match s with
  | EmptyString => EmptyString
  | String c r =>
      match rstrip r with
      | EmptyString => if isspace c then EmptyString else String c EmptyString
      | r' => String c r'
      end
  end.

(** [s.strip()] without argument. *)
Definition strip (s : string) : string := rstrip (lstrip s).

(** [s.replace(old, new)] for a one-character [old]. *)
Fixpoint replace (old : ascii) (new : string) (s : string) : string :=
  match s with
  | EmptyString => EmptyString
  | String c r =>
      if Ascii.eqb c old then String.append new (replace old new r)
      else String c (replace old new r)
  end.

(** ** [str.upper], whose result leaves the code points below 256 *)

(** [str.upper] on one character, as code points: a-z and the Latin-1
    small letters (0xE0-0xFE without the division sign 0xF7) move down
    by 32; the sharp s becomes SS, the micro sign the Greek capital mu
    (U+039C) and y with diaeresis its capital (U+0178). *)
Definition upper_char (c : ascii) : list N :=
  if between 97 122 c || (between 224 254 c && negb (ord c =? 247)%N)
  then [(ord c - 32)%N]
  else if (ord c =? 223)%N then [83%N; 83%N]
  else if (ord c =? 181)%N then [924%N]
  else if (ord c =? 255)%N then [376%N]
  else [ord c].

Fixpoint upper (s : string) : list N :=
  match s with
  | EmptyString => []
  | String c r => (upper_char c ++ upper r)%list
  end.

(** The code points of a string. *)
Fixpoint points (s : string) : list N :=
  match s with
  | EmptyString => []
  | String c r => ord c :: points r
  end.

(** [str.isspace] on any code point. *)
Definition isspace_point (n : N) : bool :=
  ((n <? 256)%N && isspace (chr n)) || (n =? 5760)%N ||
  ((8192 <=? n)%N && (n <=? 8202)%N) || (n =? 8232)%N || (n =? 8233)%N ||
  (n =? 8239)%N || (n =? 8287)%N || (n =? 12288)%N.

Fixpoint lstrip_points (l : list N) : list N :=
  match l with
  | [] => []
  | n :: r => if isspace_point n then lstrip_points r else l
  end.

Fixpoint rstrip_points (l : list N) : list N :=
  match l with
  | [] => []
  | n :: r =>
      match rstrip_points r with
      | [] => if isspace_point n then [] else [n]
      | r' => n :: r'
      end
  end.

Definition strip_points (l : list N) : list N := rstrip_points (lstrip_points l).

Fixpoint prefix_points (p l : list N) : bool :=
  match p, l with
  | [], _ => true
  | _ :: _, [] => false
  | a :: p', b :: l' => (a =? b)%N && prefix_points p' l'
  end.

(** [sub in l]. *)
Fixpoint contains_points (sub l : list N) : bool :=
  prefix_points sub l ||
  match l with
  | [] => false
  | _ :: r => contains_points sub r
  end.

(** ** [for i in range(n): ... else: ...] with [break], [return], [raise] *)

Inductive ctl (R : Type) : Type :=
| Continue
| Break
| Return (r : R)
| Throw (e : exn).
Arguments Continue {R}.
Arguments Break {R}.
Arguments Return {R} r.
Arguments Throw {R} e.

Inductive loop_exit (R : Type) : Type :=
| Exhausted               (* the range ran out: the [else] suite runs *)
| Broke                   (* left by [break] *)
| Returned (r : R)        (* left by [return] *)
| Raised (e : exn).       (* left by an exception *)
Arguments Exhausted {R}.
Arguments Broke {R}.
Arguments Returned {R} r.
Arguments Raised {R} e.

(** [for_range n i body s] runs [body] for the indices [i, i+1, ...,
    i+n-1], threading the state [s]. *)
Fixpoint for_range {S R : Type} (n : nat) (i : nat)
    (body : nat -> S -> ctl R * S) (s : S) : loop_exit R * S :=
  match n with
  | O => (Exhausted, s)
  | Datatypes.S n' =>
      match body i s with
      | (Continue, s') => for_range n' (Datatypes.S i) body s'
      | (Break, s') => (Broke, s')
      | (Return r, s') => (Returned r, s')
      | (Throw e, s') => (Raised e, s')
      end
  end.

End Py.

(* ===================================================================== *)
(** * JSON values, as the handlers receive and build them *)
(* ===================================================================== *)

Module Json.

(** A value of [json.loads], or one built by a handler.  A float is kept
    as its [str()], and so is the [Decimal] made from it. *)
#[warnings="-register-all"]
Inductive value : Type :=
| Null
| Bool (b : bool)
| Num (z : Z)
| Float (repr : string)
| Decimal (repr : string)
| Str (s : string)
| Arr (items : list value)
| Obj (fields : list (string * value)).

(** [d[k]] in a dictionary given by its items. *)
Fixpoint lookup (k : string) (fields : list (string * value)) : option value :=
  match fields with
  | [] => None
  | (k', v) :: rest => if String.eqb k' k then Some v else lookup k rest
  end.

(** The name of the type of [v], as an error message prints it. *)
Definition type_name (v : value) : string :=
  match v with
  | Null => "NoneType"
  | Bool _ => "bool"
  | Num _ => "int"
  | Float _ => "float"
  | Decimal _ => "decimal.Decimal"
  | Str _ => "str"
  | Arr _ => "list"
  | Obj _ => "dict"
  end.

(** What [v.attr] raises when [v] has no such attribute. *)
Definition attribute_error (v : value) (attr : string) : Py.exn :=
  Py.Exn "AttributeError"
    (String.append "'"
       (String.append (type_name v)
          (String.append "' object has no attribute '" (String.append attr "'")))).

(** [v.get(k, dflt)]: only a dictionary has [get]. *)
Definition get (v : value) (k : string) (dflt : value) : Py.result value :=
  match v with
  | Obj fields => Py.Ok (default dflt (lookup k fields))
  | _ => Py.Raise (attribute_error v "get")
  end.

(** The truth value of [v] in an [if]. *)
Definition truthy (v : value) : bool :=
  match v with
  | Null => false
  | Bool b => b
  | Num z => negb (z =? 0)
  | Float r | Decimal r =>
      negb (String.eqb r "0.0" || String.eqb r "-0.0" || String.eqb r "0")
  | Str s => negb (String.eqb s EmptyString)
  | Arr items => match items with [] => false | _ => true end
  | Obj fields => match fields with [] => false | _ => true end
  end.

(** [_convert_floats] of [metadata_logger.py], on values of any depth. *)
Fixpoint _convert_floats (obj : value) : value :=
  match obj with
  | Float r => Decimal r
  | Obj fields =>
      Obj (map (fun kv => match kv with (k, v) => (k, _convert_floats v) end) fields)
  | Arr items => Arr (map _convert_floats items)
  | _ => obj
  end.

(** A float occurs somewhere in the value. *)
Fixpoint has_float (v : value) : bool :=
  match v with
  | Float _ => true
  | Obj fields => existsb (fun kv => match kv with (_, x) => has_float x end) fields
  | Arr items => existsb has_float items
  | _ => false
  end.

End Json.

(* ===================================================================== *)
(** * [iceberg_etl_job.py]: the column normalizer *)
(* ===================================================================== *)

Module Etl.

Definition space : ascii := Py.chr 32.
Definition hyphen : ascii := Py.chr 45.
Definition period : ascii := Py.chr 46.
Definition lparen : ascii := Py.chr 40.
Definition rparen : ascii := Py.chr 41.
Definition slash : ascii := Py.chr 47.
Definition backslash : ascii := Py.chr 92.

(** The chain of [replace] calls of [sanitize_column_names], in the
    order of the source. *)
Definition replace_chain (s : string) : string :=
  Py.replace backslash "_"
    (Py.replace slash "_"
      (Py.replace rparen EmptyString
        (Py.replace lparen EmptyString
          (Py.replace period "_"
            (Py.replace hyphen "_"
              (Py.replace space "_" s)))))).

(** [new_name] of one loop iteration, as a function of [old_name]. *)
Definition sanitize_name (old_name : string) : string :=
  replace_chain (Py.lower (Py.strip old_name)).

(** What the loop needs of a Spark DataFrame. *)
Class DataFrameAPI (DF : Type) : Type := {
  columns : DF -> list string;
  withColumnRenamed : string -> string -> DF -> DF
}.

(** One iteration of the loop of [sanitize_column_names]. *)
Definition loop_body {DF} `{DataFrameAPI DF} (df : DF) (old_name : string) : DF :=
  let new_name := sanitize_name old_name in
  if String.eqb new_name old_name then df
  else withColumnRenamed old_name new_name df.

(** [sanitize_column_names(df)]: the loop runs over the column list of
    the frame it was given and renames in the frame built so far. *)
Definition sanitize_column_names {DF} `{DataFrameAPI DF} (df : DF) : DF :=
  fold_left loop_body (columns df) df.

(** A frame reduced to its header.  Spark renames every column that its
    resolver matches with the existing name, exactly or (the default)
    up to case. *)
Record Frame : Type := {
  header : list string;
  caseSensitive : bool
}.

Definition resolver (f : Frame) (a b : string) : bool :=
  if caseSensitive f then String.eqb a b
  else String.eqb (Py.lower a) (Py.lower b).

Definition rename (existing new : string) (f : Frame) : Frame :=
  {| header := map (fun c => if resolver f c existing then new else c) (header f);
     caseSensitive := caseSensitive f |}.

#[global] Instance Frame_api : DataFrameAPI Frame :=
  {| columns := header; withColumnRenamed := rename |}.

End Etl.

(* ===================================================================== *)
(** * The remote services, as the lambdas see them *)
(* ===================================================================== *)

Module Aws.

(** Environment variables read at import time. *)
Record Config : Type := {
  DATA_BUCKET : string;
  METADATA_TABLE : string;
  ATHENA_WORKGROUP : string;
  ATHENA_OUTPUT : string;
  GLUE_DATABASE : string
}.

(** [result["QueryExecution"]] of one [get_query_execution] call. *)
Record QueryExecution : Type := {
  State : string;
  StateChangeReason : option string;
  DataScannedInBytes : option Z;
  EngineExecutionTimeInMillis : option Z
}.

(** One cell of a result row: its ["VarCharValue"], when present. *)
Definition Datum : Type := option string.
Definition Row : Type := list Datum.

Record ResultSet : Type := {
  ColumnInfo : list (string * string);      (* Name, Type *)
  Rows : list Row
}.

(** The query engine during one lambda invocation.  Between two
    consecutive polls the caller sleeps, so the answer to a poll is
    determined by its rank (0 for the first poll). *)
Record Athena : Type := {
  start_query_execution :
    string (* QueryString *) -> string (* Database *) -> string (* WorkGroup *) ->
    Py.result string;
  get_query_execution : string (* QueryExecutionId *) -> nat -> Py.result QueryExecution;
  get_query_results : string -> Py.result ResultSet
}.

(** What a polling loop has consumed: polls made and time slept. *)
Record Clock : Type := { polls : nat; slept : Z }.

Definition clock0 : Clock := {| polls := 0; slept := 0 |}.
Definition tick (c : Clock) : Clock :=
  {| polls := S (polls c); slept := slept c |}.
Definition sleep (d : Z) (c : Clock) : Clock :=
  {| polls := polls c; slept := slept c + d |}.

(** The Glue catalog: the column names [get_table] lists, and the
    outcome of [delete_table]. *)
Record Glue : Type := {
  get_table : string -> string -> Py.result (list string);
  delete_table : string -> string -> Py.result unit
}.

End Aws.

(* ===================================================================== *)
(** * [athena_query.py]: the bounded query primitive *)
(* ===================================================================== *)

Module AthenaQuery.
Import Aws.

(** The dictionary [_execute_query] returns. *)
Record Response : Type := {
  status : string;
  error : option string;
  query_execution_id : string;
  columns : list string;
  column_types : list string;
  data : list (list (string * string));
  row_count : Z;
  data_scanned_bytes : Z;
  execution_time_ms : Z
}.

Definition failure (state reason qid : string) : Response :=
  {| status := state; error := Some reason; query_execution_id := qid;
     columns := []; column_types := []; data := []; row_count := 0;
     data_scanned_bytes := 0; execution_time_ms := 0 |}.

(** [record[k] = v] on a dictionary given by its items in the order of
    insertion: a key that is already there keeps its place and takes the
    new value. *)
Fixpoint assign (k v : string) (record : list (string * string)) :
    list (string * string) :=
  match record with
  | [] => [(k, v)]
  | (k', v') :: rest =>
      if String.eqb k' k then (k', v) :: rest else (k', v') :: assign k v rest
  end.

(** The loop over the cells of one row, from the cell of index [j] on:
    [record[columns[j]] = value]; an index past the columns raises. *)
Fixpoint record_from (cols : list string) (j : nat) (cells : Row)
    (record : list (string * string)) : Py.result (list (string * string)) :=
  match cells with
  | [] => Py.Ok record
  | field :: cells' =>
      match cols !! j with
      | None => Py.Raise (Py.Exn "IndexError" "list index out of range")
      | Some c => record_from cols (S j) cells' (assign c (default EmptyString field) record)
      end
  end.

(** The record of one row, built from the empty dictionary. *)
Definition record_of (cols : list string) (cells : Row) :
    Py.result (list (string * string)) :=
  record_from cols 0 cells [].

Fixpoint records_of (cols : list string) (rows : list Row) :
    Py.result (list (list (string * string))) :=
  match rows with
  | [] => Py.Ok []
  | row :: rows' =>
      Py.bind (record_of cols row)
        (fun r => Py.bind (records_of cols rows') (fun rs => Py.Ok (r :: rs)))
  end.

(** The state of the polling loop: the clock and the last answer. *)
Definition LoopState : Type := (Clock * option QueryExecution)%type.

Definition poll_body (athena : Athena) (qid : string) (attempt : nat)
    (s : LoopState) : Py.ctl Response * LoopState :=
  match get_query_execution athena qid (polls (fst s)) with
  | Py.Raise e => (Py.Throw e, (tick (fst s), snd s))
  | Py.Ok result =>
      let s1 : LoopState := (tick (fst s), Some result) in
      let state := State result in
      if String.eqb state "SUCCEEDED" then (Py.Break, s1)
      else if String.eqb state "FAILED" || String.eqb state "CANCELLED" then
        (Py.Return
           (failure state (default "Query execution failed" (StateChangeReason result)) qid),
         s1)
      else (Py.Continue, (sleep 2 (fst s1), snd s1))
  end.

Definition _execute_query (cfg : Config) (athena : Athena)
    (query : string) (database : option string) : Py.result Response * Clock :=
  let db := match database with
            | Some d => if String.eqb d EmptyString then GLUE_DATABASE cfg else d
            | None => GLUE_DATABASE cfg
            end in
  match start_query_execution athena query db (ATHENA_WORKGROUP cfg) with
  | Py.Raise e => (Py.Raise e, clock0)
  | Py.Ok qid =>
      match Py.for_range 60 0 (poll_body athena qid) (clock0, None) with
      | (Py.Raised e, s) => (Py.Raise e, fst s)
      | (Py.Returned r, s) => (Py.Ok r, fst s)
      | (Py.Exhausted, s) =>
          (Py.Ok (failure "TIMEOUT" "Query timed out after 120 seconds" qid), fst s)
      | (Py.Broke, s) =>
          (Py.bind (get_query_results athena qid) (fun results =>
           let cols := map fst (ColumnInfo results) in
           Py.bind (records_of cols (tail (Rows results))) (fun recs =>
           Py.Ok {| status := "SUCCEEDED"; error := None;
                    query_execution_id := qid;
                    columns := cols;
                    column_types := map snd (ColumnInfo results);
                    data := recs;
                    row_count := Z.of_nat (length recs);
                    data_scanned_bytes :=
                      default 0 (snd s ≫= DataScannedInBytes);
                    execution_time_ms :=
                      default 0 (snd s ≫= EngineExecutionTimeInMillis) |})),
           fst s)
      end
  end.

(** ** The handler *)

Definition quote : string := String (Py.chr 34) EmptyString.

(** [_list_tables]: [database or GLUE_DATABASE]. *)
Definition _list_tables (cfg : Config) (athena : Athena) (database : option string) :
    Py.result Response * Clock :=
  let db := match database with
            | Some d => if String.eqb d EmptyString then GLUE_DATABASE cfg else d
            | None => GLUE_DATABASE cfg
            end in
  let query := String.append "SHOW TABLES IN " (String.append quote (String.append db quote)) in
  _execute_query cfg athena query (Some db).

(** The parsed body of a request; every field is read with [body.get]. *)
Record Body : Type := {
  action : option string;
  query : option string;
  database : option string
}.

(** The request: the outcome of [json.loads] on its body (on the text of
    an empty dictionary when there is none). *)
Record Event : Type := { body : Py.result Body }.

Inductive Reply : Type :=
| Result (r : Response)
| Error (msg : string).

Record HttpResponse : Type := { statusCode : Z; reply : Reply }.

Definition _cors_response (status_code : Z) (r : Reply) : HttpResponse :=
  {| statusCode := status_code; reply := r |}.

Definition dangerous_keywords : list string :=
  ["DROP DATABASE"; "DROP SCHEMA"; "CREATE USER"; "GRANT"].

(** The loop over the keywords: the first one found in the query. *)
Definition first_dangerous (query_upper : list N) : option string :=
  find (fun keyword => Py.contains_points (Py.points keyword) query_upper)
       dangerous_keywords.

Definition handler (cfg : Config) (athena : Athena) (event : Event) :
    HttpResponse * Clock :=
  let attempt : Py.result HttpResponse * Clock :=
    match body event with
    | Py.Raise e => (Py.Raise e, clock0)
    | Py.Ok b =>
        let action := default "query" (action b) in
        let query := default EmptyString (query b) in
        let database := default (GLUE_DATABASE cfg) (database b) in
        if String.eqb action "list_tables" then
          match _list_tables cfg athena (Some (GLUE_DATABASE cfg)) with
          | (Py.Ok result, c) => (Py.Ok (_cors_response 200 (Result result)), c)
          | (Py.Raise e, c) => (Py.Raise e, c)
          end
        else if String.eqb query EmptyString then
          (Py.Ok (_cors_response 400 (Error "Query is required")), clock0)
        else
          let query_upper := Py.strip_points (Py.upper query) in
          match first_dangerous query_upper with
          | Some keyword =>
              (Py.Ok (_cors_response 400
                        (Error (String.append "Dangerous operation detected: " keyword))),
               clock0)
          | None =>
              match _execute_query cfg athena query (Some database) with
              | (Py.Ok result, c) =>
                  if negb (String.eqb (status result) "SUCCEEDED")
                  then (Py.Ok (_cors_response 400 (Result result)), c)
                  else (Py.Ok (_cors_response 200 (Result result)), c)
              | (Py.Raise e, c) => (Py.Raise e, c)
              end
          end
    end in
  match attempt with
  | (Py.Ok r, c) => (r, c)
  | (Py.Raise e, c) => (_cors_response 500 (Error (Py.exn_msg e)), c)
  end.

End AthenaQuery.

(* ===================================================================== *)
(** * [validation.py]: the validation engine *)
(* ===================================================================== *)

Module Validation.
Import Aws.

Definition dquote : string := String (Py.chr 34) EmptyString.
Definition newline : string := String (Py.chr 10) EmptyString.
Definition star : string := String (Py.chr 42) EmptyString.

(** [re.sub(r'[^a-z0-9]', '_', s)]. *)
Definition alnum_lower (c : ascii) : bool :=
  Py.between 97 122 c || Py.between 48 57 c.

Fixpoint re_sub_non_alnum (s : string) : string :=
  match s with
  | EmptyString => EmptyString
  | String c r =>
      String (if alnum_lower c then c else Py.chr 95) (re_sub_non_alnum r)
  end.

(** The expression applied to every [col] of the header in
    [_get_csv_schema]. *)
Definition csv_normalize (col : string) : string :=
  re_sub_non_alnum (Py.lower (Py.strip col)).

(** [bytes.count(sub)]: occurrences of [sub], not overlapping. *)
Fixpoint count_from (sub : string) (skip : nat) (s : string) : Z :=
  match s with
  | EmptyString => 0
  | String _ r =>
      match skip with
      | S k => count_from sub k r
      | O =>
          if String.prefix sub s
          then 1 + count_from sub (String.length sub - 1) r
          else count_from sub 0 r
      end
  end.

Definition count (sub content : string) : Z := count_from sub 0 content.

Section Engine.

(** [list(csv.reader(io.StringIO(content.decode("utf-8", "replace"))))] *)
Variable csv_reader : string -> list (list string).
(** [hashlib.md5(content).hexdigest()] *)
Variable md5_hexdigest : string -> string.
(** [int(s)] on a string; [None] when it raises [ValueError]. *)
Variable int_of_str : string -> option Z.

Variable cfg : Config.

Definition _count_csv_rows (content : string) : Z :=
  Z.max 0 (Z.of_nat (length (csv_reader content)) - 1).

Definition _get_csv_schema (content : string) : list string :=
  let header := hd [] (csv_reader content) in
  map csv_normalize header.

Definition _compute_checksum (content : string) : string :=
  md5_hexdigest content.

Definition _count_source_rows (content file_type : string) : Z :=
  let ft := Py.lower file_type in
  if String.eqb ft "csv" then _count_csv_rows content
  else if String.eqb ft "xlsx" || String.eqb ft "xls" then
    if 0 <? count newline content
    then Z.max 0 (count newline content - 1) else 0
  else if String.eqb ft "parquet" then -1
  else if String.eqb ft "xml" then
    count "<record" content + count "<row" content + count "<item" content
  else if String.eqb ft "yaml" || String.eqb ft "yml" then
    Z.max 0 (count (String.append newline "-") content)
  else count newline content.

Definition _get_source_schema (content file_type : string) : list string :=
  if String.eqb (Py.lower file_type) "csv" then _get_csv_schema content
  else [].

(** One iteration of the polling loop of [_run_athena_query]. *)
Definition poll_body (athena : Athena) (qid : string) (i : nat)
    (c : Clock) : Py.ctl Empty_set * Clock :=
  match get_query_execution athena qid (polls c) with
  | Py.Raise e => (Py.Throw e, tick c)
  | Py.Ok result =>
      let state := State result in
      if String.eqb state "SUCCEEDED" then (Py.Break, tick c)
      else if String.eqb state "FAILED" || String.eqb state "CANCELLED" then
        let reason := default "Unknown" (StateChangeReason result) in
        (Py.Throw (Py.Exception
           (String.append "Athena query "
             (String.append state (String.append ": " reason)))),
         tick c)
      else (Py.Continue, sleep 2 (tick c))
  end.

Definition _run_athena_query (athena : Athena) (query : string) :
    Py.result (list Row) * Clock :=
  match start_query_execution athena query (GLUE_DATABASE cfg)
          (ATHENA_WORKGROUP cfg) with
  | Py.Raise e => (Py.Raise e, clock0)
  | Py.Ok qid =>
      match Py.for_range 60 0 (poll_body athena qid) clock0 with
      | (Py.Raised e, c) => (Py.Raise e, c)
      | (Py.Returned r, c) => match r with end    (* the loop has no return *)
      | (Py.Exhausted, c) =>
          (Py.Raise (Py.Exception "Athena query timed out"), c)
      | (Py.Broke, c) =>
          (Py.bind (get_query_results athena qid)
             (fun results => Py.Ok (Rows results)), c)
      end
  end.

Definition count_query (table : string) : string :=
  String.append "SELECT COUNT("
    (String.append star (String.append ") as cnt FROM "
    (String.append dquote (String.append (GLUE_DATABASE cfg)
      (String.append dquote (String.append "."
        (String.append dquote (String.append table dquote)))))))).

(** [int(rows[1]["Data"][0]["VarCharValue"])] *)
Definition second_row_count (rows : list Row) : Py.result Z :=
  match rows !! 1%nat with
  | None => Py.Raise (Py.Exn "IndexError" "list index out of range")
  | Some row =>
      match row !! 0%nat with
      | None => Py.Raise (Py.Exn "IndexError" "list index out of range")
      | Some None => Py.Raise (Py.Exn "KeyError" "VarCharValue")
      | Some (Some v) =>
          match int_of_str v with
          | None => Py.Raise (Py.Exn "ValueError" "invalid literal for int()")
          | Some z => Py.Ok z
          end
      end
  end.

(** The [try] suite of [_get_target_row_count]. *)
Definition count_attempt (athena : Athena) (table : string) : Py.result Z :=
  Py.bind (fst (_run_athena_query athena (count_query table)))
    (fun rows =>
       if (1 <? length rows)%nat then second_row_count rows
       else Py.Ok 0).

Definition _get_target_row_count (athena : Athena) (database table : string) : Z :=
  match count_attempt athena table with
  | Py.Ok n => n
  | Py.Raise _ => -1            (* except Exception *)
  end.

Definition _get_target_schema (glue : Glue) (database table : string) : list string :=
  match get_table glue (GLUE_DATABASE cfg) table with
  | Py.Ok cols => map Py.lower cols
  | Py.Raise _ => []           (* except Exception *)
  end.

(** The event of [validate_target]; the optional fields are read with
    [event.get(key, default)]. *)
Record TargetEvent : Type := {
  database : string;
  table : string;
  source_row_count : option Z;
  source_schema : option (list string);
  source_checksum : option string;
  load_type : option string
}.

Record ValidationDetails : Type := {
  row_count_match : bool;
  d_schema_match : bool;
  d_checksum_match : bool;
  d_source_row_count : Z;
  d_target_row_count : Z;
  d_source_schema : list string;
  d_target_schema : list string
}.

Record TargetResult : Type := {
  target_row_count : Z;
  schema_match : bool;
  checksum_match : bool;
  validation_status : string;
  validation_details : ValidationDetails
}.

Definition nonempty {A} (l : list A) : bool :=
  match l with [] => false | _ => true end.

Definition validate_target (athena : Athena) (glue : Glue)
    (event : TargetEvent) : TargetResult :=
  let source_row_count := default (-1) (source_row_count event) in
  let source_schema := default [] (source_schema event) in
  let load_type := default "full" (load_type event) in
  let target_row_count := _get_target_row_count athena (database event) (table event) in
  let target_schema := _get_target_schema glue (database event) (table event) in
  let row_count_match :=
    if String.eqb load_type "full" then source_row_count =? target_row_count
    else target_row_count >=? source_row_count in
  let schema_match :=
    if nonempty source_schema && nonempty target_schema then
      let source_set : gset string := list_to_set (map Py.lower source_schema) in
      let target_set : gset string := list_to_set (map Py.lower target_schema) in
      bool_decide (source_set ⊆ target_set)
    else true in
  let checksum_match := true in
  let validation_status :=
    if row_count_match && schema_match then "PASSED" else "FAILED" in
  {| target_row_count := target_row_count;
     schema_match := schema_match;
     checksum_match := checksum_match;
     validation_status := validation_status;
     validation_details :=
       {| row_count_match := row_count_match;
          d_schema_match := schema_match;
          d_checksum_match := checksum_match;
          d_source_row_count := source_row_count;
          d_target_row_count := target_row_count;
          d_source_schema := source_schema;
          d_target_schema := target_schema |} |}.

(** [s3_client.get_object(Bucket=..., Key=...)["Body"].read()] *)
Variable get_object : string -> string -> Py.result string.

Definition _get_s3_object (s3_key : string) : Py.result string :=
  get_object (DATA_BUCKET cfg) s3_key.

(** The event of [validate_source]; both keys are read with
    [event[key]]. *)
Record SourceEvent : Type := {
  s3_key : option string;
  file_type : option string
}.

Record SourceResult : Type := {
  r_source_row_count : Z;
  r_source_schema : list string;
  r_source_checksum : string;
  r_status : string
}.

Definition subscript (key : string) (v : option string) : Py.result string :=
  match v with
  | Some x => Py.Ok x
  | None => Py.Raise (Py.Exn "KeyError" (String.append "'" (String.append key "'")))
  end.

Definition validate_source (event : SourceEvent) : Py.result SourceResult :=
  Py.bind (subscript "s3_key" (s3_key event)) (fun s3_key =>
  Py.bind (subscript "file_type" (file_type event)) (fun file_type =>
  Py.bind (_get_s3_object s3_key) (fun content =>
  Py.Ok {| r_source_row_count := _count_source_rows content file_type;
           r_source_schema := _get_source_schema content file_type;
           r_source_checksum := _compute_checksum content;
           r_status := "VALIDATED" |}))).

End Engine.

End Validation.

(* ===================================================================== *)
(** * [metadata_logger.py]: the job ledger *)
(* ===================================================================== *)

Module MetadataLogger.

(** The scalar attribute values of a ledger item.  A float is kept as
    its [str()]; [Decimal(str(obj))] has the same text. *)
Inductive value : Type :=
| VStr (s : string)
| VInt (z : Z)
| VBool (b : bool)
| VFloat (repr : string)
| VDecimal (repr : string).

(** An item is a flat dictionary; the table is keyed by the hash key
    [job_id] and the range key [start_time]. *)
Abbreviation item := (gmap string value).
Abbreviation ledger := (gmap (string * string) (gmap string value)).

(** [_convert_floats] on a scalar, and on the (flat) item dictionary. *)
Definition convert_value (obj : value) : value :=
  match obj with
  | VFloat r => VDecimal r
  | _ => obj
  end.

Definition _convert_floats (obj : item) : item := convert_value <$> obj.

Definition put_item (it : item) (job_id start_time : string) (table : ledger) : ledger :=
  <[(job_id, start_time) := it]> table.

(** [event["validation_result"]], as [validate_target] returns it. *)
Record ValidationResult : Type := {
  r_validation_status : option string;
  r_target_row_count : option value;
  r_schema_match : option bool;
  r_checksum_match : option bool
}.

Definition no_validation_result : ValidationResult :=     (* the default {} *)
  {| r_validation_status := None; r_target_row_count := None;
     r_schema_match := None; r_checksum_match := None |}.

(** [event["error"]], as Step Functions passes it. *)
Record ErrorInfo : Type := {
  Cause : option string;
  Error : option string
}.

Definition no_error : ErrorInfo := {| Cause := None; Error := None |}.

(** The event of [log_success] and [log_failure]; every field is read
    with [event.get(key, default)]. *)
Record Event : Type := {
  job_id : option string;
  database : option string;
  table : option string;
  email : option string;
  file_name : option string;
  start_time : option string;
  validation_result : option ValidationResult;
  source_row_count : option value;
  error : option ErrorInfo
}.

(** What the two operations return. *)
Record Logged : Type := {
  l_status : string;
  l_job_id : string;
  l_error : option string
}.

Section Logger.

(** [str(uuid.uuid4())] *)
Variable uuid4 : string.
(** [datetime.now(timezone.utc).isoformat()], at the default of
    [start_time] and at [end_time]. *)
Variable now_start now_end : string.
(** [_calculate_duration]: the minutes and seconds from the parsed
    [start_time] to now, or N/A when it does not parse. *)
Variable _calculate_duration : string -> string.
(** [str(error)] of the error dictionary. *)
Variable str_of_error : ErrorInfo -> string.

Definition success_item (event : Event) : item :=
  let job_id := default uuid4 (job_id event) in
  let database := default "unknown" (database event) in
  let table_name := default "unknown" (table event) in
  let email := default "unknown" (email event) in
  let file_name := default "unknown" (file_name event) in
  let start_time := default now_start (start_time event) in
  let end_time := now_end in
  let duration := _calculate_duration start_time in
  let validation_result := default no_validation_result (validation_result event) in
  let source_row_count := default (VInt 0) (source_row_count event) in
  _convert_floats (list_to_map [
    ("job_id", VStr job_id);
    ("file_name", VStr file_name);
    ("table_name", VStr table_name);
    ("database_name", VStr database);
    ("archived_by", VStr email);
    ("start_time", VStr start_time);
    ("end_time", VStr end_time);
    ("duration", VStr duration);
    ("validation_status",
       VStr (default "PASSED" (r_validation_status validation_result)));
    ("source_row_count", source_row_count);
    ("target_row_count", default (VInt 0) (r_target_row_count validation_result));
    ("schema_match", VBool (default true (r_schema_match validation_result)));
    ("checksum_match", VBool (default true (r_checksum_match validation_result)));
    ("error_message", VStr EmptyString);
    ("status", VStr "SUCCESS")
  ]).

Definition log_success (event : Event) (tbl : ledger) : Logged * ledger :=
  let job_id := default uuid4 (job_id event) in
  let start_time := default now_start (start_time event) in
  ({| l_status := "SUCCESS"; l_job_id := job_id; l_error := None |},
   put_item (success_item event) job_id start_time tbl).

Definition error_message (event : Event) : string :=
  let error := default no_error (error event) in
  default (default (str_of_error error) (Error error)) (Cause error).

Definition failure_item (event : Event) : item :=
  let job_id := default uuid4 (job_id event) in
  let database := default "unknown" (database event) in
  let table_name := default "unknown" (table event) in
  let email := default "unknown" (email event) in
  let file_name := default "unknown" (file_name event) in
  let start_time := default now_start (start_time event) in
  let end_time := now_end in
  let duration := _calculate_duration start_time in
  _convert_floats (list_to_map [
    ("job_id", VStr job_id);
    ("file_name", VStr file_name);
    ("table_name", VStr table_name);
    ("database_name", VStr database);
    ("archived_by", VStr email);
    ("start_time", VStr start_time);
    ("end_time", VStr end_time);
    ("duration", VStr duration);
    ("validation_status", VStr "FAILED");
    ("error_message", VStr (String.substring 0 1000 (error_message event)));
    ("status", VStr "FAILED")
  ]).

Definition log_failure (event : Event) (tbl : ledger) : Logged * ledger :=
  let job_id := default uuid4 (job_id event) in
  let start_time := default now_start (start_time event) in
  ({| l_status := "FAILED"; l_job_id := job_id;
      l_error := Some (error_message event) |},
   put_item (failure_item event) job_id start_time tbl).

(** The direct (Step Functions) branch of [handler]: the event carries
    an [action] and no [requestContext]. *)
Definition handler_direct (action : string) (event : Event) (tbl : ledger) :
    option (Logged * ledger) :=
  if String.eqb action "log_success" then Some (log_success event tbl)
  else if String.eqb action "log_failure" then Some (log_failure event tbl)
  else None.     (* falls through to the API Gateway routes *)

End Logger.

(** [table.query(KeyConditionExpression=Key("job_id").eq(job_id))["Items"]]:
    the records stored under that hash key. *)
Definition query_job (job_id : string) (tbl : ledger) : list item :=
  (map_to_list (filter (fun kv => fst (fst kv) = job_id) tbl)).*2.

(** The key [delete_metadata] reads back from an item:
    [item["job_id"]], [item["start_time"]]. *)
Definition key_of (it : item) : Py.result (string * string) :=
  match it !! "job_id", it !! "start_time" with
  | Some (VStr j), Some (VStr t) => Py.Ok (j, t)
  | None, _ => Py.Raise (Py.Exn "KeyError" "'job_id'")
  | _, None => Py.Raise (Py.Exn "KeyError" "'start_time'")
  | _, _ => Py.Raise (Py.Exn "ClientError" "ValidationException")
  end.

(** The loop of [delete_metadata]. *)
Fixpoint delete_all (items : list item) (deleted : Z) (tbl : ledger) :
    Py.result Z * ledger :=
  match items with
  | [] => (Py.Ok deleted, tbl)
  | it :: rest =>
      match key_of it with
      | Py.Raise e => (Py.Raise e, tbl)
      | Py.Ok k => delete_all rest (deleted + 1) (delete k tbl)
      end
  end.

(** What [delete_metadata] returns: the error dictionary, or the number
    of records of its message and the job id. *)
Inductive DeleteReply : Type :=
| JobIdRequired
| Deleted (count : Z) (job_id : string).

Record PathParameters : Type := { jobId : option string }.
Record DeleteEvent : Type := { pathParameters : option PathParameters }.

Definition delete_metadata (event : DeleteEvent) (tbl : ledger) :
    Py.result DeleteReply * ledger :=
  let path_params := default {| jobId := None |} (pathParameters event) in
  let job_id := default EmptyString (jobId path_params) in
  if String.eqb job_id EmptyString then (Py.Ok JobIdRequired, tbl)
  else
    match delete_all (query_job job_id tbl) 0 tbl with
    | (Py.Ok deleted, tbl') => (Py.Ok (Deleted deleted job_id), tbl')
    | (Py.Raise e, tbl') => (Py.Raise e, tbl')
    end.

End MetadataLogger.

(* ===================================================================== *)
(** * [delete_handler.py]: the teardown coordinator *)
(* ===================================================================== *)

Module DeleteHandler.
Import Aws.
Export MetadataLogger (value, VStr, VInt, VBool, VFloat, VDecimal).

(** The object store: the pages [paginate] yields for a prefix (a page
    is the list of keys of its ["Contents"], or the error raised while
    fetching it), and the outcome of [delete_objects]. *)
Record S3 : Type := {
  paginate : string -> list (Py.result (list string));
  delete_objects : list string -> Py.result unit
}.

(** The ledger table: the items [query] returns on the table-name
    index, and the outcome of [delete_item] for a key. *)
Record Dynamo : Type := {
  query : string -> Py.result (list (gmap string value));
  delete_item : value -> value -> Py.result unit
}.

Record World : Type := {
  s3 : S3;
  athena : Athena;
  glue : Glue;
  dynamodb : Dynamo
}.

(** The requests that change a store, in the order they were sent. *)
Inductive Call : Type :=
| S3DeleteObjects (keys : list string)
| AthenaStartQuery (query : string)
| GlueDeleteTable (database table : string)
| DynamoDeleteItem (job_id start_time : value).

Definition Log : Type := list Call.

(** Computations that send requests and may raise. *)
Definition M (A : Type) : Type := Log -> Py.result A * Log.

Definition ret {A} (a : A) : M A := fun l => (Py.Ok a, l).
Definition throw {A} (e : Py.exn) : M A := fun l => (Py.Raise e, l).
Definition bindM {A B} (m : M A) (k : A -> M B) : M B :=
  fun l => match m l with
           | (Py.Ok a, l') => k a l'
           | (Py.Raise e, l') => (Py.Raise e, l')
           end.
Definition send {A} (c : Call) (r : Py.result A) : M A :=
  fun l => (r, (l ++ [c])%list).
(** [try: m except Exception as e: h e] *)
Definition try_except {A} (m : M A) (h : Py.exn -> M A) : M A :=
  fun l => match m l with
           | (Py.Ok a, l') => (Py.Ok a, l')
           | (Py.Raise e, l') => h e l'
           end.

Notation "x <- m ;; k" := (bindM m (fun x => k))
  (at level 100, m at next level, right associativity).

Section Teardown.

Variable cfg : Config.
Variable w : World.

(** The loop body of [_delete_s3_prefix], over the pages still to
    come. *)
Fixpoint delete_pages (pages : list (Py.result (list string)))
    (deleted_count : Z) : M Z :=
  match pages with
  | [] => ret deleted_count
  | Py.Raise e :: _ => throw e
  | Py.Ok objects :: rest =>
      match objects with
      | [] => delete_pages rest deleted_count          (* continue *)
      | _ =>
          _ <- send (S3DeleteObjects objects) (delete_objects (s3 w) objects) ;;
          delete_pages rest (deleted_count + Z.of_nat (length objects))
      end
  end.

Definition _delete_s3_prefix (prefix : string) : M Z :=
  delete_pages (paginate (s3 w) prefix) 0.

Definition drop_query (database table : string) : string :=
  String.append "DROP TABLE IF EXISTS "
    (String.append Validation.dquote (String.append database
      (String.append Validation.dquote (String.append "."
        (String.append Validation.dquote (String.append table
          (String.append Validation.dquote " PURGE"))))))).

(** One iteration of the waiting loop of [_drop_iceberg_table]. *)
Definition poll_body (query_id : string) (i : nat) (c : Clock) :
    Py.ctl bool * Clock :=
  match get_query_execution (athena w) query_id (polls c) with
  | Py.Raise e => (Py.Throw e, tick c)
  | Py.Ok result =>
      let state := State result in
      if String.eqb state "SUCCEEDED" then (Py.Return true, tick c)
      else if String.eqb state "FAILED" || String.eqb state "CANCELLED"
      then (Py.Return false, tick c)
      else (Py.Continue, sleep 2 (tick c))
  end.

(** [_drop_iceberg_table], with the clock of its waiting loop. *)
Definition drop_iceberg_table_timed (database table : string) : M (bool * Clock) :=
  try_except
    (let query := drop_query database table in
     query_id <- send (AthenaStartQuery query)
                   (start_query_execution (athena w) query database
                      (ATHENA_WORKGROUP cfg)) ;;
     match Py.for_range 30 0 (poll_body query_id) clock0 with
     | (Py.Returned b, c) => ret (b, c)
     | (Py.Raised e, c) => ret (false, c)     (* except Exception *)
     | (Py.Exhausted, c) => ret (false, c)
     | (Py.Broke, c) => ret (false, c)        (* the loop has no break *)
     end)
    (fun _ => ret (false, clock0)).

Definition _drop_iceberg_table (database table : string) : M bool :=
  r <- drop_iceberg_table_timed database table ;; ret (fst r).

Definition _delete_glue_table (database table : string) : M bool :=
  try_except
    (_ <- send (GlueDeleteTable database table)
            (delete_table (glue w) database table) ;;
     ret true)
    (fun e =>
       if String.eqb (Py.exn_class e) "EntityNotFoundException" then ret true
       else ret false).

Definition key_error (k : string) : Py.exn :=
  Py.Exn "KeyError" (String.append "'" (String.append k "'")).

(** [item.get("database_name") == database] *)
Definition in_database (database : string) (item : gmap string value) : bool :=
  match item !! "database_name" with
  | Some (VStr d) => String.eqb d database
  | _ => false
  end.

Fixpoint delete_items (database : string) (items : list (gmap string value))
    (deleted : Z) : M Z :=
  match items with
  | [] => ret deleted
  | item :: rest =>
      if in_database database item then
        match item !! "job_id", item !! "start_time" with
        | Some j, Some t =>
            _ <- send (DynamoDeleteItem j t) (delete_item (dynamodb w) j t) ;;
            delete_items database rest (deleted + 1)
        | None, _ => throw (key_error "job_id")
        | _, None => throw (key_error "start_time")
        end
      else delete_items database rest deleted
  end.

Definition _delete_metadata_for_table (database table : string) : M Z :=
  fun l =>
    match query (dynamodb w) table with
    | Py.Raise e => (Py.Raise e, l)
    | Py.Ok items => delete_items database items 0 l
    end.

(** One entry of [results["steps"]]. *)
Inductive Detail : Type :=
| Prefix (prefix : string) (deleted_objects : Z)
| Catalog (iceberg_dropped glue_deleted : bool)
| Records (deleted_records : Z).

Record Step : Type := {
  action : string;
  detail : Detail;
  step_status : string
}.

Record Results : Type := {
  database : string;
  table : string;
  steps : list Step;
  status : string
}.

Inductive Body : Type :=
| ErrorBody (error : string)
| ResultsBody (results : Results).

Record Response : Type := { statusCode : Z; body : Body }.

Definition _cors_response (status_code : Z) (b : Body) : Response :=
  {| statusCode := status_code; body := b |}.

Record PathParameters : Type := {
  p_database : option string;
  p_table : option string
}.

Record Event : Type := { pathParameters : option PathParameters }.

Definition raw_prefix (database table : string) : string :=
  String.append database (String.append "/" (String.append table "/raw/")).
Definition warehouse_prefix (database table : string) : string :=
  String.append "warehouse/"
    (String.append database (String.append "/" (String.append table "/"))).

Definition is_success (s : Step) : bool := String.eqb (step_status s) "SUCCESS".

(** The [try] suite of [handler] once [database] and [table] are
    known to be non-empty. *)
Definition teardown (database table : string) : M Response :=
  raw_deleted <- _delete_s3_prefix (raw_prefix database table) ;;
  let steps1 :=
    [ {| action := "delete_s3_raw";
         detail := Prefix (raw_prefix database table) raw_deleted;
         step_status := "SUCCESS" |} ] in
  warehouse_deleted <- _delete_s3_prefix (warehouse_prefix database table) ;;
  let steps2 := (steps1 ++
    [ {| action := "delete_s3_warehouse";
         detail := Prefix (warehouse_prefix database table) warehouse_deleted;
         step_status := "SUCCESS" |} ])%list in
  table_dropped <- _drop_iceberg_table (GLUE_DATABASE cfg) table ;;
  glue_deleted <- _delete_glue_table (GLUE_DATABASE cfg) table ;;
  let steps3 := (steps2 ++
    [ {| action := "delete_catalog_table";
         detail := Catalog table_dropped glue_deleted;
         step_status :=
           if table_dropped || glue_deleted then "SUCCESS" else "FAILED" |} ])%list in
  metadata_deleted <- _delete_metadata_for_table database table ;;
  let steps4 := (steps3 ++
    [ {| action := "delete_metadata";
         detail := Records metadata_deleted;
         step_status := "SUCCESS" |} ])%list in
  let overall_success := forallb is_success steps4 in
  ret (_cors_response 200
         (ResultsBody {| database := database; table := table;
                         steps := steps4;
                         status := if overall_success then "SUCCESS"
                                   else "PARTIAL" |})).

(** [str(e)] of a caught exception. *)
Definition str_of_exn (e : Py.exn) : string := Py.exn_msg e.

Definition handler (event : Event) : Log -> Response * Log :=
  fun l =>
    let path_params :=
      default {| p_database := None; p_table := None |} (pathParameters event) in
    let database := default EmptyString (p_database path_params) in
    let table := default EmptyString (p_table path_params) in
    if String.eqb database EmptyString || String.eqb table EmptyString then
      (_cors_response 400 (ErrorBody "database and table are required"), l)
    else
      match teardown database table l with
      | (Py.Ok r, l') => (r, l')
      | (Py.Raise e, l') => (_cors_response 500 (ErrorBody (str_of_exn e)), l')
      end.

End Teardown.

End DeleteHandler.

(* ===================================================================== *)
(** * [upload_handler.py]: upload intake and pipeline start *)
(* ===================================================================== *)

Module UploadHandler.
Import Aws.

(** [sub in s] for strings. *)
Fixpoint contains (sub s : string) : bool :=
  String.prefix sub s ||
  match s with
  | EmptyString => false
  | String _ r => contains sub r
  end.

Definition unknown_email : string := "unknown@unknown.com".

(** [_extract_email]: the chain of [get] calls, and the [except] clause
    for [AttributeError] and [KeyError]. *)
Definition _extract_email (event : Json.value) : Py.result Json.value :=
  let attempt :=
    Py.bind (Json.get event "requestContext" (Json.Obj [])) (fun rc =>
    Py.bind (Json.get rc "authorizer" (Json.Obj [])) (fun authorizer =>
    Py.bind (Json.get authorizer "jwt" (Json.Obj [])) (fun jwt =>
    Py.bind (Json.get jwt "claims" (Json.Obj [])) (fun claims =>
    Json.get claims "email" (Json.Str unknown_email))))) in
  match attempt with
  | Py.Ok email => Py.Ok email
  | Py.Raise e =>
      if String.eqb (Py.exn_class e) "AttributeError" ||
         String.eqb (Py.exn_class e) "KeyError"
      then Py.Ok (Json.Str unknown_email)
      else Py.Raise e
  end.

(** The entries of [body["files"]], read with [file_info.get]. *)
Record FileInfo : Type := {
  fi_s3_key : option string;
  fi_file_type : option string
}.

(** The parsed body; every field is read with [body.get]. *)
Record Body : Type := {
  file_name : option string;
  file_type : option string;
  database : option string;
  table : option string;
  load_type : option string;
  s3_key : option string;
  files : option (list FileInfo)
}.

(** The request: its route key, the outcome of [json.loads] on its body
    (on the text of an empty dictionary when there is none), and the
    whole event for the claims. *)
Record Event : Type := {
  routeKey : option string;
  body : Py.result Body;
  request : Json.value
}.

(** The input of the state machine.  [p_s3_key] is [None] for the Python
    [None] that the single-file mode passes on when the body has no
    key. *)
Record Payload : Type := {
  p_job_id : string;
  p_s3_key : option string;
  p_file_type : string;
  p_database : string;
  p_table : string;
  p_load_type : string;
  p_email : Json.value;
  p_start_time : string
}.

(** The first ledger record of a job. *)
Record InitialItem : Type := {
  i_job_id : string;
  i_file_name : option string;
  i_table_name : string;
  i_database_name : string;
  i_archived_by : Json.value;
  i_start_time : string;
  i_status : string;
  i_validation_status : string
}.

(** The requests that reach a store or the state machine, in order. *)
Inductive Call : Type :=
| PutItem (item : InitialItem)
| StartExecution (name : string) (input : Payload).

Record Job : Type := {
  j_job_id : string;
  j_execution_arn : string;
  j_s3_key : option string;
  j_status : string
}.

Inductive Reply : Type :=
| Presigned (presigned_url s3_key bucket : string)
| Started (count : nat) (jobs : list Job)
| Failed (error : string).

Record Response : Type := { statusCode : Z; reply : Reply }.

Section Handler.

Variable cfg : Config.
(** [generate_presigned_url] for a bucket, a key and a content type. *)
Variable presign : string -> string -> string -> Py.result string.
(** [sfn_client.start_execution]. *)
Variable start_execution : string -> Payload -> Py.result string.
(** The [k]-th [uuid4], and the clock at the [k]-th pipeline start: the
    ISO time and the whole seconds of the epoch. *)
Variable uuid4 : nat -> string.
Variable iso_now : nat -> string.
Variable epoch_now : nat -> string.

Definition content_types : list (string * string) :=
  [ ("csv", "text/csv");
    ("parquet", "application/octet-stream");
    ("xlsx", "application/vnd.openxmlformats-officedocument.spreadsheetml.sheet");
    ("xls", "application/vnd.ms-excel");
    ("xml", "application/xml");
    ("yaml", "application/x-yaml");
    ("yml", "application/x-yaml");
    ("json", "application/json") ].

Fixpoint assoc (k : string) (l : list (string * string)) : option string :=
  match l with
  | [] => None
  | (k', v) :: rest => if String.eqb k' k then Some v else assoc k rest
  end.

Definition content_type_of (file_type : string) : string :=
  default "application/octet-stream" (assoc (Py.lower file_type) content_types).

(** The structured key of the presigned-url branch. *)
Definition upload_key (database table file_name : string) : string :=
  String.append database (String.append "/" (String.append table
    (String.append "/raw/" file_name))).

Definition _generate_presigned_url (s3_key content_type : string) : Py.result string :=
  presign (DATA_BUCKET cfg) s3_key content_type.

(** [table.put_item(Item=item)] inside [_start_pipeline]: there [table]
    is the parameter of that name, the table name of the request, which
    hides the DynamoDB table of the module; a string has no [put_item]. *)
Definition put_item_on_parameter (table : string) (item : InitialItem) : Py.result unit :=
  Py.Raise (Py.Exn "AttributeError" "'str' object has no attribute 'put_item'").

(** [_start_pipeline] for the [k]-th file of a request. *)
Definition _start_pipeline (k : nat) (job_id : string) (s3_key : option string)
    (file_type database table load_type : string) (email : Json.value)
    (log : list Call) : Py.result string * list Call :=
  let start_time := iso_now k in
  let item :=
    {| i_job_id := job_id; i_file_name := s3_key; i_table_name := table;
       i_database_name := database; i_archived_by := email;
       i_start_time := start_time; i_status := "RUNNING";
       i_validation_status := "PENDING" |} in
  (* try: table.put_item(Item=...) except Exception: print(...) *)
  let log1 :=
    match put_item_on_parameter table item with
    | Py.Ok _ => (log ++ [PutItem item])%list
    | Py.Raise _ => log
    end in
  let input_payload :=
    {| p_job_id := job_id; p_s3_key := s3_key; p_file_type := file_type;
       p_database := database; p_table := table; p_load_type := load_type;
       p_email := email; p_start_time := start_time |} in
  let name := String.append job_id (String.append "-" (epoch_now k)) in
  (start_execution name input_payload, (log1 ++ [StartExecution name input_payload])%list).

(** The loop over the files. *)
Fixpoint start_all (k : nat) (files : list (option string * string))
    (database table load_type : string) (email : Json.value)
    (results : list Job) (log : list Call) : Py.result (list Job) * list Call :=
  match files with
  | [] => (Py.Ok results, log)
  | (s3_key, file_type) :: rest =>
      let job_id := uuid4 k in
      match _start_pipeline k job_id s3_key file_type database table load_type email log with
      | (Py.Raise e, log') => (Py.Raise e, log')
      | (Py.Ok execution_arn, log') =>
          start_all (S k) rest database table load_type email
            (results ++ [ {| j_job_id := job_id; j_execution_arn := execution_arn;
                             j_s3_key := s3_key; j_status := "RUNNING" |} ])%list
            log'
      end
  end.

(** The files of a request with their key and type as the loop reads
    them: the entries of [files], or the single file of the body. *)
Definition files_of (b : Body) : list (option string * string) :=
  match default [] (files b) with
  | [] => [ (s3_key b, default "csv" (file_type b)) ]
  | fs => map (fun fi => (Some (default EmptyString (fi_s3_key fi)),
                          default "csv" (fi_file_type fi))) fs
  end.

Definition _cors_response (status_code : Z) (r : Reply) : Response :=
  {| statusCode := status_code; reply := r |}.

(** The first statement of [handler]: the method of the request, read
    and not used. *)
Definition http_method (event : Json.value) : Py.result Json.value :=
  Py.bind (Json.get event "requestContext" (Json.Obj [])) (fun rc =>
  Py.bind (Json.get rc "http" (Json.Obj [])) (fun http =>
  Json.get http "method" (Json.Str "POST"))).

Definition handler (event : Event) (log : list Call) : Response * list Call :=
  let route_key := default EmptyString (routeKey event) in
  let attempt : Py.result Response * list Call :=
    match Py.bind (http_method (request event)) (fun _ => body event) with
    | Py.Raise e => (Py.Raise e, log)
    | Py.Ok b =>
        if contains "presigned-url" route_key then
          let file_name := default "unknown" (file_name b) in
          let file_type := default "csv" (file_type b) in
          let database := default "default_db" (database b) in
          let table := default "default_table" (table b) in
          let s3_key := upload_key database table file_name in
          (Py.bind (_generate_presigned_url s3_key (content_type_of file_type))
             (fun url => Py.Ok (_cors_response 200
                                  (Presigned url s3_key (DATA_BUCKET cfg)))),
           log)
        else
          match _extract_email (request event) with
          | Py.Raise e => (Py.Raise e, log)
          | Py.Ok email =>
              let database := default "default_db" (database b) in
              let table := default "default_table" (table b) in
              let load_type := default "full" (load_type b) in
              match start_all 0 (files_of b) database table load_type email [] log with
              | (Py.Raise e, log') => (Py.Raise e, log')
              | (Py.Ok results, log') =>
                  (Py.Ok (_cors_response 200 (Started (length results) results)), log')
              end
          end
    end in
  match attempt with
  | (Py.Ok r, log') => (r, log')
  | (Py.Raise e, log') => (_cors_response 500 (Failed (Py.exn_msg e)), log')
  end.

End Handler.

End UploadHandler.

(* ===================================================================== *)
(** * [auth_middleware.py]: who sent the request *)
(* ===================================================================== *)

Module AuthMiddleware.

Definition unknown_email : string := "unknown@unknown.com".

(** [s.replace(old, EmptyString)] reads [s] from the left and drops every
    occurrence of [old] that does not overlap an earlier one; [skip]
    counts the characters of the current occurrence still to drop. *)
Fixpoint remove_from (old : string) (skip : nat) (s : string) : string :=
  match s with
  | EmptyString => EmptyString
  | String c r =>
      match skip with
      | S n => remove_from old n r
      | O =>
          if String.prefix old s
          then remove_from old (String.length old - 1) r
          else String c (remove_from old 0 r)
      end
  end.

Definition remove (old s : string) : string :=
  match old with
  | EmptyString => s
  | _ => remove_from old 0 s
  end.

(** [s.split(sep)] for a one-character separator. *)
Fixpoint split (sep : ascii) (s : string) : list string :=
  match s with
  | EmptyString => [EmptyString]
  | String c r =>
      if Ascii.eqb c sep then EmptyString :: split sep r
      else match split sep r with
           | [] => [String c EmptyString]
           | part :: parts => String c part :: parts
           end
  end.

(** [ch * n]. *)
Fixpoint times (ch : ascii) (n : nat) : string :=
  match n with
  | O => EmptyString
  | S n' => String ch (times ch n')
  end.

(** What [_base64url_decode] hands to [base64.urlsafe_b64decode]. *)
Definition padded (data : string) : string :=
  let padding := (4 - String.length data mod 4)%nat in
  if negb (padding =? 4)%nat then String.append data (times "=" padding) else data.

(** The [dict] that [validate_request] returns. *)
Record UserInfo : Type := {
  email : Json.value;
  sub : Json.value;
  authenticated : bool
}.

Inductive Reply : Type :=
| User (user_info : UserInfo)
| Error (msg : string).

Record Response : Type := { statusCode : Z; body : Reply }.

(** [json.dumps] without [default] accepts what [json.loads] can give. *)
Fixpoint serializable (v : Json.value) : bool :=
  match v with
  | Json.Decimal _ => false
  | Json.Arr items => forallb serializable items
  | Json.Obj fields => forallb (fun kv => match kv with (_, x) => serializable x end) fields
  | _ => true
  end.

Section Decoder.

(** [base64.urlsafe_b64decode], and [json.loads] of the bytes read as
    UTF-8. *)
Variable urlsafe_b64decode : string -> Py.result string.
Variable loads_utf8 : string -> Py.result Json.value.

Definition _base64url_decode (data : string) : Py.result string :=
  urlsafe_b64decode (padded data).

(** [decode_jwt_payload]; the header value need not be a string, and only
    a string has [replace].  Whatever is raised in the [try] suite comes
    out as a [ValueError]. *)
Definition decode_jwt_payload (token : Json.value) : Py.result Json.value :=
  let attempt : Py.result Json.value :=
    match token with
    | Json.Str t =>
        let parts := split "." (remove "Bearer " t) in
        if negb (length parts =? 3)%nat
        then Py.Raise (Py.Exn "ValueError" "Invalid JWT format")
        else
          Py.bind (_base64url_decode (nth 1 parts EmptyString)) (fun payload =>
          loads_utf8 payload)
    | _ => Py.Raise (Json.attribute_error token "replace")
    end in
  match attempt with
  | Py.Ok claims => Py.Ok claims
  | Py.Raise e =>
      Py.Raise (Py.Exn "ValueError" (String.append "Failed to decode JWT: " (Py.exn_msg e)))
  end.

Definition extract_user_email (event : Json.value) : Json.value :=
  let attempt : Py.result Json.value :=
    Py.bind (Json.get event "requestContext" (Json.Obj [])) (fun rc =>
    Py.bind (Json.get rc "authorizer" (Json.Obj [])) (fun authorizer =>
    Py.bind (Json.get authorizer "jwt" (Json.Obj [])) (fun jwt =>
    Py.bind (Json.get jwt "claims" (Json.Obj [])) (fun claims =>
    Py.bind (Json.get claims "email" (Json.Str EmptyString)) (fun email =>
    if Json.truthy email then Py.Ok email
    else
      Py.bind (Json.get event "headers" (Json.Obj [])) (fun headers =>
      Py.bind (Json.get headers "authorization" (Json.Str EmptyString)) (fun auth_header =>
      if Json.truthy auth_header then
        Py.bind (decode_jwt_payload auth_header) (fun payload =>
        Json.get payload "email" (Json.Str unknown_email))
      else Py.Ok (Json.Str unknown_email)))))))) in
  match attempt with
  | Py.Ok email => email
  | Py.Raise _ => Json.Str unknown_email
  end.

Definition extract_user_sub (event : Json.value) : Json.value :=
  let attempt : Py.result Json.value :=
    Py.bind (Json.get event "requestContext" (Json.Obj [])) (fun rc =>
    Py.bind (Json.get rc "authorizer" (Json.Obj [])) (fun authorizer =>
    Py.bind (Json.get authorizer "jwt" (Json.Obj [])) (fun jwt =>
    Py.bind (Json.get jwt "claims" (Json.Obj [])) (fun claims =>
    Json.get claims "sub" (Json.Str EmptyString))))) in
  match attempt with
  | Py.Ok sub => sub
  | Py.Raise _ => Json.Str EmptyString
  end.

(** [email == "unknown@unknown.com"]. *)
Definition is_unknown (email : Json.value) : bool :=
  match email with
  | Json.Str s => String.eqb s unknown_email
  | _ => false
  end.

Definition validate_request (event : Json.value) : Py.result UserInfo :=
  let email := extract_user_email event in
  let sub := extract_user_sub event in
  if is_unknown email && negb (Json.truthy sub)
  then Py.Raise (Py.Exn "PermissionError" "Authentication required")
  else Py.Ok {| email := email; sub := sub; authenticated := true |}.

Definition handler (event : Json.value) : Py.result Response :=
  match validate_request event with
  | Py.Ok user_info =>
      if serializable (email user_info) && serializable (sub user_info)
      then Py.Ok {| statusCode := 200; body := User user_info |}
      else Py.Raise (Py.Exn "TypeError" "Object of type Decimal is not JSON serializable")
  | Py.Raise e =>
      if String.eqb (Py.exn_class e) "PermissionError"
      then Py.Ok {| statusCode := 401; body := Error (Py.exn_msg e) |}
      else Py.Raise e
  end.

End Decoder.

End AuthMiddleware.

(* ===================================================================== *)
(** * Vocabulary of the properties: predicates and sample worlds *)
(* ===================================================================== *)

(** Case analysis over the 256 characters. *)
Ltac each_char c := destruct c as [[] [] [] [] [] [] [] []].

(** [all_chars p s]: every character of [s] satisfies [p]. *)
Fixpoint all_chars (p : ascii -> bool) (s : string) : bool :=
  match s with
  | EmptyString => true
  | String c r => p c && all_chars p r
  end.

(** What the chain of replacements makes of one character. *)
Definition chain_char (c : ascii) : string :=
  Etl.replace_chain (String c EmptyString).


(** A character that is the space or no white space at all. *)
Definition only_space_blank (c : ascii) : bool :=
  negb (Py.isspace c) || Ascii.eqb c Etl.space.

(** A character the writer-side normalizer leaves alone. *)
Definition settled_char (c : ascii) : bool :=
  Ascii.eqb (Py.lower_char c) c && String.eqb (chain_char c) (String c EmptyString).

Definition not_blank (c : ascii) : bool := negb (Py.isspace c).

Definition fixed_name (c : string) : Prop := Etl.sanitize_name c = c.
Definition stable_name (o : string) : Prop :=
  Etl.sanitize_name (Etl.sanitize_name o) = Etl.sanitize_name o.


(** A name with a tab behind an opening parenthesis. *)
Definition tabbed_name : string := String "(" (String (Py.chr 9) "a)").

(** A query engine that fails to start every query. *)
Definition athena_down : Aws.Athena :=
  {| Aws.start_query_execution := fun _ _ _ =>
       Py.Raise (Py.Exn "ClientError" "InternalServerException");
     Aws.get_query_execution := fun _ _ =>
       Py.Raise (Py.Exn "ClientError" "InvalidRequestException");
     Aws.get_query_results := fun _ =>
       Py.Raise (Py.Exn "ClientError" "InvalidRequestException") |}.

(** A query engine that succeeds at the first poll and reports [cnt] as
    the only data row under the header row. *)
Definition athena_counting (cnt : string) : Aws.Athena :=
  {| Aws.start_query_execution := fun _ _ _ => Py.Ok "q-1";
     Aws.get_query_execution := fun _ _ =>
       Py.Ok {| Aws.State := "SUCCEEDED"; Aws.StateChangeReason := None;
                Aws.DataScannedInBytes := None;
                Aws.EngineExecutionTimeInMillis := None |};
     Aws.get_query_results := fun _ =>
       Py.Ok {| Aws.ColumnInfo := [("cnt", "bigint")];
                Aws.Rows := [[Some "cnt"]; [Some cnt]] |} |}.

(** A catalog that lists the given columns for every table. *)
Definition glue_listing (cols : list string) : Aws.Glue :=
  {| Aws.get_table := fun _ _ => Py.Ok cols;
     Aws.delete_table := fun _ _ => Py.Ok tt |}.

Definition test_cfg : Aws.Config :=
  {| Aws.DATA_BUCKET := "bucket"; Aws.METADATA_TABLE := "jobs";
     Aws.ATHENA_WORKGROUP := "primary"; Aws.ATHENA_OUTPUT := "s3://out/";
     Aws.GLUE_DATABASE := "archive" |}.

(** [int()] on the few decimal literals the examples use. *)
Definition int_of_small (s : string) : option Z :=
  if String.eqb s "0" then Some 0
  else if String.eqb s "10" then Some 10
  else if String.eqb s "100" then Some 100
  else if String.eqb s "110" then Some 110
  else None.

Definition target_event (rows : option Z) (schema : option (list string))
    (mode : option string) : Validation.TargetEvent :=
  {| Validation.database := "sales"; Validation.table := "orders";
     Validation.source_row_count := rows; Validation.source_schema := schema;
     Validation.source_checksum := None; Validation.load_type := mode |}.

(** The source row count and the load type [validate_target] works
    with. *)
Definition source_rows (event : Validation.TargetEvent) : Z :=
  default (-1) (Validation.source_row_count event).
Definition mode_of (event : Validation.TargetEvent) : string :=
  default "full" (Validation.load_type event).

(** The verdict carried by the event, as [log_success] reads it. *)
Definition verdict_of (event : MetadataLogger.Event) : string :=
  default "PASSED"
    (MetadataLogger.r_validation_status
       (default MetadataLogger.no_validation_result
          (MetadataLogger.validation_result event))).

(** An event whose validation came out FAILED. *)
Definition failed_validation_event : MetadataLogger.Event :=
  {| MetadataLogger.job_id := Some "job-7";
     MetadataLogger.database := Some "sales";
     MetadataLogger.table := Some "orders";
     MetadataLogger.email := Some "ann@example.org";
     MetadataLogger.file_name := Some "orders.csv";
     MetadataLogger.start_time := Some "2024-05-01T10:00:00Z";
     MetadataLogger.validation_result :=
       Some {| MetadataLogger.r_validation_status := Some "FAILED";
               MetadataLogger.r_target_row_count := Some (MetadataLogger.VInt 9);
               MetadataLogger.r_schema_match := Some true;
               MetadataLogger.r_checksum_match := Some true |};
     MetadataLogger.source_row_count := Some (MetadataLogger.VInt 10);
     MetadataLogger.error := None |}.

Definition str_of_error_stub (e : MetadataLogger.ErrorInfo) : string := "{}".

(** A state in which the loops keep waiting. *)
Definition pending (state : string) : bool :=
  negb (String.eqb state "SUCCEEDED" || String.eqb state "FAILED" ||
        String.eqb state "CANCELLED").

(** The poll of rank [k] answers with a state that is not terminal. *)
Definition pending_at (athena : Aws.Athena) (qid : string) (k : nat) : bool :=
  match Aws.get_query_execution athena qid k with
  | Py.Ok r => pending (Aws.State r)
  | Py.Raise _ => false
  end.

Definition running : Aws.QueryExecution :=
  {| Aws.State := "RUNNING"; Aws.StateChangeReason := None;
     Aws.DataScannedInBytes := None; Aws.EngineExecutionTimeInMillis := None |}.

Definition succeeded : Aws.QueryExecution :=
  {| Aws.State := "SUCCEEDED"; Aws.StateChangeReason := None;
     Aws.DataScannedInBytes := None; Aws.EngineExecutionTimeInMillis := None |}.

(** An engine whose query never leaves RUNNING. *)
Definition athena_stuck : Aws.Athena :=
  {| Aws.start_query_execution := fun _ _ _ => Py.Ok "q-1";
     Aws.get_query_execution := fun _ _ => Py.Ok running;
     Aws.get_query_results := fun _ =>
       Py.Raise (Py.Exn "ClientError" "InvalidRequestException") |}.

(** An engine whose query succeeds at the poll of rank 45, that is after
    90 time units. *)
Definition athena_slow : Aws.Athena :=
  {| Aws.start_query_execution := fun _ _ _ => Py.Ok "q-1";
     Aws.get_query_execution := fun _ k =>
       Py.Ok (if (k <? 45)%nat then running else succeeded);
     Aws.get_query_results := fun _ =>
       Py.Ok {| Aws.ColumnInfo := []; Aws.Rows := [] |} |}.

Definition empty_s3 : DeleteHandler.S3 :=
  {| DeleteHandler.paginate := fun _ => [];
     DeleteHandler.delete_objects := fun _ => Py.Ok tt |}.

Definition empty_dynamo : DeleteHandler.Dynamo :=
  {| DeleteHandler.query := fun _ => Py.Ok [];
     DeleteHandler.delete_item := fun _ _ => Py.Ok tt |}.

Definition world_with (athena : Aws.Athena) : DeleteHandler.World :=
  {| DeleteHandler.s3 := empty_s3; DeleteHandler.athena := athena;
     DeleteHandler.glue := glue_listing []; DeleteHandler.dynamodb := empty_dynamo |}.

(** The polls of rank [from], ..., [from + n - 1] all find the query in a
    state that is not terminal. *)
Definition stalls (athena : Aws.Athena) (qid : string) (from n : nat) : Prop :=
  forall k, (from <= k < from + n)%nat -> pending_at athena qid k = true.

Definition after (n : nat) (c : Aws.Clock) : Aws.Clock :=
  {| Aws.polls := Aws.polls c + n; Aws.slept := Aws.slept c + 2 * Z.of_nat n |}.

Definition access_denied : Py.exn := Py.Exn "ClientError" "AccessDenied".

(** An object store that refuses to list. *)
Definition s3_denied : DeleteHandler.S3 :=
  {| DeleteHandler.paginate := fun _ => [Py.Raise access_denied];
     DeleteHandler.delete_objects := fun _ => Py.Ok tt |}.

(** An object store with two pages of objects under every prefix. *)
Definition s3_two_pages : DeleteHandler.S3 :=
  {| DeleteHandler.paginate := fun _ => [Py.Ok ["a"; "b"]; Py.Ok []; Py.Ok ["c"]];
     DeleteHandler.delete_objects := fun _ => Py.Ok tt |}.

(** A ledger whose index query is throttled. *)
Definition dynamo_throttled : DeleteHandler.Dynamo :=
  {| DeleteHandler.query := fun _ =>
       Py.Raise (Py.Exn "ClientError" "ProvisionedThroughputExceededException");
     DeleteHandler.delete_item := fun _ _ => Py.Ok tt |}.

Definition ledger_item (db : string) : gmap string MetadataLogger.value :=
  list_to_map [("job_id", MetadataLogger.VStr "job-7");
               ("start_time", MetadataLogger.VStr "t0");
               ("database_name", MetadataLogger.VStr db)].

Definition dynamo_two_items : DeleteHandler.Dynamo :=
  {| DeleteHandler.query := fun _ => Py.Ok [ledger_item "sales"; ledger_item "other"];
     DeleteHandler.delete_item := fun _ _ => Py.Ok tt |}.

(** A catalog without the table. *)
Definition glue_missing : Aws.Glue :=
  {| Aws.get_table := fun _ _ => Py.Raise (Py.Exn "EntityNotFoundException" "not found");
     Aws.delete_table := fun _ _ =>
       Py.Raise (Py.Exn "EntityNotFoundException" "not found") |}.

Definition teardown_event (database table : string) : DeleteHandler.Event :=
  {| DeleteHandler.pathParameters :=
       Some {| DeleteHandler.p_database := Some database;
               DeleteHandler.p_table := Some table |} |}.

(** The deletions one listing leads to, when nothing fails. *)
Definition page_calls (page : Py.result (list string)) : list DeleteHandler.Call :=
  match page with
  | Py.Ok (o :: os) => [DeleteHandler.S3DeleteObjects (o :: os)]
  | _ => []
  end.

Definition page_count (page : Py.result (list string)) : Z :=
  match page with
  | Py.Ok objects => Z.of_nat (length objects)
  | Py.Raise _ => 0
  end.

Definition s3_calls (pages : list (Py.result (list string))) : list DeleteHandler.Call :=
  flat_map page_calls pages.

Definition s3_count (pages : list (Py.result (list string))) : Z :=
  fold_right (fun page n => page_count page + n) 0 pages.

(** No listing and no deletion under the prefix raises. *)
Definition page_ok (s3 : DeleteHandler.S3) (page : Py.result (list string)) : bool :=
  match page with
  | Py.Ok [] => true
  | Py.Ok objects => negb (Py.raises (DeleteHandler.delete_objects s3 objects))
  | Py.Raise _ => false
  end.

Definition s3_ok (w : DeleteHandler.World) (prefix : string) : bool :=
  forallb (page_ok (DeleteHandler.s3 w))
    (DeleteHandler.paginate (DeleteHandler.s3 w) prefix).

Definition item_calls (database : string) (item : gmap string MetadataLogger.value) :
    list DeleteHandler.Call :=
  if DeleteHandler.in_database database item then
    match item !! "job_id", item !! "start_time" with
    | Some j, Some t => [DeleteHandler.DynamoDeleteItem j t]
    | _, _ => []
    end
  else [].

Definition item_ok (d : DeleteHandler.Dynamo) (database : string)
    (item : gmap string MetadataLogger.value) : bool :=
  if DeleteHandler.in_database database item then
    match item !! "job_id", item !! "start_time" with
    | Some j, Some t => negb (Py.raises (DeleteHandler.delete_item d j t))
    | _, _ => false
    end
  else true.

Definition ledger_calls (w : DeleteHandler.World) (database table : string) :
    list DeleteHandler.Call :=
  match DeleteHandler.query (DeleteHandler.dynamodb w) table with
  | Py.Ok items => flat_map (item_calls database) items
  | Py.Raise _ => []
  end.

Definition items_count (database : string)
    (items : list (gmap string MetadataLogger.value)) : Z :=
  fold_right
    (fun it n => (if DeleteHandler.in_database database it then 1 else 0) + n) 0 items.

Definition ledger_count (w : DeleteHandler.World) (database table : string) : Z :=
  match DeleteHandler.query (DeleteHandler.dynamodb w) table with
  | Py.Ok items => items_count database items
  | Py.Raise _ => 0
  end.

(** The ledger query and every ledger deletion go through. *)
Definition ledger_ok (w : DeleteHandler.World) (database table : string) : bool :=
  match DeleteHandler.query (DeleteHandler.dynamodb w) table with
  | Py.Ok items => forallb (item_ok (DeleteHandler.dynamodb w) database) items
  | Py.Raise _ => false
  end.

(** The entries of the step list of a teardown that ran to its end. *)
Definition expected_steps (cfg : Aws.Config) (w : DeleteHandler.World)
    (database table : string) (dropped glue_deleted : bool) : list DeleteHandler.Step :=
  let raw := DeleteHandler.raw_prefix database table in
  let warehouse := DeleteHandler.warehouse_prefix database table in
  [ {| DeleteHandler.action := "delete_s3_raw";
       DeleteHandler.detail :=
         DeleteHandler.Prefix raw
           (s3_count (DeleteHandler.paginate (DeleteHandler.s3 w) raw));
       DeleteHandler.step_status := "SUCCESS" |};
    {| DeleteHandler.action := "delete_s3_warehouse";
       DeleteHandler.detail :=
         DeleteHandler.Prefix warehouse
           (s3_count (DeleteHandler.paginate (DeleteHandler.s3 w) warehouse));
       DeleteHandler.step_status := "SUCCESS" |};
    {| DeleteHandler.action := "delete_catalog_table";
       DeleteHandler.detail := DeleteHandler.Catalog dropped glue_deleted;
       DeleteHandler.step_status :=
         if dropped || glue_deleted then "SUCCESS" else "FAILED" |};
    {| DeleteHandler.action := "delete_metadata";
       DeleteHandler.detail := DeleteHandler.Records (ledger_count w database table);
       DeleteHandler.step_status := "SUCCESS" |} ].

(** The requests of such a teardown, in order. *)
Definition expected_calls (cfg : Aws.Config) (w : DeleteHandler.World)
    (database table : string) : list DeleteHandler.Call :=
  (s3_calls (DeleteHandler.paginate (DeleteHandler.s3 w)
               (DeleteHandler.raw_prefix database table)) ++
   s3_calls (DeleteHandler.paginate (DeleteHandler.s3 w)
               (DeleteHandler.warehouse_prefix database table)) ++
   [DeleteHandler.AthenaStartQuery (DeleteHandler.drop_query (Aws.GLUE_DATABASE cfg) table);
    DeleteHandler.GlueDeleteTable (Aws.GLUE_DATABASE cfg) table] ++
   ledger_calls w database table)%list.

(** A world where only the object store fails, and one where only the
    ledger does. *)
Definition world_s3_denied : DeleteHandler.World :=
  {| DeleteHandler.s3 := s3_denied; DeleteHandler.athena := athena_counting "0";
     DeleteHandler.glue := glue_listing []; DeleteHandler.dynamodb := dynamo_two_items |}.

Definition world_ledger_throttled : DeleteHandler.World :=
  {| DeleteHandler.s3 := s3_two_pages; DeleteHandler.athena := athena_counting "0";
     DeleteHandler.glue := glue_listing []; DeleteHandler.dynamodb := dynamo_throttled |}.

(** A world where the drop statement and the catalog removal both fail
    and the stores answer. *)
Definition world_catalog_down : DeleteHandler.World :=
  {| DeleteHandler.s3 := s3_two_pages; DeleteHandler.athena := athena_down;
     DeleteHandler.glue :=
       {| Aws.get_table := fun _ _ => Py.Ok [];
          Aws.delete_table := fun _ _ => Py.Raise access_denied |};
     DeleteHandler.dynamodb := dynamo_two_items |}.

(** The clock of a loop that saw [k] pending polls and then a terminal
    one. *)
Definition ended (k : nat) (c : Aws.Clock) : Aws.Clock := Aws.tick (after k c).

(** The poll of rank [k] is the first one to find the query in [state]. *)
Definition first_terminal (athena : Aws.Athena) (qid : string) (k : nat)
    (r : Aws.QueryExecution) : Prop :=
  stalls athena qid 0 k /\ Aws.get_query_execution athena qid k = Py.Ok r.

Definition is_failed (state : string) : bool :=
  String.eqb state "FAILED" || String.eqb state "CANCELLED".

(** An engine that is pending for [k] polls and then answers [r]. *)
Definition athena_after (k : nat) (r : Aws.QueryExecution)
    (results : Py.result Aws.ResultSet) : Aws.Athena :=
  {| Aws.start_query_execution := fun _ _ _ => Py.Ok "q-1";
     Aws.get_query_execution := fun _ i =>
       Py.Ok (if (i <? k)%nat then running else r);
     Aws.get_query_results := fun _ => results |}.

Definition failed_with (reason : option string) : Aws.QueryExecution :=
  {| Aws.State := "FAILED"; Aws.StateChangeReason := reason;
     Aws.DataScannedInBytes := None; Aws.EngineExecutionTimeInMillis := None |}.

(** Whatever the engine answers, a loop makes at most as many polls as
    its range and sleeps 2 units after a poll at most. *)
Definition bounded_from (n : nat) (c c' : Aws.Clock) : Prop :=
  (Aws.polls c <= Aws.polls c' <= Aws.polls c + n)%nat /\
  Aws.slept c <= Aws.slept c' <=
    Aws.slept c + 2 * Z.of_nat (Aws.polls c' - Aws.polls c).

(** A result row that has no more cells than there are columns. *)
Definition fits (cols : list string) (row : Aws.Row) : Prop :=
  (length row <= length cols)%nat.

Definition sample_results : Aws.ResultSet :=
  {| Aws.ColumnInfo := [("id", "integer"); ("name", "varchar")];
     Aws.Rows := [[Some "id"; Some "name"]; [Some "1"; Some "ann"]; [Some "2"; None]] |}.

(** The target event that carries the metrics of a source result. *)
Definition target_event_of (database table : string) (mode : option string)
    (sr : Validation.SourceResult) : Validation.TargetEvent :=
  {| Validation.database := database; Validation.table := table;
     Validation.source_row_count := Some (Validation.r_source_row_count sr);
     Validation.source_schema := Some (Validation.r_source_schema sr);
     Validation.source_checksum := Some (Validation.r_source_checksum sr);
     Validation.load_type := mode |}.

(** An object store that holds one XML document under every key. *)
Definition get_xml (bucket key : string) : Py.result string :=
  Py.Ok "<rows><row>1</row><row>2</row></rows>".

Definition md5_stub (content : string) : string := "d41d8cd98f00b204e9800998ecf8427e".




(** An event of [log_failure] with a long cause. *)
Definition long_cause : string :=
  String.concat EmptyString (repeat "0123456789" 120).

Definition failed_event : MetadataLogger.Event :=
  {| MetadataLogger.job_id := Some "job-7";
     MetadataLogger.database := Some "sales";
     MetadataLogger.table := Some "orders";
     MetadataLogger.email := Some "ann@example.org";
     MetadataLogger.file_name := Some "orders.csv";
     MetadataLogger.start_time := Some "2024-05-01T10:00:00Z";
     MetadataLogger.validation_result := None;
     MetadataLogger.source_row_count := None;
     MetadataLogger.error :=
       Some {| MetadataLogger.Cause := Some long_cause;
               MetadataLogger.Error := Some "States.TaskFailed" |} |}.

(** Every record of the ledger carries its own key as attributes, as a
    DynamoDB table guarantees. *)
Definition well_keyed (tbl : gmap (string * string) (gmap string MetadataLogger.value)) :
    Prop :=
  forall k it, tbl !! k = Some it ->
    it !! "job_id" = Some (MetadataLogger.VStr (fst k)) /\
    it !! "start_time" = Some (MetadataLogger.VStr (snd k)).

Definition delete_event (job_id : string) : MetadataLogger.DeleteEvent :=
  {| MetadataLogger.pathParameters :=
       Some {| MetadataLogger.jobId := Some job_id |} |}.

(** The key under which the logger stores the record of an event. *)
Definition ledger_key (uuid4 now_start : string) (event : MetadataLogger.Event) :
    string * string :=
  (default uuid4 (MetadataLogger.job_id event),
   default now_start (MetadataLogger.start_time event)).

(** The same job, started again later. *)
Definition retried_event : MetadataLogger.Event :=
  {| MetadataLogger.job_id := Some "job-7";
     MetadataLogger.database := Some "sales";
     MetadataLogger.table := Some "orders";
     MetadataLogger.email := Some "ann@example.org";
     MetadataLogger.file_name := Some "orders.csv";
     MetadataLogger.start_time := Some "2024-05-01T11:30:00Z";
     MetadataLogger.validation_result := None;
     MetadataLogger.source_row_count := None;
     MetadataLogger.error := None |}.

(** The requests a teardown of [(database, table)] may send: deletions of
    keys listed under one of its two prefixes, never empty; the drop
    statement and the catalog removal of the table; deletions of ledger
    items that the table-name index returned for the table and that
    belong to the database. *)
Definition allowed_call (cfg : Aws.Config) (w : DeleteHandler.World)
    (database table : string) (c : DeleteHandler.Call) : Prop :=
  match c with
  | DeleteHandler.S3DeleteObjects keys =>
      keys <> [] /\
      (Py.Ok keys ∈ DeleteHandler.paginate (DeleteHandler.s3 w)
                      (DeleteHandler.raw_prefix database table) \/
       Py.Ok keys ∈ DeleteHandler.paginate (DeleteHandler.s3 w)
                      (DeleteHandler.warehouse_prefix database table))
  | DeleteHandler.AthenaStartQuery q =>
      q = DeleteHandler.drop_query (Aws.GLUE_DATABASE cfg) table
  | DeleteHandler.GlueDeleteTable d t => d = Aws.GLUE_DATABASE cfg /\ t = table
  | DeleteHandler.DynamoDeleteItem j t =>
      exists items item,
        DeleteHandler.query (DeleteHandler.dynamodb w) table = Py.Ok items /\
        item ∈ items /\
        item !! "database_name" = Some (MetadataLogger.VStr database) /\
        item !! "job_id" = Some j /\ item !! "start_time" = Some t
  end.

(** [m] only appends requests that satisfy [P], whatever it returns. *)
Definition sends {A : Type} (P : DeleteHandler.Call -> Prop) (m : DeleteHandler.M A) :
    Prop :=
  forall l, exists sent, snd (m l) = (l ++ sent)%list /\ Forall P sent.

(** Nothing is left of the table: no object under the two prefixes, no
    ledger item, no catalog entry. *)
Definition already_removed (cfg : Aws.Config) (w : DeleteHandler.World)
    (database table : string) : Prop :=
  Forall (fun page => page = Py.Ok [])
    (DeleteHandler.paginate (DeleteHandler.s3 w) (DeleteHandler.raw_prefix database table)) /\
  Forall (fun page => page = Py.Ok [])
    (DeleteHandler.paginate (DeleteHandler.s3 w)
       (DeleteHandler.warehouse_prefix database table)) /\
  DeleteHandler.query (DeleteHandler.dynamodb w) table = Py.Ok [] /\
  exists e, Aws.delete_table (DeleteHandler.glue w) (Aws.GLUE_DATABASE cfg) table
              = Py.Raise e /\
            Py.exn_class e = "EntityNotFoundException".

(** A world in which the table is gone and the engine is down. *)
Definition world_gone : DeleteHandler.World :=
  {| DeleteHandler.s3 :=
       {| DeleteHandler.paginate := fun _ => [Py.Ok []];
          DeleteHandler.delete_objects := fun _ => Py.Ok tt |};
     DeleteHandler.athena := athena_down;
     DeleteHandler.glue := glue_missing;
     DeleteHandler.dynamodb := empty_dynamo |}.

(** A ledger item with a float at depth two. *)
Definition nested_item : Json.value :=
  Json.Obj [("job_id", Json.Str "job-7");
            ("stats", Json.Obj [("ratio", Json.Float "0.75");
                                ("sizes", Json.Arr [Json.Num 3; Json.Float "1.5"])]);
            ("ok", Json.Bool true)].

Definition plain_item : Json.value :=
  Json.Obj [("job_id", Json.Str "job-7"); ("rows", Json.Num 10);
            ("tags", Json.Arr [Json.Str "a"; Json.Null])].

(** A request of the upload handler that reaches the state machine. *)
Definition is_start (c : UploadHandler.Call) : Prop :=
  match c with
  | UploadHandler.StartExecution _ _ => True
  | UploadHandler.PutItem _ => False
  end.

Section UploadVocabulary.

Variable uuid4 : nat -> string.
Variable iso_now : nat -> string.
Variable epoch_now : nat -> string.
Variables (database table load_type : string) (email : Json.value).

(** The execution name and the input of the [k]-th pipeline start. *)
Definition start_name (k : nat) : string :=
  String.append (uuid4 k) (String.append "-" (epoch_now k)).

Definition start_payload (k : nat) (file : option string * string) : UploadHandler.Payload :=
  {| UploadHandler.p_job_id := uuid4 k;
     UploadHandler.p_s3_key := fst file;
     UploadHandler.p_file_type := snd file;
     UploadHandler.p_database := database;
     UploadHandler.p_table := table;
     UploadHandler.p_load_type := load_type;
     UploadHandler.p_email := email;
     UploadHandler.p_start_time := iso_now k |}.

(** One start per file, numbered from [k]. *)
Fixpoint expected_starts (k : nat) (files : list (option string * string)) :
    list UploadHandler.Call :=
  match files with
  | [] => []
  | file :: rest =>
      UploadHandler.StartExecution (start_name k) (start_payload k file)
        :: expected_starts (S k) rest
  end.

(** The jobs reported when the [k]-th and later starts return the
    execution names given by [arn]. *)
Fixpoint expected_jobs (arn : string -> UploadHandler.Payload -> string) (k : nat)
    (files : list (option string * string)) : list UploadHandler.Job :=
  match files with
  | [] => []
  | file :: rest =>
      {| UploadHandler.j_job_id := uuid4 k;
         UploadHandler.j_execution_arn := arn (start_name k) (start_payload k file);
         UploadHandler.j_s3_key := fst file;
         UploadHandler.j_status := "RUNNING" |}
        :: expected_jobs arn (S k) rest
  end.

End UploadVocabulary.

(** A state machine that accepts every execution, and one that rejects
    the execution named [bad]. *)
Definition arn_of (name : string) (input : UploadHandler.Payload) : string :=
  String.append "arn:aws:states:execution:" name.

Definition sfn_up (name : string) (input : UploadHandler.Payload) : Py.result string :=
  Py.Ok (arn_of name input).

Definition sfn_rejecting (bad : string) (name : string) (input : UploadHandler.Payload) :
    Py.result string :=
  if String.eqb name bad
  then Py.Raise (Py.Exn "ClientError" "ExecutionLimitExceeded")
  else Py.Ok (arn_of name input).

Definition uuid_n (k : nat) : string :=
  String.append "job-" (String (Py.chr (48 + N.of_nat k)) EmptyString).

Definition presign_stub (bucket key content_type : string) : Py.result string :=
  Py.Ok (String.append "https://s3/" (String.append bucket (String.append "/" key))).

Definition empty_body : UploadHandler.Body :=
  {| UploadHandler.file_name := None; UploadHandler.file_type := None;
     UploadHandler.database := None; UploadHandler.table := None;
     UploadHandler.load_type := None; UploadHandler.s3_key := None;
     UploadHandler.files := None |}.

Definition two_files_body : UploadHandler.Body :=
  {| UploadHandler.file_name := None; UploadHandler.file_type := None;
     UploadHandler.database := Some "sales"; UploadHandler.table := Some "orders";
     UploadHandler.load_type := Some "incremental"; UploadHandler.s3_key := None;
     UploadHandler.files :=
       Some [ {| UploadHandler.fi_s3_key := Some "sales/orders/raw/a.csv";
                 UploadHandler.fi_file_type := Some "csv" |};
              {| UploadHandler.fi_s3_key := Some "sales/orders/raw/b.xml";
                 UploadHandler.fi_file_type := Some "xml" |} ] |}.

Definition upload_event (route : string) (b : UploadHandler.Body) : UploadHandler.Event :=
  {| UploadHandler.routeKey := Some route;
     UploadHandler.body := Py.Ok b;
     UploadHandler.request := Json.Obj [] |}.

(** The value at a path of keys through nested dictionaries. *)
Fixpoint dig (path : list string) (v : Json.value) : option Json.value :=
  match path with
  | [] => Some v
  | k :: rest =>
      match v with
      | Json.Obj fields =>
          match Json.lookup k fields with
          | Some x => dig rest x
          | None => None
          end
      | _ => None
      end
  end.

(** Where an HTTP API with a JWT authorizer puts the claims. *)
Definition claims_path : list string := ["requestContext"; "authorizer"; "jwt"; "claims"].

(** The email the upload handler records for a request. *)
Definition email_of (event : Json.value) : Json.value :=
  default (Json.Str UploadHandler.unknown_email) (dig (claims_path ++ ["email"])%list event).

(** One step through a chain of [get] calls. *)
Ltac chain_step :=
  match goal with
  | |- context [Json.lookup ?k ?fields] =>
      lazymatch fields with
      | [] => change (Json.lookup k []) with (@None Json.value)
      | _ => let x := fresh "x" in
             destruct (Json.lookup k fields) as [x|];
             [destruct x|]
      end
  end; cbn [Py.bind Json.get default from_option id UploadHandler.unknown_email
            String.eqb Ascii.eqb Bool.eqb orb Py.exn_class Json.attribute_error].

(** The names a request of the upload handler leaves to their defaults. *)
Definition database_of (b : UploadHandler.Body) : string :=
  default "default_db" (UploadHandler.database b).
Definition table_of (b : UploadHandler.Body) : string :=
  default "default_table" (UploadHandler.table b).
Definition load_type_of (b : UploadHandler.Body) : string :=
  default "full" (UploadHandler.load_type b).

(** The request reaches the branch that starts the pipeline, or the one
    that signs an upload, with the body [b]. *)
Definition reaches_branch (presigned : bool) (event : UploadHandler.Event)
    (b : UploadHandler.Body) : Prop :=
  Py.raises (UploadHandler.http_method (UploadHandler.request event)) = false /\
  UploadHandler.body event = Py.Ok b /\
  UploadHandler.contains "presigned-url"
    (default EmptyString (UploadHandler.routeKey event)) = presigned.

Definition iso_n (k : nat) : string := "2024-01-01T00:00:00+00:00".
Definition epoch_n (k : nat) : string := "1704067200".

Definition named_body : UploadHandler.Body :=
  {| UploadHandler.file_name := Some "a.csv"; UploadHandler.file_type := Some "CSV";
     UploadHandler.database := Some "sales"; UploadHandler.table := Some "orders";
     UploadHandler.load_type := None; UploadHandler.s3_key := None;
     UploadHandler.files := None |}.

(** The query holds the keyword [kw] in some mix of letter cases. *)
Definition mentions (kw q : string) : Prop :=
  exists a m b : string,
    q = String.append a (String.append m b) /\ Py.upper m = Py.points kw.

Definition query_event (action query database : option string) : AthenaQuery.Event :=
  {| AthenaQuery.body :=
       Py.Ok {| AthenaQuery.action := action; AthenaQuery.query := query;
                AthenaQuery.database := database |} |}.

(** The statement [_list_tables] sends for the catalog database. *)
Definition show_tables (cfg : Aws.Config) : string :=
  String.append "SHOW TABLES IN "
    (String.append AthenaQuery.quote
       (String.append (Aws.GLUE_DATABASE cfg) AthenaQuery.quote)).

(** The chain [v.get(k1, {}).get(k2, {})...] through [path] raises
    nothing, and a further [get] on its value would not either. *)
Fixpoint passes (path : list string) (v : Json.value) : bool :=
  match v with
  | Json.Obj fields =>
      match path with
      | [] => true
      | k :: rest => passes rest (default (Json.Obj []) (Json.lookup k fields))
      end
  | _ => false
  end.

(** The claim [k] of a request, with [dflt] when there is none. *)
Definition claim (k : string) (dflt : Json.value) (event : Json.value) : Json.value :=
  default dflt (dig (claims_path ++ [k])%list event).

(** The Authorization header of a request, the empty string when there
    is none. *)
Definition authorization (event : Json.value) : Json.value :=
  default (Json.Str EmptyString) (dig ["headers"; "authorization"] event).

(** A part of a token: no period and no space in it. *)
Definition token_part (s : string) : bool :=
  all_chars (fun c => negb (Ascii.eqb c ".") && negb (Ascii.eqb c " ")) s.

(** A token of three parts. *)
Definition jwt (header payload signature : string) : string :=
  String.append header
    (String "." (String.append payload (String "." signature))).

(** What [decode_jwt_payload] makes of the payload part [p]. *)
Definition decoded_part (urlsafe_b64decode : string -> Py.result string)
    (loads_utf8 : string -> Py.result Json.value) (p : string) : Py.result Json.value :=
  match Py.bind (urlsafe_b64decode (AuthMiddleware.padded p)) loads_utf8 with
  | Py.Ok claims => Py.Ok claims
  | Py.Raise e =>
      Py.Raise (Py.Exn "ValueError" (String.append "Failed to decode JWT: " (Py.exn_msg e)))
  end.

(** A request with the claims of an authorizer, and one with only an
    Authorization header. *)
Definition claims_event (claims : list (string * Json.value)) : Json.value :=
  Json.Obj [("requestContext",
             Json.Obj [("authorizer",
                        Json.Obj [("jwt", Json.Obj [("claims", Json.Obj claims)])])])].

Definition header_event (token : string) : Json.value :=
  Json.Obj [("headers", Json.Obj [("authorization", Json.Str token)])].

(** A decoder that knows one payload. *)
Definition b64_stub (data : string) : Py.result string :=
  if String.eqb data "cGF5bG9hZA==" then Py.Ok "payload"
  else Py.Raise (Py.Exn "Error" "Incorrect padding").

Definition loads_stub (text : string) : Py.result Json.value :=
  if String.eqb text "payload"
  then Py.Ok (Json.Obj [("email", Json.Str "ann@example.com")])
  else Py.Raise (Py.Exn "JSONDecodeError" "Expecting value").

(** One more step through a chain of [get] calls, for the functions that
    test what they read. *)
Ltac auth_step :=
  first
    [ match goal with
      | |- context [Json.lookup ?k ?fields] =>
          lazymatch fields with
          | [] => change (Json.lookup k []) with (@None Json.value)
          | _ => let x := fresh "x" in
                 destruct (Json.lookup k fields) as [x|];
                 [destruct x|]
          end
      end
    | match goal with
      | |- context [Json.truthy ?v] => destruct (Json.truthy v) eqn:?
      end ];
  cbn [Py.bind Json.get default from_option id passes andb].

(** The value a record holds for a column name. *)
Fixpoint value_of (c : string) (record : list (string * string)) : option string :=
  match record with
  | [] => None
  | (k, v) :: rest => if String.eqb k c then Some v else value_of c rest
  end.

(** The column names paired with the cells of a row, an absent cell
    value read as the empty string. *)
Definition paired (cols : list string) (cells : Aws.Row) : list (string * string) :=
  zip (take (length cells) cols) (map (default EmptyString) cells).

(** A result whose two columns bear the same name. *)
Definition joined_results : Aws.ResultSet :=
  {| Aws.ColumnInfo := [("id", "integer"); ("id", "integer")];
     Aws.Rows := [[Some "id"; Some "id"]; [Some "1"; Some "2"]] |}.







(** A step into a value: a key of a dictionary or an index of a list. *)
Inductive step : Type :=
| Key (k : string)
| Index (i : nat).

(** The value found by following the steps, if they can be followed. *)
Fixpoint at_path (path : list step) (v : Json.value) : option Json.value :=
  match path with
  | [] => Some v
  | Key k :: rest =>
      match v with
      | Json.Obj fields =>
          match Json.lookup k fields with
          | Some x => at_path rest x
          | None => None
          end
      | _ => None
      end
  | Index i :: rest =>
      match v with
      | Json.Arr items =>
          match items !! i with
          | Some x => at_path rest x
          | None => None
          end
      | _ => None
      end
  end.

(** A [Decimal] occurs somewhere in the value. *)
Fixpoint has_decimal (v : Json.value) : bool :=
  match v with
  | Json.Decimal _ => true
  | Json.Obj fields => existsb (fun kv => match kv with (_, x) => has_decimal x end) fields
  | Json.Arr items => existsb has_decimal items
  | _ => false
  end.

(** Every [Decimal] back to the float of the same text. *)
Fixpoint to_floats (v : Json.value) : Json.value :=
  match v with
  | Json.Decimal r => Json.Float r
  | Json.Obj fields =>
      Json.Obj (map (fun kv => match kv with (k, x) => (k, to_floats x) end) fields)
  | Json.Arr items => Json.Arr (map to_floats items)
  | _ => v
  end.

(* ===================================================================== *)
(** * Properties of the column normalizers *)
(* ===================================================================== *)

Example sanitize_first_name : Etl.sanitize_name "First Name" = "first_name".
Proof. reflexivity. Qed.

Example sanitize_amount : Etl.sanitize_name "Amount($)" = "amount$".
Proof. reflexivity. Qed.

Example csv_normalize_amount : Validation.csv_normalize "Amount($)" = "amount___".
Proof. reflexivity. Qed.

Lemma all_chars_append p s t :
  all_chars p (String.append s t) = all_chars p s && all_chars p t.
Proof.
  induction s as [|c s IH]; [reflexivity|].
  change (all_chars p (String c (String.append s t)) =
          all_chars p (String c s) && all_chars p t).
  simpl. rewrite IH. apply andb_assoc.
Qed.

Lemma all_chars_impl (p q : ascii -> bool) s :
  (forall c, p c = true -> q c = true) ->
  all_chars p s = true -> all_chars q s = true.
Proof.
  intros Hpq. induction s as [|c s IH]; simpl; [reflexivity|].
  intros [Hc Hs]%andb_true_iff. rewrite (Hpq _ Hc), (IH Hs). reflexivity.
Qed.

Lemma replace_chain_cons c r :
  Etl.replace_chain (String c r) = String.append (chain_char c) (Etl.replace_chain r).
Proof. each_char c; reflexivity. Qed.



Lemma append_cons c s t : String.append (String c s) t = String c (String.append s t).
Proof. reflexivity. Qed.






(** ** Trimming and lower-casing *)

Lemma all_chars_lstrip p s :
  all_chars p s = true -> all_chars p (Py.lstrip s) = true.
Proof.
  induction s as [|c s IH]; simpl; [reflexivity|].
  intros [Hc Hs]%andb_true_iff. destruct (Py.isspace c); [auto|].
  simpl. rewrite Hc, Hs. reflexivity.
Qed.

Lemma all_chars_rstrip p s :
  all_chars p s = true -> all_chars p (Py.rstrip s) = true.
Proof.
  induction s as [|c s IH]; simpl; [reflexivity|].
  intros [Hc Hs]%andb_true_iff. specialize (IH Hs).
  destruct (Py.rstrip s) as [|d r].
  - destruct (Py.isspace c); simpl; [reflexivity | now rewrite Hc].
  - change (p c && all_chars p (String d r) = true). now rewrite Hc, IH.
Qed.

Lemma all_chars_strip p s :
  all_chars p s = true -> all_chars p (Py.strip s) = true.
Proof. intros H. apply all_chars_rstrip, all_chars_lstrip, H. Qed.

Lemma isspace_lower_char c : Py.isspace (Py.lower_char c) = Py.isspace c.
Proof. each_char c; reflexivity. Qed.

Lemma lower_lstrip s : Py.lower (Py.lstrip s) = Py.lstrip (Py.lower s).
Proof.
  induction s as [|c s IH]; simpl; [reflexivity|].
  rewrite isspace_lower_char. destruct (Py.isspace c); [exact IH | reflexivity].
Qed.

Lemma lower_rstrip s : Py.lower (Py.rstrip s) = Py.rstrip (Py.lower s).
Proof.
  induction s as [|c s IH]; simpl; [reflexivity|].
  rewrite <- IH, isspace_lower_char.
  destruct (Py.rstrip s) as [|d r]; simpl; [|reflexivity].
  destruct (Py.isspace c); reflexivity.
Qed.

Lemma lower_strip s : Py.lower (Py.strip s) = Py.strip (Py.lower s).
Proof. unfold Py.strip. now rewrite lower_rstrip, lower_lstrip. Qed.

Lemma lstrip_not_blank s :
  all_chars not_blank s = true -> Py.lstrip s = s.
Proof.
  destruct s as [|c s]; simpl; [reflexivity|].
  unfold not_blank at 1. intros [Hc _]%andb_true_iff.
  destruct (Py.isspace c); [discriminate Hc | reflexivity].
Qed.

Lemma rstrip_not_blank s :
  all_chars not_blank s = true -> Py.rstrip s = s.
Proof.
  induction s as [|c s IH]; simpl; [reflexivity|].
  unfold not_blank at 1. intros [Hc Hs]%andb_true_iff.
  rewrite (IH Hs). destruct s; [|reflexivity].
  destruct (Py.isspace c); [discriminate Hc | reflexivity].
Qed.

Lemma strip_not_blank s :
  all_chars not_blank s = true -> Py.strip s = s.
Proof.
  intros H. unfold Py.strip. rewrite (lstrip_not_blank _ H). apply rstrip_not_blank, H.
Qed.

(** ** The writer-side normalizer applied twice *)

Lemma settled_after_chain_char c :
  all_chars settled_char (chain_char (Py.lower_char c)) = true.
Proof. each_char c; vm_compute; reflexivity. Qed.

Lemma settled_after_chain s :
  all_chars settled_char (Etl.replace_chain (Py.lower s)) = true.
Proof.
  induction s as [|c s IH]; [reflexivity|].
  simpl Py.lower. rewrite replace_chain_cons, all_chars_append, IH.
  now rewrite settled_after_chain_char.
Qed.

Lemma settled_fixed s :
  all_chars settled_char s = true -> Etl.replace_chain (Py.lower s) = s.
Proof.
  induction s as [|c s IH]; [reflexivity|].
  simpl. intros [Hc Hs]%andb_true_iff.
  apply andb_true_iff in Hc as [Hl Hk].
  apply Ascii.eqb_eq in Hl. apply String.eqb_eq in Hk.
  rewrite Hl, replace_chain_cons, Hk, (IH Hs). reflexivity.
Qed.

(** Normalizing a normalized name only trims it. *)
Lemma sanitize_name_twice x :
  Etl.sanitize_name (Etl.sanitize_name x) = Py.strip (Etl.sanitize_name x).
Proof.
  unfold Etl.sanitize_name at 1.
  apply settled_fixed, all_chars_strip, settled_after_chain.
Qed.

Lemma not_blank_after_chain_char c :
  only_space_blank c = true ->
  all_chars not_blank (chain_char (Py.lower_char c)) = true.
Proof. each_char c; vm_compute; intros H; try reflexivity; discriminate H. Qed.

Lemma not_blank_after_chain s :
  all_chars only_space_blank s = true ->
  all_chars not_blank (Etl.replace_chain (Py.lower s)) = true.
Proof.
  induction s as [|c s IH]; [reflexivity|].
  simpl. intros [Hc Hs]%andb_true_iff.
  rewrite replace_chain_cons, all_chars_append, (IH Hs).
  now rewrite (not_blank_after_chain_char _ Hc).
Qed.

Lemma sanitize_name_not_blank x :
  all_chars only_space_blank x = true ->
  all_chars not_blank (Etl.sanitize_name x) = true.
Proof.
  intros H. apply not_blank_after_chain, all_chars_strip, H.
Qed.

Lemma sanitize_name_stable x :
  all_chars only_space_blank x = true ->
  Etl.sanitize_name (Etl.sanitize_name x) = Etl.sanitize_name x.
Proof.
  intros H. rewrite sanitize_name_twice.
  apply strip_not_blank, sanitize_name_not_blank, H.
Qed.

(** ** The loop over the columns of a frame *)

Lemma resolver_refl f a : Etl.resolver f a a = true.
Proof. unfold Etl.resolver. destruct (Etl.caseSensitive f); apply String.eqb_refl. Qed.

Lemma sanitize_name_lower a b :
  Py.lower a = Py.lower b -> Etl.sanitize_name a = Etl.sanitize_name b.
Proof.
  intros H. unfold Etl.sanitize_name. now rewrite !lower_strip, H.
Qed.

Lemma resolver_sanitize f a b :
  Etl.resolver f a b = true -> Etl.sanitize_name a = Etl.sanitize_name b.
Proof.
  unfold Etl.resolver. destruct (Etl.caseSensitive f); intros H%String.eqb_eq.
  - now subst.
  - now apply sanitize_name_lower.
Qed.

Lemma loop_body_header f o :
  Etl.header (Etl.loop_body f o) =
  if String.eqb (Etl.sanitize_name o) o then Etl.header f
  else map (fun c => if Etl.resolver f c o then Etl.sanitize_name o else c)
           (Etl.header f).
Proof.
  unfold Etl.loop_body. destruct (String.eqb (Etl.sanitize_name o) o); reflexivity.
Qed.

Lemma loop_body_sanitize f o :
  stable_name o ->
  map Etl.sanitize_name (Etl.header (Etl.loop_body f o)) =
  map Etl.sanitize_name (Etl.header f).
Proof.
  intros Ho. rewrite loop_body_header.
  destruct (String.eqb (Etl.sanitize_name o) o); [reflexivity|].
  rewrite map_map. apply map_ext. intros c.
  destruct (Etl.resolver f c o) eqn:E; [|reflexivity].
  rewrite Ho. symmetry. now apply (resolver_sanitize f).
Qed.

Lemma fold_loop_body_sanitize todo : forall f,
  Forall stable_name todo ->
  map Etl.sanitize_name (Etl.header (fold_left Etl.loop_body todo f)) =
  map Etl.sanitize_name (Etl.header f).
Proof.
  induction todo as [|o todo IH]; intros f Hs; [reflexivity|].
  inversion Hs as [|? ? Ho Hs']; subst. simpl.
  rewrite (IH _ Hs'). now apply loop_body_sanitize.
Qed.

Lemma fold_loop_body_fixed todo : forall f done rest,
  Etl.header f = (done ++ rest)%list ->
  Forall fixed_name done ->
  Forall2 (fun c o => c = o \/ fixed_name c) rest todo ->
  Forall stable_name todo ->
  Forall fixed_name (Etl.header (fold_left Etl.loop_body todo f)).
Proof.
  induction todo as [|o todo IH]; intros f done rest Hf Hd Hr Hs.
  - inversion Hr; subst. simpl. rewrite Hf, app_nil_r. exact Hd.
  - inversion Hr as [|c ? rest' ? Hc Hr']; subst.
    inversion Hs as [|? ? Ho Hs']; subst. simpl.
    pose proof (loop_body_header f o) as Hh. rewrite Hf in Hh.
    destruct (String.eqb (Etl.sanitize_name o) o) eqn:E.
    + apply String.eqb_eq in E.
      apply (IH _ (done ++ [c])%list rest'); [| |exact Hr'|exact Hs'].
      * rewrite Hh, <- app_assoc. reflexivity.
      * apply Forall_app. split; [exact Hd|]. constructor; [|constructor].
        destruct Hc as [->|Hc]; [exact E | exact Hc].
    + set (r := fun c0 => if Etl.resolver f c0 o then Etl.sanitize_name o else c0) in *.
      assert (Hfix : forall x, fixed_name x -> fixed_name (r x)).
      { intros x Hx. unfold r. destruct (Etl.resolver f x o); [exact Ho | exact Hx]. }
      rewrite map_app in Hh. simpl in Hh.
      apply (IH _ (map r done ++ [r c])%list (map r rest')); [| | |exact Hs'].
      * rewrite Hh, <- app_assoc. reflexivity.
      * apply Forall_app. split.
        -- apply Forall_forall. intros y [x [-> Hx]]%list_elem_of_fmap.
           apply Hfix. rewrite Forall_forall in Hd. now apply Hd.
        -- constructor; [|constructor].
           destruct Hc as [->|Hc]; [|now apply Hfix].
           unfold r. rewrite resolver_refl. exact Ho.
      * clear -Hr' Ho. induction Hr' as [|x y l l' Hxy Hl IHl]; simpl; constructor.
        -- unfold r. destruct (Etl.resolver f x o); [right; exact Ho | exact Hxy].
        -- exact IHl.
Qed.

Lemma map_fixed_names l :
  Forall fixed_name l -> map Etl.sanitize_name l = l.
Proof.
  induction 1 as [|x l Hx _ IH]; simpl; [reflexivity|]. now rewrite Hx, IH.
Qed.

(** On names that normalize to a fixed point, the loop gives every
    column the normal form of its own name. *)
Lemma sanitize_column_names_header f :
  Forall stable_name (Etl.header f) ->
  Etl.header (Etl.sanitize_column_names f) = map Etl.sanitize_name (Etl.header f).
Proof.
  intros Hs. unfold Etl.sanitize_column_names. simpl Etl.columns.
  rewrite <- (fold_loop_body_sanitize (Etl.header f) f Hs).
  symmetry. apply map_fixed_names.
  apply (fold_loop_body_fixed (Etl.header f) f [] (Etl.header f)); auto.
  apply Forall2_same_length_lookup_2; [reflexivity|].
  intros i x y Hx Hy. left. congruence.
Qed.

(** ** The claims on the normalizers *)






(** C6, refuted as stated: the name made of an opening parenthesis, a
    tab, [a] and a closing parenthesis normalizes to tab-[a], which
    normalizes to [a]. *)
Lemma sanitize_name_not_idempotent :
  Etl.sanitize_name tabbed_name = String (Py.chr 9) "a" /\
  Etl.sanitize_name (Etl.sanitize_name tabbed_name) = "a" /\
  Etl.sanitize_name (Etl.sanitize_name tabbed_name) <> Etl.sanitize_name tabbed_name.
Proof.
  split; [reflexivity|]. split; [reflexivity|]. vm_compute. discriminate.
Qed.

(** In a frame, such a name makes the result depend on the other
    columns: the second rename also hits the first column. *)
Example sanitize_column_names_collision :
  Etl.columns (Etl.sanitize_column_names
    {| Etl.header := [tabbed_name; String (Py.chr 9) "a"];
       Etl.caseSensitive := true |}) = ["a"; "a"].
Proof. reflexivity. Qed.

(** C6, amended: on every name whose only white-space characters are
    spaces, the normalizer is idempotent; and in a frame of such names the
    column at any position, whatever the columns before and after it,
    receives the normal form of its own name. *)
Theorem sanitize_name_idempotent_pure
    (x : string) (cs : bool) (before after : list string) :
  all_chars only_space_blank x = true ->
  Forall (fun c => all_chars only_space_blank c = true) (before ++ after) ->
  Etl.sanitize_name (Etl.sanitize_name x) = Etl.sanitize_name x /\
  Etl.header (Etl.sanitize_column_names
    {| Etl.header := before ++ x :: after; Etl.caseSensitive := cs |})
    !! length before = Some (Etl.sanitize_name x).
Proof.
  intros Hx Hothers. split; [apply sanitize_name_stable, Hx|].
  rewrite sanitize_column_names_header; cbn [Etl.header].
  - rewrite map_app. rewrite lookup_app_r by (rewrite length_map; lia).
    rewrite length_map, Nat.sub_diag. reflexivity.
  - apply Forall_app in Hothers as [Hb Ha].
    rewrite Forall_forall in Hb, Ha.
    apply Forall_app. split; [|constructor].
    + apply Forall_forall. intros c Hc. exact (sanitize_name_stable c (Hb c Hc)).
    + exact (sanitize_name_stable x Hx).
    + apply Forall_forall. intros c Hc. exact (sanitize_name_stable c (Ha c Hc)).
Qed.

Lemma sanitize_name_idempotent_pure_witness :
  Etl.sanitize_name (Etl.sanitize_name "First Name") = Etl.sanitize_name "First Name" /\
  Etl.header (Etl.sanitize_column_names
    {| Etl.header := ["Amount($)"] ++ "First Name" :: ["a-b"];
       Etl.caseSensitive := false |})
    !! length ["Amount($)"] = Some (Etl.sanitize_name "First Name").
Proof.
  apply (sanitize_name_idempotent_pure "First Name" false ["Amount($)"] ["a-b"]).
  - reflexivity.
  - repeat constructor.
Defined.

(* ===================================================================== *)
(** * Properties of the validation verdict *)
(* ===================================================================== *)

Section Verdict.

Variable int_of_str : string -> option Z.
Variable cfg : Aws.Config.
Variable athena : Aws.Athena.
Variable glue : Aws.Glue.
Variable event : Validation.TargetEvent.

Let result := Validation.validate_target int_of_str cfg athena glue event.
Let details := Validation.validation_details result.

Lemma verdict_status :
  Validation.validation_status result =
  if Validation.row_count_match details && Validation.schema_match result
  then "PASSED" else "FAILED".
Proof. reflexivity. Qed.

Lemma verdict_row_count_match :
  Validation.row_count_match details =
  if String.eqb (mode_of event) "full"
  then source_rows event =? Validation.target_row_count result
  else Validation.target_row_count result >=? source_rows event.
Proof. reflexivity. Qed.

Lemma verdict_target_row_count :
  Validation.target_row_count result =
  match Validation.count_attempt int_of_str cfg athena (Validation.table event) with
  | Py.Ok n => n
  | Py.Raise _ => -1
  end.
Proof. reflexivity. Qed.

End Verdict.

(** C1: the verdict of [validate_target] is PASSED exactly when both
    [row_count_match] and [schema_match] are true, and FAILED otherwise;
    each of the four combinations of the two flags is produced by some
    invocation, with that verdict. *)
Theorem validation_status_passed_iff :
  (forall int_of_str cfg athena glue event,
     let r := Validation.validate_target int_of_str cfg athena glue event in
     let both :=
       Validation.row_count_match (Validation.validation_details r) = true /\
       Validation.schema_match r = true in
     (Validation.validation_status r = "PASSED" <-> both) /\
     (Validation.validation_status r = "FAILED" <-> ~ both)) /\
  (forall b1 b2 : bool, exists athena glue event,
     let r := Validation.validate_target int_of_small test_cfg athena glue event in
     Validation.row_count_match (Validation.validation_details r) = b1 /\
     Validation.schema_match r = b2 /\
     Validation.validation_status r = if b1 && b2 then "PASSED" else "FAILED").
Proof.
  split.
  - intros int_of_str cfg athena glue event r both. subst both.
    unfold r. rewrite verdict_status.
    destruct (Validation.row_count_match _), (Validation.schema_match _); simpl;
      intuition congruence.
  - intros b1 b2.
    exists (athena_counting (if b1 then "10" else "0")),
           (glue_listing (if b2 then ["first_name"; "amount"; "_etl_job_id"]
                          else ["first_name"; "_etl_job_id"])),
           (target_event (Some 10) (Some ["first_name"; "amount"]) (Some "full")).
    destruct b1, b2; vm_compute; repeat split; reflexivity.
Qed.

(** Scenario B of the specification: an incremental load of 10 rows into
    a table that then holds 110. *)
Example scenario_B :
  let r := Validation.validate_target int_of_small test_cfg
             (athena_counting "110") (glue_listing ["first_name"; "amount"])
             (target_event (Some 10) (Some ["first_name"; "amount"])
                (Some "incremental")) in
  Validation.target_row_count r = 110 /\
  Validation.row_count_match (Validation.validation_details r) = true.
Proof. vm_compute. split; reflexivity. Qed.

(** C3: the target row count that [validate_target] reports, and keeps in
    its details beside the source row count of the event, is the one
    [_get_target_row_count] reads from the engine: the integer in the
    first cell of the second row of the count query when there is one.
    For load type [full], [row_count_match] holds exactly when the source
    row count equals that count; for any other load type it holds exactly
    when that count is at least the source row count. *)
Theorem row_count_match_policy int_of_str cfg athena glue event :
  let r := Validation.validate_target int_of_str cfg athena glue event in
  let matched := Validation.row_count_match (Validation.validation_details r) in
  let target :=
    Validation._get_target_row_count int_of_str cfg athena
      (Validation.database event) (Validation.table event) in
  (Validation.target_row_count r = target /\
   Validation.d_target_row_count (Validation.validation_details r) = target /\
   Validation.d_source_row_count (Validation.validation_details r) = source_rows event) /\
  (forall rows row v n,
     fst (Validation._run_athena_query cfg athena
            (Validation.count_query cfg (Validation.table event))) = Py.Ok rows ->
     rows !! 1%nat = Some row -> row !! 0%nat = Some (Some v) ->
     int_of_str v = Some n ->
     target = n) /\
  (mode_of event = "full" ->
     (matched = true <-> source_rows event = target)) /\
  (mode_of event <> "full" ->
     (matched = true <-> target >= source_rows event)).
Proof.
  intros r matched target. subst matched target. unfold r.
  split; [repeat split|]. split.
  - intros rows row v n Hrun Hrow Hcell Hint.
    unfold Validation._get_target_row_count, Validation.count_attempt.
    rewrite Hrun. cbn [Py.bind].
    assert (Hlen : (1 <? length rows)%nat = true).
    { apply Nat.ltb_lt. apply lookup_lt_is_Some. eexists. exact Hrow. }
    rewrite Hlen. unfold Validation.second_row_count.
    rewrite Hrow, Hcell, Hint. reflexivity.
  - rewrite verdict_row_count_match. split; intros Hmode.
    + rewrite Hmode. simpl. apply Z.eqb_eq.
    + apply String.eqb_neq in Hmode. rewrite Hmode.
      rewrite Z.geb_le. change (Validation.target_row_count
        (Validation.validate_target int_of_str cfg athena glue event))
        with (Validation._get_target_row_count int_of_str cfg athena
                (Validation.database event) (Validation.table event)).
      lia.
Qed.

Lemma row_count_match_policy_witness :
  (Validation.target_row_count
     (Validation.validate_target int_of_small test_cfg (athena_counting "110")
        (glue_listing []) (target_event (Some 10) None (Some "full"))) = 110 /\
   Validation.row_count_match (Validation.validation_details
     (Validation.validate_target int_of_small test_cfg (athena_counting "110")
        (glue_listing []) (target_event (Some 10) None (Some "full")))) = false) /\
  Validation.row_count_match (Validation.validation_details
     (Validation.validate_target int_of_small test_cfg (athena_counting "10")
        (glue_listing []) (target_event (Some 10) None (Some "full")))) = true /\
  Validation.row_count_match (Validation.validation_details
     (Validation.validate_target int_of_small test_cfg (athena_counting "110")
        (glue_listing []) (target_event (Some 10) None (Some "incremental")))) = true /\
  Validation.row_count_match (Validation.validation_details
     (Validation.validate_target int_of_small test_cfg (athena_counting "0")
        (glue_listing []) (target_event (Some 10) None (Some "incremental")))) = false.
Proof.
  split; [|split; [|split]].
  - pose proof (row_count_match_policy int_of_small test_cfg (athena_counting "110")
                  (glue_listing []) (target_event (Some 10) None (Some "full")))
      as H.
    cbv zeta in H. destruct H as ((Ht & _ & _) & Heng & Hfull & _).
    assert (Hn : Validation._get_target_row_count int_of_small test_cfg
                   (athena_counting "110") "sales" "orders" = 110).
    { apply (Heng [[Some "cnt"]; [Some "110"]] [Some "110"] "110" 110); reflexivity. }
    split; [rewrite Ht; exact Hn|].
    apply not_true_is_false. intros E.
    apply (Hfull eq_refl) in E. unfold source_rows in E.
    cbn [target_event Validation.source_row_count Validation.database Validation.table
         default from_option id] in E.
    rewrite Hn in E. discriminate E.
  - pose proof (row_count_match_policy int_of_small test_cfg (athena_counting "10")
                  (glue_listing []) (target_event (Some 10) None (Some "full")))
      as H.
    cbv zeta in H. destruct H as (_ & Heng & Hfull & _).
    apply (Hfull eq_refl). symmetry.
    apply (Heng [[Some "cnt"]; [Some "10"]] [Some "10"] "10" 10); reflexivity.
  - pose proof (row_count_match_policy int_of_small test_cfg (athena_counting "110")
                  (glue_listing []) (target_event (Some 10) None (Some "incremental")))
      as H.
    cbv zeta in H. destruct H as (_ & Heng & _ & Hinc).
    apply Hinc; [vm_compute; discriminate|].
    rewrite (Heng [[Some "cnt"]; [Some "110"]] [Some "110"] "110" 110);
      [vm_compute; discriminate | reflexivity..].
  - pose proof (row_count_match_policy int_of_small test_cfg (athena_counting "0")
                  (glue_listing []) (target_event (Some 10) None (Some "incremental")))
      as H.
    cbv zeta in H. destruct H as (_ & Heng & _ & Hinc).
    apply not_true_is_false. intros E.
    apply Hinc in E; [|vm_compute; discriminate].
    rewrite (Heng [[Some "cnt"]; [Some "0"]] [Some "0"] "0" 0) in E;
      [|reflexivity..].
    vm_compute in E. apply E. reflexivity.
Defined.

Lemma count_source_rows_parquet csv_reader content :
  Validation._count_source_rows csv_reader content "parquet" = -1.
Proof. reflexivity. Qed.

(** C10: when the count query raises, [validate_target] carries on with
    -1 as the target row count; hence, for a full load whose source row
    count is the parquet sentinel -1 (and an engine whose successful
    counts are not negative), [row_count_match] is true exactly when the
    count attempt failed, and the verdict is then PASSED as soon as the
    schemas match. *)
Theorem count_failure_matches_sentinel
    (csv_reader : string -> list (list string)) (content : string)
    (int_of_str : string -> option Z) (cfg : Aws.Config)
    (athena : Aws.Athena) (glue : Aws.Glue) (event : Validation.TargetEvent) :
  mode_of event = "full" ->
  source_rows event = Validation._count_source_rows csv_reader content "parquet" ->
  (forall c, Validation.count_attempt int_of_str cfg athena (Validation.table event)
             = Py.Ok c -> 0 <= c) ->
  let r := Validation.validate_target int_of_str cfg athena glue event in
  let attempt := Validation.count_attempt int_of_str cfg athena (Validation.table event) in
  (forall e,
     fst (Validation._run_athena_query cfg athena
            (Validation.count_query cfg (Validation.table event))) = Py.Raise e ->
     attempt = Py.Raise e) /\
  (Py.raises attempt = true -> Validation.target_row_count r = -1) /\
  (Validation.row_count_match (Validation.validation_details r) = true <->
   Py.raises attempt = true) /\
  (Py.raises attempt = true ->
   Validation.validation_status r =
   if Validation.schema_match r then "PASSED" else "FAILED").
Proof.
  intros Hmode Hsrc Hnonneg r attempt.
  rewrite count_source_rows_parquet in Hsrc.
  assert (Htarget : Validation.target_row_count r =
                    match attempt with Py.Ok n => n | Py.Raise _ => -1 end)
    by apply verdict_target_row_count.
  assert (Hmatch : Validation.row_count_match (Validation.validation_details r) =
                   (-1 =? Validation.target_row_count r)).
  { unfold r. rewrite verdict_row_count_match, Hmode, Hsrc. reflexivity. }
  assert (Hstatus := verdict_status int_of_str cfg athena glue event).
  fold r in Hstatus. rewrite Hmatch in *. rewrite Htarget in *.
  subst attempt. split; [|split; [|split]].
  - intros e He. unfold Validation.count_attempt. rewrite He. reflexivity.
  - destruct (Validation.count_attempt _ _ _ _); [discriminate | reflexivity].
  - destruct (Validation.count_attempt _ _ _ _) as [c|e] eqn:E; cbn [Py.raises].
    + specialize (Hnonneg c eq_refl). split; [|discriminate].
      intros H%Z.eqb_eq. lia.
    + split; reflexivity.
  - destruct (Validation.count_attempt _ _ _ _); [discriminate|].
    intros _. exact Hstatus.
Qed.

Lemma count_failure_matches_sentinel_witness :
  (let r := Validation.validate_target int_of_small test_cfg athena_down
              (glue_listing ["id"]) (target_event (Some (-1)) None (Some "full")) in
   Validation.target_row_count r = -1 /\
   Validation.validation_status r = "PASSED") /\
  (let r := Validation.validate_target int_of_small test_cfg (athena_counting "100")
              (glue_listing ["id"]) (target_event None None None) in
   ~ Validation.row_count_match (Validation.validation_details r) = true).
Proof.
  split.
  - destruct (count_failure_matches_sentinel (fun _ => []) "PAR1" int_of_small test_cfg athena_down
                (glue_listing ["id"]) (target_event (Some (-1)) None (Some "full")))
      as (_ & Ht & _ & Hs).
    + reflexivity.
    + reflexivity.
    + intros c H. vm_compute in H. discriminate H.
    + split; [apply Ht | apply Hs]; reflexivity.
  - destruct (count_failure_matches_sentinel (fun _ => []) "PAR1" int_of_small test_cfg (athena_counting "100")
                (glue_listing ["id"]) (target_event None None None))
      as (_ & _ & Hm & _).
    + reflexivity.
    + reflexivity.
    + intros c H. vm_compute in H. injection H as <-. lia.
    + intros r H. apply Hm in H. vm_compute in H. discriminate H.
Defined.

(* ===================================================================== *)
(** * Properties of the job ledger *)
(* ===================================================================== *)

Section LedgerFacts.

Variables uuid4 now_start now_end : string.
Variable duration : string -> string.
Variable str_of_error : MetadataLogger.ErrorInfo -> string.

Let key (event : MetadataLogger.Event) : string * string :=
  (default uuid4 (MetadataLogger.job_id event),
   default now_start (MetadataLogger.start_time event)).

Lemma success_item_status event :
  MetadataLogger.success_item uuid4 now_start now_end duration event !! "status"
  = Some (MetadataLogger.VStr "SUCCESS").
Proof. reflexivity. Qed.

Lemma success_item_validation_status event :
  MetadataLogger.success_item uuid4 now_start now_end duration event
    !! "validation_status"
  = Some (MetadataLogger.VStr (verdict_of event)).
Proof. reflexivity. Qed.

Lemma failure_item_status event :
  MetadataLogger.failure_item uuid4 now_start now_end duration str_of_error event
    !! "status"
  = Some (MetadataLogger.VStr "FAILED").
Proof. reflexivity. Qed.

Lemma log_success_stores (event : MetadataLogger.Event) (tbl : gmap (string * string) (gmap string MetadataLogger.value)) :
  snd (MetadataLogger.log_success uuid4 now_start now_end duration event tbl)
    !! key event
  = Some (MetadataLogger.success_item uuid4 now_start now_end duration event).
Proof. unfold MetadataLogger.log_success, MetadataLogger.put_item. apply lookup_insert_eq. Qed.

Lemma log_failure_stores (event : MetadataLogger.Event) (tbl : gmap (string * string) (gmap string MetadataLogger.value)) :
  snd (MetadataLogger.log_failure uuid4 now_start now_end duration str_of_error event tbl)
    !! key event
  = Some (MetadataLogger.failure_item uuid4 now_start now_end duration str_of_error event).
Proof. unfold MetadataLogger.log_failure, MetadataLogger.put_item. apply lookup_insert_eq. Qed.

(** Records of other jobs are left as they were. *)
Lemma log_success_other (event : MetadataLogger.Event)
    (tbl : gmap (string * string) (gmap string MetadataLogger.value))
    (k : string * string) :
  k <> key event ->
  snd (MetadataLogger.log_success uuid4 now_start now_end duration event tbl) !! k
  = tbl !! k.
Proof.
  intros Hk. unfold MetadataLogger.log_success, MetadataLogger.put_item.
  apply lookup_insert_ne. intros E. apply Hk. symmetry. exact E.
Qed.

End LedgerFacts.

(** C2: the record [log_success] persists has status SUCCESS whatever
    verdict the event carries, and that verdict (FAILED included) is stored
    in its [validation_status] field only; the record [log_failure]
    persists has status FAILED; through the direct dispatch of [handler],
    the persisted record has status FAILED exactly when the action is
    [log_failure]. *)
Theorem job_status_ignores_verdict
    (uuid4 now_start now_end : string) (duration : string -> string)
    (str_of_error : MetadataLogger.ErrorInfo -> string)
    (event : MetadataLogger.Event)
    (tbl : gmap (string * string) (gmap string MetadataLogger.value)) :
  let key := (default uuid4 (MetadataLogger.job_id event),
              default now_start (MetadataLogger.start_time event)) in
  let done := MetadataLogger.log_success uuid4 now_start now_end duration event tbl in
  let failed :=
    MetadataLogger.log_failure uuid4 now_start now_end duration str_of_error event tbl in
  (MetadataLogger.l_status (fst done) = "SUCCESS" /\
   exists it, snd done !! key = Some it /\
     it !! "status" = Some (MetadataLogger.VStr "SUCCESS") /\
     it !! "validation_status" = Some (MetadataLogger.VStr (verdict_of event))) /\
  (MetadataLogger.l_status (fst failed) = "FAILED" /\
   exists it, snd failed !! key = Some it /\
     it !! "status" = Some (MetadataLogger.VStr "FAILED")) /\
  (forall action out,
     MetadataLogger.handler_direct uuid4 now_start now_end duration str_of_error
       action event tbl = Some out ->
     exists it, snd out !! key = Some it /\
       (it !! "status" = Some (MetadataLogger.VStr "FAILED") <->
        action = "log_failure")).
Proof.
  intros key done failed. split; [|split].
  - split; [reflexivity|]. eexists. split; [apply log_success_stores|].
    split; [apply success_item_status | apply success_item_validation_status].
  - split; [reflexivity|]. eexists. split; [apply log_failure_stores|].
    apply failure_item_status.
  - intros action out. unfold MetadataLogger.handler_direct.
    destruct (String.eqb action "log_success") eqn:Es.
    + apply String.eqb_eq in Es. intros [= <-]. eexists.
      split; [apply log_success_stores|]. rewrite success_item_status.
      subst action. split; intros H; discriminate H.
    + destruct (String.eqb action "log_failure") eqn:Ef; [|discriminate].
      apply String.eqb_eq in Ef. intros [= <-]. eexists.
      split; [apply log_failure_stores|]. rewrite failure_item_status.
      split; [intros _; exact Ef | reflexivity].
Qed.

Lemma job_status_ignores_verdict_witness :
  exists it,
    snd (MetadataLogger.log_success "uuid" "t0" "t1" (fun _ => "0m 3s")
           failed_validation_event ∅)
      !! ("job-7", "2024-05-01T10:00:00Z") = Some it /\
    (it !! "status" = Some (MetadataLogger.VStr "FAILED") <->
     "log_success" = "log_failure").
Proof.
  apply (proj2 (proj2 (job_status_ignores_verdict "uuid" "t0" "t1" (fun _ => "0m 3s")
                  str_of_error_stub failed_validation_event ∅)) "log_success").
  reflexivity.
Defined.

(** A FAILED verdict in the event: recorded, with the job SUCCESS. *)
Example failed_verdict_recorded_as_success :
  let tbl := snd (MetadataLogger.log_success "uuid" "t0" "t1" (fun _ => "0m 3s")
                    failed_validation_event ∅) in
  (tbl !! ("job-7", "2024-05-01T10:00:00Z")) ≫= (fun it => it !! "status")
    = Some (MetadataLogger.VStr "SUCCESS") /\
  (tbl !! ("job-7", "2024-05-01T10:00:00Z")) ≫= (fun it => it !! "validation_status")
    = Some (MetadataLogger.VStr "FAILED").
Proof. split; reflexivity. Qed.

(* ===================================================================== *)
(** * Properties of the polling loops *)
(* ===================================================================== *)

Lemma after_zero c : after 0 c = c.
Proof. destruct c as [p s]. unfold after. simpl. f_equal; lia. Qed.

Lemma after_succ n c : after n (Aws.sleep 2 (Aws.tick c)) = after (S n) c.
Proof. destruct c as [p s]. unfold after, Aws.sleep, Aws.tick. simpl Aws.polls. simpl Aws.slept. f_equal; lia. Qed.

Lemma pending_at_inv athena qid k :
  pending_at athena qid k = true ->
  exists r, Aws.get_query_execution athena qid k = Py.Ok r /\
    String.eqb (Aws.State r) "SUCCEEDED" = false /\
    String.eqb (Aws.State r) "FAILED" || String.eqb (Aws.State r) "CANCELLED" = false.
Proof.
  unfold pending_at, pending.
  destruct (Aws.get_query_execution athena qid k) as [r|e]; [|discriminate].
  intros H. exists r. split; [reflexivity|].
  destruct (String.eqb (Aws.State r) "SUCCEEDED"),
           (String.eqb (Aws.State r) "FAILED"),
           (String.eqb (Aws.State r) "CANCELLED");
    cbn in H |- *; try discriminate H; split; reflexivity.
Qed.

Section Waiting.

Variable athena : Aws.Athena.
Variable qid : string.

Lemma stalls_step from n :
  stalls athena qid from (S n) ->
  pending_at athena qid from = true /\ stalls athena qid (S from) n.
Proof.
  intros H. split; [apply H; lia|]. intros k Hk. apply H. lia.
Qed.

(** The loop of [_run_athena_query] (validation). *)
Lemma validation_loop_exhausts n : forall i c,
  stalls athena qid (Aws.polls c) n ->
  Py.for_range n i (Validation.poll_body athena qid) c = (Py.Exhausted, after n c).
Proof.
  induction n as [|n IH]; intros i c H.
  - cbn [Py.for_range]. now rewrite after_zero.
  - apply stalls_step in H as [H0 H].
    apply pending_at_inv in H0 as (r & Hr & Hs & Hf).
    cbn [Py.for_range]. unfold Validation.poll_body at 1.
    rewrite Hr, Hs, Hf. rewrite IH by exact H. now rewrite after_succ.
Qed.

(** The loop of [_execute_query] (the primitive). *)
Lemma primitive_loop_exhausts n : forall i c last,
  stalls athena qid (Aws.polls c) n ->
  exists last',
    Py.for_range n i (AthenaQuery.poll_body athena qid) (c, last) =
    (Py.Exhausted, (after n c, last')).
Proof.
  induction n as [|n IH]; intros i c last H.
  - exists last. cbn [Py.for_range]. now rewrite after_zero.
  - apply stalls_step in H as [H0 H].
    apply pending_at_inv in H0 as (r & Hr & Hs & Hf).
    cbn [Py.for_range]. unfold AthenaQuery.poll_body at 1. cbn [fst snd].
    rewrite Hr, Hs, Hf.
    destruct (IH (S i) (Aws.sleep 2 (Aws.tick c)) (Some r) H) as [last' E].
    exists last'. rewrite E. now rewrite after_succ.
Qed.

End Waiting.

(** The loop of [_drop_iceberg_table] (teardown). *)
Lemma teardown_loop_exhausts w qid n : forall i c,
  stalls (DeleteHandler.athena w) qid (Aws.polls c) n ->
  Py.for_range n i (DeleteHandler.poll_body w qid) c = (Py.Exhausted, after n c).
Proof.
  induction n as [|n IH]; intros i c H.
  - cbn [Py.for_range]. now rewrite after_zero.
  - apply stalls_step in H as [H0 H].
    apply pending_at_inv in H0 as (r & Hr & Hs & Hf).
    cbn [Py.for_range]. unfold DeleteHandler.poll_body at 1.
    rewrite Hr, Hs, Hf. rewrite IH by exact H. now rewrite after_succ.
Qed.

Lemma drop_gives_up (cfg : Aws.Config) (w : DeleteHandler.World)
    (database table qid : string) (log : DeleteHandler.Log) :
  (forall q d g, Aws.start_query_execution (DeleteHandler.athena w) q d g = Py.Ok qid) ->
  stalls (DeleteHandler.athena w) qid 0 30 ->
  fst (DeleteHandler.drop_iceberg_table_timed cfg w database table log) =
    Py.Ok (false, {| Aws.polls := 30; Aws.slept := 2 * 30 |}).
Proof.
  intros Hstart Hstall.
  unfold DeleteHandler.drop_iceberg_table_timed, DeleteHandler.try_except,
    DeleteHandler.bindM, DeleteHandler.send.
  rewrite Hstart.
  rewrite (teardown_loop_exhausts w qid 30 0 Aws.clock0 Hstall).
  reflexivity.
Qed.

Lemma stalls_shorter athena qid n m :
  (m <= n)%nat -> stalls athena qid 0 n -> stalls athena qid 0 m.
Proof. intros Hmn H k Hk. apply H. lia. Qed.

(** C7, refuted as stated: against an engine that never leaves RUNNING
    the count query and the primitive give up after 60 polls and 120 time
    units, the drop-table statement after 30 polls and 60 time units; and
    a statement that succeeds after 90 time units is seen as succeeded by
    the count query but reported as not dropped by the teardown. *)
Lemma drop_table_waits_half_as_long :
  snd (Validation._run_athena_query test_cfg athena_stuck "SELECT 1") =
    {| Aws.polls := 60; Aws.slept := 120 |} /\
  snd (AthenaQuery._execute_query test_cfg athena_stuck "SELECT 1" None) =
    {| Aws.polls := 60; Aws.slept := 120 |} /\
  fst (DeleteHandler.drop_iceberg_table_timed test_cfg (world_with athena_stuck)
         "archive" "orders" []) =
    Py.Ok (false, {| Aws.polls := 30; Aws.slept := 60 |}) /\
  Py.raises (fst (Validation._run_athena_query test_cfg athena_slow "SELECT 1")) = false /\
  fst (DeleteHandler._drop_iceberg_table test_cfg (world_with athena_slow)
         "archive" "orders" []) = Py.Ok false.
Proof. vm_compute. repeat split; reflexivity. Qed.

(** C7, amended: while the engine stays in a non-terminal state, the
    count query of the validation engine and the bounded query primitive
    both poll 60 times, 2 time units apart (120 units in all), before they
    give up; the drop-table statement of the teardown coordinator has its
    own loop, which polls 30 times, 2 time units apart (60 units in
    all). *)
Theorem polling_budgets (cfg : Aws.Config) (w : DeleteHandler.World)
    (query : string) (db : option string) (database table qid : string)
    (log : DeleteHandler.Log) :
  (forall q d g, Aws.start_query_execution (DeleteHandler.athena w) q d g = Py.Ok qid) ->
  stalls (DeleteHandler.athena w) qid 0 60 ->
  snd (AthenaQuery._execute_query cfg (DeleteHandler.athena w) query db) =
    {| Aws.polls := 60; Aws.slept := 2 * 60 |} /\
  snd (Validation._run_athena_query cfg (DeleteHandler.athena w) query) =
    {| Aws.polls := 60; Aws.slept := 2 * 60 |} /\
  fst (DeleteHandler.drop_iceberg_table_timed cfg w database table log) =
    Py.Ok (false, {| Aws.polls := 30; Aws.slept := 2 * 30 |}).
Proof.
  intros Hstart Hstall. split; [|split].
  - unfold AthenaQuery._execute_query. rewrite Hstart.
    destruct (primitive_loop_exhausts (DeleteHandler.athena w) qid 60 0 Aws.clock0 None Hstall)
      as [last E].
    rewrite E. reflexivity.
  - unfold Validation._run_athena_query. rewrite Hstart.
    rewrite (validation_loop_exhausts (DeleteHandler.athena w) qid 60 0 Aws.clock0 Hstall).
    reflexivity.
  - apply (drop_gives_up cfg w database table qid log Hstart).
    apply (stalls_shorter _ _ 60); [lia | exact Hstall].
Qed.

Lemma polling_budgets_witness :
  snd (AthenaQuery._execute_query test_cfg athena_stuck "SELECT 1" None) =
    {| Aws.polls := 60; Aws.slept := 2 * 60 |} /\
  snd (Validation._run_athena_query test_cfg athena_stuck "SELECT 1") =
    {| Aws.polls := 60; Aws.slept := 2 * 60 |} /\
  fst (DeleteHandler.drop_iceberg_table_timed test_cfg (world_with athena_stuck)
         "archive" "orders" []) =
    Py.Ok (false, {| Aws.polls := 30; Aws.slept := 2 * 30 |}).
Proof.
  apply (polling_budgets test_cfg (world_with athena_stuck) "SELECT 1" None
           "archive" "orders" "q-1" []).
  - intros q d g. reflexivity.
  - intros k Hk. reflexivity.
Defined.

(** C8, refuted as stated: when the engine never reaches a terminal
    state, the polling loop of the validation engine raises. *)
Lemma count_query_timeout_raises :
  fst (Validation._run_athena_query test_cfg athena_stuck
         (Validation.count_query test_cfg "orders")) =
  Py.Raise (Py.Exception "Athena query timed out").
Proof. vm_compute. reflexivity. Qed.

(** C8, amended: when the engine stays in a non-terminal state for the
    whole attempt budget, [_execute_query] returns, without raising, a
    result whose status is TIMEOUT and not FAILED; the loop of the
    validation engine raises an exception instead, which
    [_get_target_row_count] turns into the count -1; the loop of the
    teardown coordinator returns false. *)
Theorem timeout_outcomes (int_of_str : string -> option Z) (cfg : Aws.Config)
    (w : DeleteHandler.World) (query : string) (db : option string)
    (database table qid : string) (log : DeleteHandler.Log) :
  (forall q d g, Aws.start_query_execution (DeleteHandler.athena w) q d g = Py.Ok qid) ->
  stalls (DeleteHandler.athena w) qid 0 60 ->
  (exists r,
     fst (AthenaQuery._execute_query cfg (DeleteHandler.athena w) query db) = Py.Ok r /\
     AthenaQuery.status r = "TIMEOUT" /\ AthenaQuery.status r <> "FAILED") /\
  fst (Validation._run_athena_query cfg (DeleteHandler.athena w) query) =
    Py.Raise (Py.Exception "Athena query timed out") /\
  Validation._get_target_row_count int_of_str cfg (DeleteHandler.athena w) database table
    = -1 /\
  fst (DeleteHandler._drop_iceberg_table cfg w database table log) = Py.Ok false.
Proof.
  intros Hstart Hstall.
  assert (Hrun : forall q,
    fst (Validation._run_athena_query cfg (DeleteHandler.athena w) q) =
    Py.Raise (Py.Exception "Athena query timed out")).
  { intros q. unfold Validation._run_athena_query. rewrite Hstart.
    rewrite (validation_loop_exhausts (DeleteHandler.athena w) qid 60 0 Aws.clock0 Hstall).
    reflexivity. }
  split; [|split; [|split]].
  - unfold AthenaQuery._execute_query. rewrite Hstart.
    destruct (primitive_loop_exhausts (DeleteHandler.athena w) qid 60 0 Aws.clock0 None Hstall)
      as [last E].
    rewrite E. eexists. split; [reflexivity|]. split; [reflexivity | discriminate].
  - apply Hrun.
  - unfold Validation._get_target_row_count, Validation.count_attempt.
    rewrite Hrun. reflexivity.
  - unfold DeleteHandler._drop_iceberg_table, DeleteHandler.bindM.
    assert (Hdrop := drop_gives_up cfg w database table qid log Hstart
                       (stalls_shorter _ _ 60 30 ltac:(lia) Hstall)).
    destruct (DeleteHandler.drop_iceberg_table_timed cfg w database table log) as [res l'].
    cbn [fst] in Hdrop. subst res. reflexivity.
Qed.

Lemma timeout_outcomes_witness :
  (exists r,
     fst (AthenaQuery._execute_query test_cfg athena_stuck "SELECT 1" None) = Py.Ok r /\
     AthenaQuery.status r = "TIMEOUT" /\ AthenaQuery.status r <> "FAILED") /\
  fst (Validation._run_athena_query test_cfg athena_stuck "SELECT 1") =
    Py.Raise (Py.Exception "Athena query timed out") /\
  Validation._get_target_row_count int_of_small test_cfg athena_stuck "sales" "orders"
    = -1 /\
  fst (DeleteHandler._drop_iceberg_table test_cfg (world_with athena_stuck)
         "sales" "orders" []) = Py.Ok false.
Proof.
  apply (timeout_outcomes int_of_small test_cfg (world_with athena_stuck) "SELECT 1" None
           "sales" "orders" "q-1" []).
  - intros q d g. reflexivity.
  - intros k Hk. reflexivity.
Defined.

(* ===================================================================== *)
(** * Properties of the teardown coordinator *)
(* ===================================================================== *)

Lemma delete_pages_ok w pages : forall n l,
  forallb (page_ok (DeleteHandler.s3 w)) pages = true ->
  DeleteHandler.delete_pages w pages n l =
  (Py.Ok (n + s3_count pages), (l ++ s3_calls pages)%list).
Proof.
  induction pages as [|page pages IH]; intros n l H.
  - cbn [s3_count s3_calls flat_map fold_right DeleteHandler.delete_pages].
    rewrite app_nil_r, Z.add_0_r. reflexivity.
  - cbn [forallb] in H. apply andb_true_iff in H as [Hp Hps].
    assert (Hcount : s3_count (page :: pages) = page_count page + s3_count pages)
      by reflexivity.
    assert (Hcalls : s3_calls (page :: pages) = (page_calls page ++ s3_calls pages)%list)
      by reflexivity.
    rewrite Hcount, Hcalls, Z.add_assoc, app_assoc.
    destruct page as [[|o os]|e]; [| |discriminate Hp].
    + cbn [DeleteHandler.delete_pages page_count page_calls length].
      rewrite (IH n l Hps), app_nil_r. change (Z.of_nat 0) with 0.
      rewrite Z.add_0_r. reflexivity.
    + cbn [page_ok] in Hp.
      cbn [DeleteHandler.delete_pages page_count page_calls].
      unfold DeleteHandler.bindM, DeleteHandler.send.
      destruct (DeleteHandler.delete_objects (DeleteHandler.s3 w) (o :: os)) as [[]|e];
        [|discriminate Hp].
      apply (IH _ _ Hps).
Qed.

Lemma delete_items_ok w database items : forall n l,
  forallb (item_ok (DeleteHandler.dynamodb w) database) items = true ->
  DeleteHandler.delete_items w database items n l =
  (Py.Ok (n + items_count database items),
   (l ++ flat_map (item_calls database) items)%list).
Proof.
  induction items as [|item items IH]; intros n l H.
  - cbn [items_count flat_map fold_right DeleteHandler.delete_items].
    rewrite app_nil_r, Z.add_0_r. reflexivity.
  - cbn [forallb] in H. apply andb_true_iff in H as [Hi His].
    cbn [items_count flat_map fold_right DeleteHandler.delete_items].
    fold (items_count database items).
    unfold item_ok in Hi. unfold item_calls at 1.
    destruct (DeleteHandler.in_database database item).
    + destruct (item !! "job_id") as [j|]; [|discriminate Hi].
      destruct (item !! "start_time") as [t|]; [|discriminate Hi].
      unfold DeleteHandler.bindM, DeleteHandler.send.
      destruct (DeleteHandler.delete_item (DeleteHandler.dynamodb w) j t) as [[]|e];
        [|discriminate Hi].
      rewrite (IH _ _ His), Z.add_assoc, app_assoc. reflexivity.
    + rewrite (IH _ _ His), Z.add_0_l. reflexivity.
Qed.

Lemma delete_s3_prefix_ok w prefix l :
  s3_ok w prefix = true ->
  DeleteHandler._delete_s3_prefix w prefix l =
  (Py.Ok (s3_count (DeleteHandler.paginate (DeleteHandler.s3 w) prefix)),
   (l ++ s3_calls (DeleteHandler.paginate (DeleteHandler.s3 w) prefix))%list).
Proof.
  intros H. unfold DeleteHandler._delete_s3_prefix.
  rewrite (delete_pages_ok w _ 0 l H). reflexivity.
Qed.

Lemma delete_metadata_ok w database table l :
  ledger_ok w database table = true ->
  DeleteHandler._delete_metadata_for_table w database table l =
  (Py.Ok (ledger_count w database table), (l ++ ledger_calls w database table)%list).
Proof.
  unfold ledger_ok, ledger_count, ledger_calls, DeleteHandler._delete_metadata_for_table.
  destruct (DeleteHandler.query (DeleteHandler.dynamodb w) table) as [items|e];
    [|discriminate].
  intros H. rewrite (delete_items_ok w database items 0 l H). reflexivity.
Qed.

(** The drop statement never raises: it sends its query and answers with
    a flag, the same whatever was sent before. *)
Lemma drop_iceberg_table_total cfg w database table :
  exists dropped, forall l,
    DeleteHandler._drop_iceberg_table cfg w database table l =
    (Py.Ok dropped,
     (l ++ [DeleteHandler.AthenaStartQuery (DeleteHandler.drop_query database table)])%list).
Proof.
  unfold DeleteHandler._drop_iceberg_table, DeleteHandler.drop_iceberg_table_timed,
    DeleteHandler.try_except, DeleteHandler.bindM, DeleteHandler.send, DeleteHandler.ret.
  destruct (Aws.start_query_execution _ _ _ _) as [qid|e];
    [|exists false; reflexivity].
  destruct (Py.for_range 30 0 (DeleteHandler.poll_body w qid) Aws.clock0) as [[| |b|e] c];
    eexists; intros l; reflexivity.
Qed.

(** Neither does the catalog removal. *)
Lemma delete_glue_table_total w database table :
  exists deleted, forall l,
    DeleteHandler._delete_glue_table w database table l =
    (Py.Ok deleted, (l ++ [DeleteHandler.GlueDeleteTable database table])%list).
Proof.
  unfold DeleteHandler._delete_glue_table, DeleteHandler.try_except, DeleteHandler.bindM,
    DeleteHandler.send, DeleteHandler.ret.
  destruct (Aws.delete_table _ _ _) as [[]|e]; [exists true; reflexivity|].
  destruct (String.eqb (Py.exn_class e) "EntityNotFoundException");
    eexists; intros l; reflexivity.
Qed.

(** C9, refuted as stated: when listing the raw prefix fails, the handler
    answers 500 with the error and without a step list, and none of the
    later removals has been sent; when the ledger query fails, the four
    earlier removals have been sent and the answer is again a bare error. *)
Lemma teardown_aborts_on_store_failure :
  DeleteHandler.handler test_cfg world_s3_denied (teardown_event "sales" "orders") [] =
    (DeleteHandler._cors_response 500 (DeleteHandler.ErrorBody "AccessDenied"), []) /\
  DeleteHandler.handler test_cfg world_ledger_throttled (teardown_event "sales" "orders") [] =
    (DeleteHandler._cors_response 500
       (DeleteHandler.ErrorBody "ProvisionedThroughputExceededException"),
     [DeleteHandler.S3DeleteObjects ["a"; "b"]; DeleteHandler.S3DeleteObjects ["c"];
      DeleteHandler.S3DeleteObjects ["a"; "b"]; DeleteHandler.S3DeleteObjects ["c"];
      DeleteHandler.AthenaStartQuery
        (DeleteHandler.drop_query "archive" "orders");
      DeleteHandler.GlueDeleteTable "archive" "orders"]).
Proof. split; vm_compute; reflexivity. Qed.

(** C9, amended: for a non-empty database and table, and as long as no
    object-store call and no ledger call raises, the handler sends the
    five removals in sequence and answers 200 with four step entries (the
    catalog drop and the catalog-entry removal share one entry that
    carries both flags); whether the drop statement or the catalog removal
    fail has no influence on the steps that follow, it only shows in that
    entry and in the overall status. *)
Theorem teardown_runs_every_step (cfg : Aws.Config) (w : DeleteHandler.World)
    (database table : string) (log : DeleteHandler.Log) :
  database <> EmptyString -> table <> EmptyString ->
  s3_ok w (DeleteHandler.raw_prefix database table) = true ->
  s3_ok w (DeleteHandler.warehouse_prefix database table) = true ->
  ledger_ok w database table = true ->
  exists dropped glue_deleted,
    DeleteHandler._drop_iceberg_table cfg w (Aws.GLUE_DATABASE cfg) table [] =
      (Py.Ok dropped,
       [DeleteHandler.AthenaStartQuery
          (DeleteHandler.drop_query (Aws.GLUE_DATABASE cfg) table)]) /\
    DeleteHandler._delete_glue_table w (Aws.GLUE_DATABASE cfg) table [] =
      (Py.Ok glue_deleted,
       [DeleteHandler.GlueDeleteTable (Aws.GLUE_DATABASE cfg) table]) /\
    DeleteHandler.handler cfg w (teardown_event database table) log =
      (DeleteHandler._cors_response 200
         (DeleteHandler.ResultsBody
            {| DeleteHandler.database := database;
               DeleteHandler.table := table;
               DeleteHandler.steps :=
                 expected_steps cfg w database table dropped glue_deleted;
               DeleteHandler.status :=
                 if dropped || glue_deleted then "SUCCESS" else "PARTIAL" |}),
       (log ++ expected_calls cfg w database table)%list).
Proof.
  intros Hdb Htable Hraw Hwarehouse Hledger.
  apply String.eqb_neq in Hdb, Htable.
  destruct (drop_iceberg_table_total cfg w (Aws.GLUE_DATABASE cfg) table) as [dropped Hd].
  destruct (delete_glue_table_total w (Aws.GLUE_DATABASE cfg) table) as [glue_deleted Hg].
  exists dropped, glue_deleted. split; [apply Hd|]. split; [apply Hg|].
  unfold DeleteHandler.handler, teardown_event.
  cbn [DeleteHandler.pathParameters DeleteHandler.p_database DeleteHandler.p_table
       from_option id].
  rewrite Hdb, Htable. cbn [orb].
  unfold DeleteHandler.teardown, DeleteHandler.bindM.
  rewrite (delete_s3_prefix_ok w _ log Hraw).
  rewrite (delete_s3_prefix_ok w _ _ Hwarehouse).
  rewrite Hd, Hg.
  rewrite (delete_metadata_ok w database table _ Hledger).
  unfold DeleteHandler.ret, expected_calls, expected_steps.
  rewrite <- !app_assoc. cbn [app].
  destruct (dropped || glue_deleted); reflexivity.
Qed.

Lemma teardown_runs_every_step_witness :
  exists dropped glue_deleted,
    DeleteHandler._drop_iceberg_table test_cfg world_catalog_down "archive" "orders" [] =
      (Py.Ok dropped,
       [DeleteHandler.AthenaStartQuery (DeleteHandler.drop_query "archive" "orders")]) /\
    DeleteHandler._delete_glue_table world_catalog_down "archive" "orders" [] =
      (Py.Ok glue_deleted, [DeleteHandler.GlueDeleteTable "archive" "orders"]) /\
    DeleteHandler.handler test_cfg world_catalog_down (teardown_event "sales" "orders") [] =
      (DeleteHandler._cors_response 200
         (DeleteHandler.ResultsBody
            {| DeleteHandler.database := "sales";
               DeleteHandler.table := "orders";
               DeleteHandler.steps :=
                 expected_steps test_cfg world_catalog_down "sales" "orders"
                   dropped glue_deleted;
               DeleteHandler.status :=
                 if dropped || glue_deleted then "SUCCESS" else "PARTIAL" |}),
       ([] ++ expected_calls test_cfg world_catalog_down "sales" "orders")%list).
Proof.
  apply (teardown_runs_every_step test_cfg world_catalog_down "sales" "orders" []).
  - discriminate.
  - discriminate.
  - reflexivity.
  - reflexivity.
  - reflexivity.
Defined.

(** Both catalog paths failing: every step still runs, the step list is
    complete, and the overall status is PARTIAL. *)
Example teardown_partial :
  exists steps calls,
    DeleteHandler.handler test_cfg world_catalog_down (teardown_event "sales" "orders") [] =
      (DeleteHandler._cors_response 200
         (DeleteHandler.ResultsBody
            {| DeleteHandler.database := "sales"; DeleteHandler.table := "orders";
               DeleteHandler.steps := steps; DeleteHandler.status := "PARTIAL" |}),
       calls) /\
    map DeleteHandler.step_status steps = ["SUCCESS"; "SUCCESS"; "FAILED"; "SUCCESS"] /\
    length calls = 7%nat.
Proof. eexists. eexists. vm_compute. repeat split; reflexivity. Qed.

(* ===================================================================== *)
(** * Further properties of the polling loops *)
(* ===================================================================== *)

Lemma for_range_add {S R : Type} (body : nat -> S -> Py.ctl R * S) a b :
  forall i s,
    Py.for_range (a + b) i body s =
    match Py.for_range a i body s with
    | (Py.Exhausted, s') => Py.for_range b (i + a) body s'
    | other => other
    end.
Proof.
  induction a as [|a IH]; intros i s.
  - cbn [Nat.add Py.for_range]. now rewrite Nat.add_0_r.
  - cbn [Nat.add Py.for_range]. destruct (body i s) as [[| |r|e] s']; try reflexivity.
    rewrite IH. now rewrite Nat.add_succ_r.
Qed.

Lemma bounded_from_refl n c : bounded_from n c c.
Proof. unfold bounded_from. rewrite Nat.sub_diag. lia. Qed.

Lemma bounded_from_tick n c : bounded_from (S n) c (Aws.tick c).
Proof. unfold bounded_from, Aws.tick. cbn [Aws.polls Aws.slept]. lia. Qed.

Lemma bounded_from_step n c c' :
  bounded_from n (Aws.sleep 2 (Aws.tick c)) c' -> bounded_from (S n) c c'.
Proof. unfold bounded_from, Aws.sleep, Aws.tick. cbn [Aws.polls Aws.slept]. lia. Qed.

Lemma validation_loop_bounded athena qid n : forall i c,
  bounded_from n c (snd (Py.for_range n i (Validation.poll_body athena qid) c)).
Proof.
  induction n as [|n IH]; intros i c; cbn [Py.for_range].
  - apply bounded_from_refl.
  - unfold Validation.poll_body at 1.
    destruct (Aws.get_query_execution athena qid (Aws.polls c)) as [r|e];
      [|apply bounded_from_tick].
    destruct (String.eqb (Aws.State r) "SUCCEEDED"); [apply bounded_from_tick|].
    destruct (String.eqb (Aws.State r) "FAILED" || String.eqb (Aws.State r) "CANCELLED");
      [apply bounded_from_tick|].
    apply bounded_from_step, IH.
Qed.

Lemma primitive_loop_bounded athena qid n : forall i c last,
  bounded_from n c
    (fst (snd (Py.for_range n i (AthenaQuery.poll_body athena qid) (c, last)))).
Proof.
  induction n as [|n IH]; intros i c last; cbn [Py.for_range].
  - apply bounded_from_refl.
  - unfold AthenaQuery.poll_body at 1. cbn [fst snd].
    destruct (Aws.get_query_execution athena qid (Aws.polls c)) as [r|e];
      [|apply bounded_from_tick].
    destruct (String.eqb (Aws.State r) "SUCCEEDED"); [apply bounded_from_tick|].
    destruct (String.eqb (Aws.State r) "FAILED" || String.eqb (Aws.State r) "CANCELLED");
      [apply bounded_from_tick|].
    apply bounded_from_step, IH.
Qed.

Lemma teardown_loop_bounded w qid n : forall i c,
  bounded_from n c (snd (Py.for_range n i (DeleteHandler.poll_body w qid) c)).
Proof.
  induction n as [|n IH]; intros i c; cbn [Py.for_range].
  - apply bounded_from_refl.
  - unfold DeleteHandler.poll_body at 1.
    destruct (Aws.get_query_execution (DeleteHandler.athena w) qid (Aws.polls c)) as [r|e];
      [|apply bounded_from_tick].
    destruct (String.eqb (Aws.State r) "SUCCEEDED"); [apply bounded_from_tick|].
    destruct (String.eqb (Aws.State r) "FAILED" || String.eqb (Aws.State r) "CANCELLED");
      [apply bounded_from_tick|].
    apply bounded_from_step, IH.
Qed.

Lemma bounded_from_clock0 n c :
  bounded_from n Aws.clock0 c ->
  (Aws.polls c <= n)%nat /\ 0 <= Aws.slept c <= 2 * Z.of_nat (Aws.polls c).
Proof. unfold bounded_from, Aws.clock0. cbn [Aws.polls Aws.slept]. lia. Qed.

(** X1: whatever the engine answers (pending for ever, failing, raising),
    the primitive and the count query stop after at most 60 polls and the
    drop statement after at most 30, and each has slept at most 2 units
    per poll made: at most 120, 120 and 60 units. *)
Theorem waits_are_bounded (cfg : Aws.Config) (w : DeleteHandler.World)
    (query : string) (db : option string) (database table : string)
    (log : DeleteHandler.Log) :
  let c1 := snd (AthenaQuery._execute_query cfg (DeleteHandler.athena w) query db) in
  let c2 := snd (Validation._run_athena_query cfg (DeleteHandler.athena w) query) in
  ((Aws.polls c1 <= 60)%nat /\ 0 <= Aws.slept c1 <= 2 * Z.of_nat (Aws.polls c1)) /\
  ((Aws.polls c2 <= 60)%nat /\ 0 <= Aws.slept c2 <= 2 * Z.of_nat (Aws.polls c2)) /\
  exists dropped c3,
    fst (DeleteHandler.drop_iceberg_table_timed cfg w database table log) =
      Py.Ok (dropped, c3) /\
    (Aws.polls c3 <= 30)%nat /\ 0 <= Aws.slept c3 <= 2 * Z.of_nat (Aws.polls c3).
Proof.
  intros c1 c2. split; [|split].
  - subst c1. unfold AthenaQuery._execute_query.
    destruct (Aws.start_query_execution _ _ _ _) as [qid|e];
      [|cbn [snd]; apply bounded_from_clock0, bounded_from_refl].
    pose proof (primitive_loop_bounded (DeleteHandler.athena w) qid 60 0 Aws.clock0 None) as H.
    destruct (Py.for_range 60 0 _ _) as [[| |r|e] s]; cbn [fst snd] in *;
      apply bounded_from_clock0, H.
  - subst c2. unfold Validation._run_athena_query.
    destruct (Aws.start_query_execution _ _ _ _) as [qid|e];
      [|cbn [snd]; apply bounded_from_clock0, bounded_from_refl].
    pose proof (validation_loop_bounded (DeleteHandler.athena w) qid 60 0 Aws.clock0) as H.
    destruct (Py.for_range 60 0 _ _) as [[| |[]|e] c]; cbn [fst snd] in *;
      apply bounded_from_clock0, H.
  - unfold DeleteHandler.drop_iceberg_table_timed, DeleteHandler.try_except,
      DeleteHandler.bindM, DeleteHandler.send, DeleteHandler.ret.
    destruct (Aws.start_query_execution _ _ _ _) as [qid|e].
    + pose proof (teardown_loop_bounded w qid 30 0 Aws.clock0) as H.
      destruct (Py.for_range 30 0 _ _) as [[| |b|e] c]; cbn [fst snd] in *;
        eexists; eexists; (split; [reflexivity|]); apply bounded_from_clock0, H.
    + exists false, Aws.clock0. split; [reflexivity|].
      apply (bounded_from_clock0 30), bounded_from_refl.
Qed.

Lemma ended_clock0 k :
  ended k Aws.clock0 = {| Aws.polls := S k; Aws.slept := 2 * Z.of_nat k |}.
Proof. reflexivity. Qed.

Lemma validation_loop_succeeds athena qid k m r : forall i c,
  stalls athena qid (Aws.polls c) k ->
  Aws.get_query_execution athena qid (Aws.polls c + k) = Py.Ok r ->
  String.eqb (Aws.State r) "SUCCEEDED" = true ->
  Py.for_range (k + S m) i (Validation.poll_body athena qid) c = (Py.Broke, ended k c).
Proof.
  intros i c Hstall Hr Hs.
  rewrite for_range_add, (validation_loop_exhausts athena qid k i c Hstall).
  cbn [Py.for_range]. unfold Validation.poll_body at 1. cbn [after Aws.polls].
  rewrite Hr, Hs. reflexivity.
Qed.

Lemma validation_loop_fails athena qid k m r : forall i c,
  stalls athena qid (Aws.polls c) k ->
  Aws.get_query_execution athena qid (Aws.polls c + k) = Py.Ok r ->
  String.eqb (Aws.State r) "SUCCEEDED" = false ->
  is_failed (Aws.State r) = true ->
  Py.for_range (k + S m) i (Validation.poll_body athena qid) c =
  (Py.Raised (Py.Exception
     (String.append "Athena query "
        (String.append (Aws.State r)
           (String.append ": " (default "Unknown" (Aws.StateChangeReason r)))))),
   ended k c).
Proof.
  intros i c Hstall Hr Hs Hf. unfold is_failed in Hf.
  rewrite for_range_add, (validation_loop_exhausts athena qid k i c Hstall).
  cbn [Py.for_range]. unfold Validation.poll_body at 1. cbn [after Aws.polls].
  rewrite Hr, Hs, Hf. reflexivity.
Qed.

Lemma primitive_loop_succeeds athena qid k m r : forall i c last,
  stalls athena qid (Aws.polls c) k ->
  Aws.get_query_execution athena qid (Aws.polls c + k) = Py.Ok r ->
  String.eqb (Aws.State r) "SUCCEEDED" = true ->
  Py.for_range (k + S m) i (AthenaQuery.poll_body athena qid) (c, last) =
  (Py.Broke, (ended k c, Some r)).
Proof.
  intros i c last Hstall Hr Hs.
  rewrite for_range_add.
  destruct (primitive_loop_exhausts athena qid k i c last Hstall) as [last' E].
  rewrite E. cbn [Py.for_range]. unfold AthenaQuery.poll_body at 1.
  cbn [fst snd after Aws.polls]. rewrite Hr, Hs. reflexivity.
Qed.

Lemma primitive_loop_fails athena qid k m r : forall i c last,
  stalls athena qid (Aws.polls c) k ->
  Aws.get_query_execution athena qid (Aws.polls c + k) = Py.Ok r ->
  String.eqb (Aws.State r) "SUCCEEDED" = false ->
  is_failed (Aws.State r) = true ->
  Py.for_range (k + S m) i (AthenaQuery.poll_body athena qid) (c, last) =
  (Py.Returned
     (AthenaQuery.failure (Aws.State r)
        (default "Query execution failed" (Aws.StateChangeReason r)) qid),
   (ended k c, Some r)).
Proof.
  intros i c last Hstall Hr Hs Hf. unfold is_failed in Hf.
  rewrite for_range_add.
  destruct (primitive_loop_exhausts athena qid k i c last Hstall) as [last' E].
  rewrite E. cbn [Py.for_range]. unfold AthenaQuery.poll_body at 1.
  cbn [fst snd after Aws.polls]. rewrite Hr, Hs, Hf. reflexivity.
Qed.

Lemma teardown_loop_ends w qid k m r : forall i c,
  stalls (DeleteHandler.athena w) qid (Aws.polls c) k ->
  Aws.get_query_execution (DeleteHandler.athena w) qid (Aws.polls c + k) = Py.Ok r ->
  pending (Aws.State r) = false ->
  Py.for_range (k + S m) i (DeleteHandler.poll_body w qid) c =
  (Py.Returned (String.eqb (Aws.State r) "SUCCEEDED"), ended k c).
Proof.
  intros i c Hstall Hr Hp.
  rewrite for_range_add, (teardown_loop_exhausts w qid k i c Hstall).
  cbn [Py.for_range]. unfold DeleteHandler.poll_body at 1. cbn [after Aws.polls].
  rewrite Hr. unfold pending in Hp.
  destruct (String.eqb (Aws.State r) "SUCCEEDED"); [reflexivity|].
  destruct (String.eqb (Aws.State r) "FAILED" || String.eqb (Aws.State r) "CANCELLED") eqn:E;
    [reflexivity|].
  exfalso. apply orb_false_iff in E as [E1 E2]. rewrite E1, E2 in Hp. discriminate Hp.
Qed.

Lemma split_budget n k : (k < n)%nat -> exists m, n = (k + S m)%nat.
Proof. intros H. exists (n - k - 1)%nat. lia. Qed.

Lemma is_failed_not_succeeded state :
  is_failed state = true -> String.eqb state "SUCCEEDED" = false.
Proof.
  unfold is_failed. intros [H|H]%orb_true_iff; apply String.eqb_eq in H; subst; reflexivity.
Qed.

Lemma is_failed_not_pending state : is_failed state = true -> pending state = false.
Proof.
  intros H. unfold pending. rewrite (is_failed_not_succeeded _ H).
  unfold is_failed in H. cbn [orb]. rewrite H. reflexivity.
Qed.

Lemma drop_sees_terminal (cfg : Aws.Config) (w : DeleteHandler.World)
    (database table qid : string) (log : DeleteHandler.Log) k r :
  (forall q d g, Aws.start_query_execution (DeleteHandler.athena w) q d g = Py.Ok qid) ->
  first_terminal (DeleteHandler.athena w) qid k r ->
  pending (Aws.State r) = false ->
  fst (DeleteHandler.drop_iceberg_table_timed cfg w database table log) =
  Py.Ok (if (k <? 30)%nat
         then (String.eqb (Aws.State r) "SUCCEEDED", ended k Aws.clock0)
         else (false, {| Aws.polls := 30; Aws.slept := 2 * 30 |})).
Proof.
  intros Hstart [Hstall Hr] Hp.
  destruct (k <? 30)%nat eqn:Hk.
  - apply Nat.ltb_lt in Hk. destruct (split_budget 30 k Hk) as [m Hm].
    unfold DeleteHandler.drop_iceberg_table_timed, DeleteHandler.try_except,
      DeleteHandler.bindM, DeleteHandler.send.
    rewrite Hstart, Hm.
    rewrite (teardown_loop_ends w qid k m r 0 Aws.clock0 Hstall Hr Hp). reflexivity.
  - apply Nat.ltb_ge in Hk.
    apply (drop_gives_up cfg w database table qid log Hstart).
    apply (stalls_shorter _ _ k); [exact Hk | exact Hstall].
Qed.

(** X2: when the engine reports FAILED or CANCELLED at the poll of rank
    [k] (after [k] pending polls, [k] below 60), [_execute_query] returns
    that state with the engine's reason (or its default text) after
    [k + 1] polls and [2 k] units of sleep and raises nothing; the count
    query raises an exception that names the state and the reason, which
    [_get_target_row_count] turns into -1; the drop statement answers
    false. *)
Theorem engine_failure_outcomes (int_of_str : string -> option Z) (cfg : Aws.Config)
    (w : DeleteHandler.World) (query : string) (db : option string)
    (database table qid : string) (log : DeleteHandler.Log)
    (k : nat) (r : Aws.QueryExecution) :
  (forall q d g, Aws.start_query_execution (DeleteHandler.athena w) q d g = Py.Ok qid) ->
  first_terminal (DeleteHandler.athena w) qid k r ->
  (k < 60)%nat ->
  is_failed (Aws.State r) = true ->
  AthenaQuery._execute_query cfg (DeleteHandler.athena w) query db =
    (Py.Ok (AthenaQuery.failure (Aws.State r)
              (default "Query execution failed" (Aws.StateChangeReason r)) qid),
     {| Aws.polls := S k; Aws.slept := 2 * Z.of_nat k |}) /\
  Validation._run_athena_query cfg (DeleteHandler.athena w) query =
    (Py.Raise (Py.Exception
       (String.append "Athena query "
          (String.append (Aws.State r)
             (String.append ": " (default "Unknown" (Aws.StateChangeReason r)))))),
     {| Aws.polls := S k; Aws.slept := 2 * Z.of_nat k |}) /\
  Validation._get_target_row_count int_of_str cfg (DeleteHandler.athena w) database table
    = -1 /\
  fst (DeleteHandler._drop_iceberg_table cfg w database table log) = Py.Ok false.
Proof.
  intros Hstart Hfirst Hk Hf.
  pose proof (is_failed_not_succeeded _ Hf) as Hs.
  destruct Hfirst as [Hstall Hr].
  destruct (split_budget 60 k Hk) as [m Hm].
  assert (Hrun : forall q,
    Validation._run_athena_query cfg (DeleteHandler.athena w) q =
    (Py.Raise (Py.Exception
       (String.append "Athena query "
          (String.append (Aws.State r)
             (String.append ": " (default "Unknown" (Aws.StateChangeReason r)))))),
     {| Aws.polls := S k; Aws.slept := 2 * Z.of_nat k |})).
  { intros q. unfold Validation._run_athena_query. rewrite Hstart, Hm.
    rewrite (validation_loop_fails _ qid k m r 0 Aws.clock0 Hstall Hr Hs Hf).
    reflexivity. }
  split; [|split; [|split]].
  - unfold AthenaQuery._execute_query. rewrite Hstart, Hm.
    rewrite (primitive_loop_fails _ qid k m r 0 Aws.clock0 None Hstall Hr Hs Hf).
    reflexivity.
  - apply Hrun.
  - unfold Validation._get_target_row_count, Validation.count_attempt.
    rewrite Hrun. reflexivity.
  - assert (Hd := drop_sees_terminal cfg w database table qid log k r Hstart
                    (conj Hstall Hr) (is_failed_not_pending _ Hf)).
    rewrite Hs in Hd.
    unfold DeleteHandler._drop_iceberg_table, DeleteHandler.bindM.
    destruct (DeleteHandler.drop_iceberg_table_timed cfg w database table log) as [res l'].
    cbn [fst] in Hd. subst res. destruct (k <? 30)%nat; reflexivity.
Qed.

Lemma engine_failure_outcomes_witness :
  AthenaQuery._execute_query test_cfg (athena_after 3 (failed_with None) (Py.Ok
      {| Aws.ColumnInfo := []; Aws.Rows := [] |})) "SELECT 1" None =
    (Py.Ok (AthenaQuery.failure "FAILED" "Query execution failed" "q-1"),
     {| Aws.polls := 4; Aws.slept := 2 * Z.of_nat 3 |}) /\
  Validation._run_athena_query test_cfg (athena_after 3 (failed_with None) (Py.Ok
      {| Aws.ColumnInfo := []; Aws.Rows := [] |})) "SELECT 1" =
    (Py.Raise (Py.Exception "Athena query FAILED: Unknown"),
     {| Aws.polls := 4; Aws.slept := 2 * Z.of_nat 3 |}) /\
  Validation._get_target_row_count int_of_small test_cfg
    (athena_after 3 (failed_with None) (Py.Ok
      {| Aws.ColumnInfo := []; Aws.Rows := [] |})) "sales" "orders" = -1 /\
  fst (DeleteHandler._drop_iceberg_table test_cfg
         (world_with (athena_after 3 (failed_with None) (Py.Ok
            {| Aws.ColumnInfo := []; Aws.Rows := [] |}))) "sales" "orders" [])
    = Py.Ok false.
Proof.
  apply (engine_failure_outcomes int_of_small test_cfg
           (world_with (athena_after 3 (failed_with None) (Py.Ok
              {| Aws.ColumnInfo := []; Aws.Rows := [] |})))
           "SELECT 1" None "sales" "orders" "q-1" [] 3 (failed_with None)).
  - intros q d g. reflexivity.
  - split; [|reflexivity]. intros i Hi.
    assert (Hlt : (i < 3)%nat) by lia. clear Hi.
    do 3 (destruct i as [|i]; [reflexivity|]). lia.
  - lia.
  - reflexivity.
Defined.

(** X3: the drop statement answers true exactly when the engine reports
    SUCCEEDED at one of its first 30 polls; a statement that reaches a
    terminal state only later (SUCCEEDED included) is reported as not
    dropped, after 30 polls and 60 units of sleep. *)
Theorem drop_reports_within_budget (cfg : Aws.Config) (w : DeleteHandler.World)
    (database table qid : string) (log : DeleteHandler.Log)
    (k : nat) (r : Aws.QueryExecution) :
  (forall q d g, Aws.start_query_execution (DeleteHandler.athena w) q d g = Py.Ok qid) ->
  first_terminal (DeleteHandler.athena w) qid k r ->
  pending (Aws.State r) = false ->
  ((k < 30)%nat ->
   fst (DeleteHandler.drop_iceberg_table_timed cfg w database table log) =
   Py.Ok (String.eqb (Aws.State r) "SUCCEEDED",
          {| Aws.polls := S k; Aws.slept := 2 * Z.of_nat k |})) /\
  ((30 <= k)%nat ->
   fst (DeleteHandler.drop_iceberg_table_timed cfg w database table log) =
   Py.Ok (false, {| Aws.polls := 30; Aws.slept := 2 * 30 |})).
Proof.
  intros Hstart Hfirst Hp.
  pose proof (drop_sees_terminal cfg w database table qid log k r Hstart Hfirst Hp) as H.
  split; intros Hk.
  - apply Nat.ltb_lt in Hk. rewrite Hk in H. exact H.
  - apply Nat.ltb_ge in Hk. rewrite Hk in H. exact H.
Qed.

Lemma drop_reports_within_budget_witness :
  fst (DeleteHandler.drop_iceberg_table_timed test_cfg
         (world_with (athena_after 2 succeeded (Py.Ok
            {| Aws.ColumnInfo := []; Aws.Rows := [] |}))) "archive" "orders" []) =
  Py.Ok (String.eqb "SUCCEEDED" "SUCCEEDED",
         {| Aws.polls := 3; Aws.slept := 2 * Z.of_nat 2 |}).
Proof.
  apply (proj1 (drop_reports_within_budget test_cfg
           (world_with (athena_after 2 succeeded (Py.Ok
              {| Aws.ColumnInfo := []; Aws.Rows := [] |})))
           "archive" "orders" "q-1" [] 2 succeeded
           (fun _ _ _ => eq_refl)
           (conj (fun i Hi =>
                    match i as j return (0 <= j < 0 + 2)%nat ->
                      pending_at (athena_after 2 succeeded (Py.Ok
                        {| Aws.ColumnInfo := []; Aws.Rows := [] |})) "q-1" j = true with
                    | 0%nat | 1%nat => fun _ => eq_refl
                    | S (S j) => fun H => ltac:(lia)
                    end Hi)
                 eq_refl)
           eq_refl)).
  lia.
Defined.

Lemma value_of_assign (c k v : string) : forall record : list (string * string),
  value_of c (AthenaQuery.assign k v record)
  = if String.eqb k c then Some v else value_of c record.
Proof.
  induction record as [|[k' v'] record IH].
  - reflexivity.
  - cbn [AthenaQuery.assign]. destruct (String.eqb k' k) eqn:E.
    + apply String.eqb_eq in E. subst k'. cbn [value_of].
      destruct (String.eqb k c); reflexivity.
    + cbn [value_of]. rewrite IH. destruct (String.eqb k' c) eqn:E'; [|reflexivity].
      apply String.eqb_eq in E'. subst k'. rewrite String.eqb_sym, E. reflexivity.
Qed.

Lemma value_of_snoc (c k v : string) : forall record : list (string * string),
  value_of c (record ++ [(k, v)])
  = match value_of c record with
    | Some x => Some x
    | None => if String.eqb k c then Some v else None
    end.
Proof.
  induction record as [|[k' v'] record IH]; [reflexivity|].
  cbn [app value_of]. destruct (String.eqb k' c); [reflexivity | exact IH].
Qed.

Lemma assign_fresh (k v : string) : forall record : list (string * string),
  k ∉ map fst record -> AthenaQuery.assign k v record = (record ++ [(k, v)])%list.
Proof.
  induction record as [|[k' v'] record IH]; intros Hk; [reflexivity|].
  cbn [map fst] in Hk. apply not_elem_of_cons in Hk as [Hne Hk].
  cbn [AthenaQuery.assign app].
  destruct (String.eqb k' k) eqn:E; [apply String.eqb_eq in E; congruence|].
  rewrite (IH Hk). reflexivity.
Qed.

Lemma record_from_overflow (cols : list string) : forall (cells : Aws.Row) (j : nat)
    (record : list (string * string)),
  (j <= length cols)%nat -> (length cols < j + length cells)%nat ->
  AthenaQuery.record_from cols j cells record =
  Py.Raise (Py.Exn "IndexError" "list index out of range").
Proof.
  induction cells as [|cell cells IH]; intros j record Hj H; cbn [length] in H; [lia|].
  cbn [AthenaQuery.record_from].
  destruct (cols !! j) as [c|] eqn:E; [|reflexivity].
  assert (j < length cols)%nat by (apply lookup_lt_is_Some; eexists; exact E).
  apply IH; lia.
Qed.

(** Rows that fit give a record in which the last cell under a column
    name is the one that counts. *)
Lemma record_from_fits (cols : list string) : forall (cells : Aws.Row) (j : nat)
    (record : list (string * string)),
  (j + length cells <= length cols)%nat ->
  exists record',
    AthenaQuery.record_from cols j cells record = Py.Ok record' /\
    forall c, value_of c record'
              = match value_of c (rev (zip (take (length cells) (drop j cols))
                                          (map (default EmptyString) cells))) with
                | Some x => Some x
                | None => value_of c record
                end.
Proof.
  induction cells as [|cell cells IH]; intros j record H; cbn [length] in H.
  - exists record. split; [reflexivity|]. intros c. reflexivity.
  - cbn [AthenaQuery.record_from].
    destruct (cols !! j) as [c0|] eqn:E.
    2:{ apply lookup_ge_None in E. lia. }
    destruct (IH (S j) (AthenaQuery.assign c0 (default EmptyString cell) record)
                ltac:(lia)) as (record' & Hr & Hv).
    exists record'. split; [exact Hr|]. intros c.
    rewrite Hv, value_of_assign, (drop_S cols c0 j E).
    cbn [length take map zip zip_with rev].
    change (zip_with pair (take (length cells) (drop (S j) cols))
              (map (default EmptyString) cells))
      with (zip (take (length cells) (drop (S j) cols))
              (map (default EmptyString) cells)).
    rewrite value_of_snoc.
    destruct (value_of c (rev _)); [reflexivity|].
    destruct (String.eqb c0 c); reflexivity.
Qed.

(** When no two columns bear the same name, the record pairs the names
    with the cells in order. *)
Lemma record_from_distinct (cols : list string) :
  NoDup cols ->
  forall (cells : Aws.Row) (j : nat) (record : list (string * string)),
  (j + length cells <= length cols)%nat ->
  map fst record = take j cols ->
  AthenaQuery.record_from cols j cells record
  = Py.Ok (record ++ zip (take (length cells) (drop j cols))
                       (map (default EmptyString) cells))%list.
Proof.
  intros Hnd. induction cells as [|cell cells IH]; intros j record H Hkeys;
    cbn [length] in H.
  - cbn [AthenaQuery.record_from length take zip zip_with]. rewrite app_nil_r.
    reflexivity.
  - cbn [AthenaQuery.record_from].
    destruct (cols !! j) as [c0|] eqn:E.
    2:{ apply lookup_ge_None in E. lia. }
    assert (Hfresh : c0 ∉ map fst record).
    { rewrite Hkeys. pose proof (take_drop_middle cols j c0 E) as Hmid.
      rewrite <- Hmid in Hnd. apply NoDup_app in Hnd as (_ & Hdisj & _).
      intros Hin. apply (Hdisj c0 Hin). apply list_elem_of_here. }
    rewrite (assign_fresh c0 _ record Hfresh).
    rewrite IH; [|lia|].
    + rewrite (drop_S cols c0 j E). cbn [length take map zip zip_with].
      rewrite <- app_assoc. reflexivity.
    + rewrite map_app, Hkeys. cbn [map fst]. symmetry. apply take_S_r. exact E.
Qed.

Lemma record_of_overflow cols : forall cells,
  (length cols < length cells)%nat ->
  AthenaQuery.record_of cols cells =
  Py.Raise (Py.Exn "IndexError" "list index out of range").
Proof.
  intros cells H. unfold AthenaQuery.record_of.
  apply record_from_overflow; lia.
Qed.

Lemma record_of_fits cols : forall cells,
  fits cols cells ->
  exists record,
    AthenaQuery.record_of cols cells = Py.Ok record /\
    (forall c, value_of c record = value_of c (rev (paired cols cells))) /\
    (NoDup cols -> record = paired cols cells).
Proof.
  unfold fits, paired. intros cells H. unfold AthenaQuery.record_of.
  destruct (record_from_fits cols cells 0 [] ltac:(lia)) as (record & Hr & Hv).
  exists record. split; [exact Hr|]. split.
  - intros c. rewrite Hv. rewrite drop_0. cbn [value_of].
    destruct (value_of c (rev _)); reflexivity.
  - intros Hnd.
    rewrite (record_from_distinct cols Hnd cells 0 [] ltac:(lia) eq_refl) in Hr.
    rewrite drop_0 in Hr. cbn [app] in Hr. injection Hr as <-. reflexivity.
Qed.

Lemma records_of_fit cols rows :
  Forall (fits cols) rows ->
  exists records,
    AthenaQuery.records_of cols rows = Py.Ok records /\
    Forall2 (fun cells record =>
               forall c, value_of c record = value_of c (rev (paired cols cells)))
            rows records /\
    (NoDup cols -> records = map (paired cols) rows).
Proof.
  induction 1 as [|row rows Hrow _ IH]; cbn [AthenaQuery.records_of map].
  - exists []. split; [reflexivity|]. split; [constructor | reflexivity].
  - destruct (record_of_fits cols row Hrow) as (record & Hr & Hv & Hd).
    destruct IH as (records & Hrs & Hvs & Hds).
    exists (record :: records). rewrite Hr. cbn [Py.bind]. rewrite Hrs. cbn [Py.bind].
    split; [reflexivity|]. split; [constructor; assumption|].
    intros Hnd. rewrite (Hd Hnd), (Hds Hnd). reflexivity.
Qed.

(** X4: when the engine reports SUCCEEDED at the poll of rank [k] (after
    [k] pending polls, [k] below 60) and no result row has more cells than
    there are columns, [_execute_query] returns status SUCCEEDED after
    [k + 1] polls and [2 k] units of sleep; the first row (the header row)
    is left out and every other row becomes one record, in order, in
    which a column name holds the value of the last cell in its place (an
    absent cell value reads as the empty string); when no two columns
    bear the same name, the record pairs the names with the cells in
    order; [row_count] is the number of records. *)
Theorem query_success_shape (cfg : Aws.Config) (athena : Aws.Athena)
    (query : string) (db : option string) (qid : string)
    (k : nat) (r : Aws.QueryExecution) (results : Aws.ResultSet) :
  (forall q d g, Aws.start_query_execution athena q d g = Py.Ok qid) ->
  first_terminal athena qid k r ->
  (k < 60)%nat ->
  Aws.State r = "SUCCEEDED" ->
  Aws.get_query_results athena qid = Py.Ok results ->
  Forall (fits (map fst (Aws.ColumnInfo results))) (tail (Aws.Rows results)) ->
  exists resp,
    AthenaQuery._execute_query cfg athena query db =
      (Py.Ok resp, {| Aws.polls := S k; Aws.slept := 2 * Z.of_nat k |}) /\
    AthenaQuery.status resp = "SUCCEEDED" /\
    AthenaQuery.columns resp = map fst (Aws.ColumnInfo results) /\
    Forall2 (fun cells record =>
               forall c, value_of c record
                         = value_of c (rev (paired (AthenaQuery.columns resp) cells)))
            (tail (Aws.Rows results)) (AthenaQuery.data resp) /\
    (NoDup (AthenaQuery.columns resp) ->
     AthenaQuery.data resp
     = map (paired (AthenaQuery.columns resp)) (tail (Aws.Rows results))) /\
    AthenaQuery.row_count resp = Z.of_nat (length (Aws.Rows results) - 1).
Proof.
  intros Hstart [Hstall Hr] Hk Hstate Hres Hfit.
  destruct (split_budget 60 k Hk) as [m Hm].
  assert (Hs : String.eqb (Aws.State r) "SUCCEEDED" = true)
    by (rewrite Hstate; reflexivity).
  destruct (records_of_fit _ _ Hfit) as (records & Hrecs & Hvals & Hdistinct).
  unfold AthenaQuery._execute_query. rewrite Hstart, Hm.
  rewrite (primitive_loop_succeeds athena qid k m r 0 Aws.clock0 None Hstall Hr Hs).
  rewrite Hres. cbn [Py.bind]. rewrite Hrecs. cbn [Py.bind fst snd].
  eexists. split; [reflexivity|]. cbn [AthenaQuery.status AthenaQuery.columns
    AthenaQuery.data AthenaQuery.row_count].
  split; [reflexivity|]. split; [reflexivity|]. split; [exact Hvals|].
  split; [exact Hdistinct|].
  rewrite <- (Forall2_length _ _ _ Hvals).
  destruct (Aws.Rows results) as [|header rows]; [reflexivity|].
  cbn [tail]. change (length (header :: rows)) with (S (length rows)).
  f_equal. lia.
Qed.

Lemma query_success_shape_witness :
  exists resp,
    AthenaQuery._execute_query test_cfg
      (athena_after 1 succeeded (Py.Ok sample_results)) "SELECT 1" None =
      (Py.Ok resp, {| Aws.polls := 2; Aws.slept := 2 * Z.of_nat 1 |}) /\
    AthenaQuery.status resp = "SUCCEEDED" /\
    AthenaQuery.columns resp = map fst (Aws.ColumnInfo sample_results) /\
    Forall2 (fun cells record =>
               forall c, value_of c record
                         = value_of c (rev (paired (AthenaQuery.columns resp) cells)))
            (tail (Aws.Rows sample_results)) (AthenaQuery.data resp) /\
    (NoDup (AthenaQuery.columns resp) ->
     AthenaQuery.data resp
     = map (paired (AthenaQuery.columns resp)) (tail (Aws.Rows sample_results))) /\
    AthenaQuery.row_count resp = Z.of_nat (length (Aws.Rows sample_results) - 1).
Proof.
  apply (query_success_shape test_cfg (athena_after 1 succeeded (Py.Ok sample_results))
           "SELECT 1" None "q-1" 1 succeeded sample_results).
  - intros q d g. reflexivity.
  - split; [|reflexivity]. intros i Hi. destruct i as [|i]; [reflexivity | lia].
  - lia.
  - reflexivity.
  - reflexivity.
  - repeat constructor.
Defined.

(** Two columns of the same name leave one entry in the record, with the
    value of the later cell. *)
Example joined_columns_share_an_entry :
  fst (AthenaQuery._execute_query test_cfg
         (athena_after 1 succeeded (Py.Ok joined_results)) "SELECT a.id, b.id" None)
  = Py.Ok {| AthenaQuery.status := "SUCCEEDED"; AthenaQuery.error := None;
             AthenaQuery.query_execution_id := "q-1";
             AthenaQuery.columns := ["id"; "id"];
             AthenaQuery.column_types := ["integer"; "integer"];
             AthenaQuery.data := [[("id", "2")]];
             AthenaQuery.row_count := 1;
             AthenaQuery.data_scanned_bytes := 0;
             AthenaQuery.execution_time_ms := 0 |}.
Proof. reflexivity. Qed.

(** X5: a result row with more cells than there are columns makes the
    conversion of the rows raise [IndexError], whatever the other rows
    are; rows that fit never do. *)
Theorem record_of_raises_iff (cols : list string) (cells : Aws.Row) :
  Py.raises (AthenaQuery.record_of cols cells) = true <->
  (length cols < length cells)%nat.
Proof.
  destruct (Nat.lt_ge_cases (length cols) (length cells)) as [H|H].
  - rewrite (record_of_overflow cols cells H). cbn [Py.raises]. tauto.
  - destruct (record_of_fits cols cells H) as (record & Hr & _).
    rewrite Hr. cbn [Py.raises]. split; [discriminate | lia].
Qed.

(* ===================================================================== *)
(** * Further properties of the validation engine *)
(* ===================================================================== *)

(** X6: when the count query succeeds within its budget, the target row
    count is the integer read from the first cell of the second result
    row; it is 0 when there is no second row, and -1 when that row has no
    first cell, the cell has no value, or the value is not an integer. *)
Theorem target_row_count_cases (int_of_str : string -> option Z) (cfg : Aws.Config)
    (athena : Aws.Athena) (database table qid : string)
    (k : nat) (r : Aws.QueryExecution) (results : Aws.ResultSet) :
  (forall q d g, Aws.start_query_execution athena q d g = Py.Ok qid) ->
  first_terminal athena qid k r ->
  (k < 60)%nat ->
  Aws.State r = "SUCCEEDED" ->
  Aws.get_query_results athena qid = Py.Ok results ->
  Validation._get_target_row_count int_of_str cfg athena database table =
  match Aws.Rows results with
  | _ :: (Some v :: _) :: _ => default (-1) (int_of_str v)
  | _ :: _ :: _ => -1
  | _ => 0
  end.
Proof.
  intros Hstart [Hstall Hr] Hk Hstate Hres.
  destruct (split_budget 60 k Hk) as [m Hm].
  assert (Hs : String.eqb (Aws.State r) "SUCCEEDED" = true)
    by (rewrite Hstate; reflexivity).
  unfold Validation._get_target_row_count, Validation.count_attempt,
    Validation._run_athena_query.
  rewrite Hstart, Hm.
  rewrite (validation_loop_succeeds athena qid k m r 0 Aws.clock0 Hstall Hr Hs).
  cbn [fst]. rewrite Hres. cbn [Py.bind].
  destruct (Aws.Rows results) as [|header [|[|[v|] cells] rows]]; try reflexivity.
  cbn. unfold Validation.second_row_count. cbn.
  destruct (int_of_str v); reflexivity.
Qed.

Lemma target_row_count_cases_witness :
  Validation._get_target_row_count int_of_small test_cfg (athena_counting "110")
    "sales" "orders" = default (-1) (int_of_small "110").
Proof.
  apply (target_row_count_cases int_of_small test_cfg (athena_counting "110")
           "sales" "orders" "q-1" 0 succeeded
           {| Aws.ColumnInfo := [("cnt", "bigint")];
              Aws.Rows := [[Some "cnt"]; [Some "110"]] |}).
  - intros q d g. reflexivity.
  - split; [|reflexivity]. intros i Hi. lia.
  - lia.
  - reflexivity.
  - reflexivity.
Defined.

Lemma count_from_nonneg sub : forall s skip, 0 <= Validation.count_from sub skip s.
Proof.
  induction s as [|c s IH]; intros skip; cbn [Validation.count_from]; [lia|].
  destruct skip as [|skip]; [|apply IH].
  destruct (String.prefix sub (String c s)); [|apply IH].
  specialize (IH (String.length sub - 1)%nat). lia.
Qed.

Lemma count_nonneg sub content : 0 <= Validation.count sub content.
Proof. apply count_from_nonneg. Qed.

(** X7: the source row count is the sentinel -1 exactly for the file type
    parquet (in any letter case); for every other file type, known or
    not, it is a count that is not negative. *)
Theorem count_source_rows_sentinel
    (csv_reader : string -> list (list string)) (content file_type : string) :
  let n := Validation._count_source_rows csv_reader content file_type in
  (Py.lower file_type = "parquet" /\ n = -1) \/
  (Py.lower file_type <> "parquet" /\ 0 <= n).
Proof.
  unfold Validation._count_source_rows, Validation._count_csv_rows.
  pose proof (count_nonneg Validation.newline content).
  pose proof (count_nonneg "<record" content).
  pose proof (count_nonneg "<row" content).
  pose proof (count_nonneg "<item" content).
  pose proof (count_nonneg (String.append Validation.newline "-") content).
  cbv zeta.
  destruct (String.eqb (Py.lower file_type) "csv") eqn:E1.
  { apply String.eqb_eq in E1. rewrite E1. right. split; [discriminate | lia]. }
  destruct (String.eqb (Py.lower file_type) "xlsx" || String.eqb (Py.lower file_type) "xls")
    eqn:E2.
  { right. split.
    - apply orb_true_iff in E2 as [E2|E2]; apply String.eqb_eq in E2; rewrite E2;
        discriminate.
    - destruct (0 <? _); lia. }
  destruct (String.eqb (Py.lower file_type) "parquet") eqn:E3.
  { apply String.eqb_eq in E3. left. split; [exact E3 | reflexivity]. }
  apply String.eqb_neq in E3. right. split; [exact E3|].
  destruct (String.eqb (Py.lower file_type) "xml"); [lia|].
  destruct (String.eqb (Py.lower file_type) "yaml" || String.eqb (Py.lower file_type) "yml");
    lia.
Qed.

Lemma lower_char_twice c : Py.lower_char (Py.lower_char c) = Py.lower_char c.
Proof. each_char c; reflexivity. Qed.

Lemma lower_twice s : Py.lower (Py.lower s) = Py.lower s.
Proof.
  induction s as [|c s IH]; [reflexivity|].
  cbn [Py.lower]. now rewrite lower_char_twice, IH.
Qed.

Lemma map_lower_twice l : map Py.lower (map Py.lower l) = map Py.lower l.
Proof. rewrite map_map. apply map_ext. intros s. apply lower_twice. Qed.

Lemma schema_match_unfold int_of_str cfg athena glue event :
  Validation.schema_match (Validation.validate_target int_of_str cfg athena glue event) =
  let source := default [] (Validation.source_schema event) in
  let target := Validation._get_target_schema cfg glue
                  (Validation.database event) (Validation.table event) in
  if Validation.nonempty source && Validation.nonempty target
  then bool_decide ((list_to_set (map Py.lower source) : gset string) ⊆
                    list_to_set (map Py.lower target))
  else true.
Proof. reflexivity. Qed.

Lemma target_schema_lowered cfg glue database table :
  map Py.lower (Validation._get_target_schema cfg glue database table) =
  Validation._get_target_schema cfg glue database table.
Proof.
  unfold Validation._get_target_schema.
  destruct (Aws.get_table glue (Aws.GLUE_DATABASE cfg) table); [|reflexivity].
  apply map_lower_twice.
Qed.

Lemma subset_of_lists (xs ys : list string) :
  (list_to_set xs : gset string) ⊆ list_to_set ys <-> Forall (fun x => x ∈ ys) xs.
Proof.
  rewrite Forall_forall. split.
  - intros H x Hx.
    assert (Hin : x ∈ (list_to_set ys : gset string)).
    { apply H. rewrite elem_of_list_to_set. exact Hx. }
    rewrite elem_of_list_to_set in Hin. exact Hin.
  - intros H x Hx. rewrite elem_of_list_to_set in Hx.
    rewrite elem_of_list_to_set. apply H, Hx.
Qed.

(** X8: [schema_match] is true exactly when the source schema is empty, or
    the catalog lists no column (also when the catalog lookup raised), or
    every source name, lower-cased, is among the lower-cased names the
    catalog lists. *)
Theorem schema_match_spec (int_of_str : string -> option Z) (cfg : Aws.Config)
    (athena : Aws.Athena) (glue : Aws.Glue) (event : Validation.TargetEvent) :
  let source := default [] (Validation.source_schema event) in
  let listed :=
    match Aws.get_table glue (Aws.GLUE_DATABASE cfg) (Validation.table event) with
    | Py.Ok cols => cols
    | Py.Raise _ => []
    end in
  Validation.schema_match (Validation.validate_target int_of_str cfg athena glue event)
    = true <->
  source = [] \/ listed = [] \/
  Forall (fun s => Py.lower s ∈ map Py.lower listed) source.
Proof.
  intros source listed. rewrite schema_match_unfold. cbv zeta. fold source.
  assert (Ht : Validation._get_target_schema cfg glue
                 (Validation.database event) (Validation.table event) =
               map Py.lower listed).
  { unfold Validation._get_target_schema, listed.
    destruct (Aws.get_table _ _ _); reflexivity. }
  rewrite Ht, map_lower_twice.
  destruct source as [|s source'].
  { cbn [Validation.nonempty andb]. split; [intros _; left; reflexivity | reflexivity]. }
  destruct listed as [|t listed'].
  { cbn [map Validation.nonempty andb]. split; [intros _; right; left; reflexivity|reflexivity]. }
  cbn [Validation.nonempty map andb].
  rewrite bool_decide_eq_true.
  change (Py.lower s :: map Py.lower source') with (map Py.lower (s :: source')).
  change (Py.lower t :: map Py.lower listed') with (map Py.lower (t :: listed')).
  rewrite subset_of_lists, Forall_map. split.
  - intros H. right. right. exact H.
  - intros [H|[H|H]]; [discriminate H | discriminate H | exact H].
Qed.

(** X9: extra columns in the target (such as the audit columns) never
    turn a schema match into a mismatch. *)
Theorem schema_match_tolerates_extra_columns (int_of_str : string -> option Z)
    (cfg : Aws.Config) (athena : Aws.Athena) (event : Validation.TargetEvent)
    (cols extra : list string) :
  cols <> [] ->
  Validation.schema_match
    (Validation.validate_target int_of_str cfg athena (glue_listing cols) event) = true ->
  Validation.schema_match
    (Validation.validate_target int_of_str cfg athena (glue_listing (cols ++ extra)) event)
    = true.
Proof.
  intros Hcols.
  rewrite (schema_match_spec int_of_str cfg athena (glue_listing cols) event).
  rewrite (schema_match_spec int_of_str cfg athena (glue_listing (cols ++ extra)) event).
  cbn [glue_listing Aws.get_table].
  intros [H|[H|H]]; [left; exact H | contradiction|].
  right. right. eapply Forall_impl; [exact H|].
  cbv beta. intros s Hs. rewrite map_app. apply elem_of_app. left. exact Hs.
Qed.

Lemma schema_match_tolerates_extra_columns_witness :
  Validation.schema_match
    (Validation.validate_target int_of_small test_cfg (athena_counting "10")
       (glue_listing (["first_name"; "amount"] ++ ["_etl_job_id"; "_etl_timestamp"]))
       (target_event (Some 10) (Some ["First_Name"]) (Some "full"))) = true.
Proof.
  apply (schema_match_tolerates_extra_columns int_of_small test_cfg (athena_counting "10")
           (target_event (Some 10) (Some ["First_Name"]) (Some "full"))
           ["first_name"; "amount"] ["_etl_job_id"; "_etl_timestamp"]).
  - discriminate.
  - vm_compute. reflexivity.
Defined.

Lemma validate_source_inv csv_reader md5 cfg get_object event sr :
  Validation.validate_source csv_reader md5 cfg get_object event = Py.Ok sr ->
  exists key ft content,
    Validation.s3_key event = Some key /\
    Validation.file_type event = Some ft /\
    get_object (Aws.DATA_BUCKET cfg) key = Py.Ok content /\
    sr = {| Validation.r_source_row_count :=
              Validation._count_source_rows csv_reader content ft;
            Validation.r_source_schema :=
              Validation._get_source_schema csv_reader content ft;
            Validation.r_source_checksum := md5 content;
            Validation.r_status := "VALIDATED" |}.
Proof.
  unfold Validation.validate_source, Validation._get_s3_object.
  destruct (Validation.s3_key event) as [key|]; [|discriminate].
  destruct (Validation.file_type event) as [ft|]; [|discriminate].
  cbn [Validation.subscript Py.bind].
  destruct (get_object (Aws.DATA_BUCKET cfg) key) as [content|e] eqn:E; [|discriminate].
  cbn [Py.bind]. intros [= <-]. exists key, ft, content.
  split; [reflexivity|]. split; [reflexivity|]. split; [exact E | reflexivity].
Qed.

(** X10: for a source file of any type other than csv, [validate_source]
    reports an empty schema, so that [validate_target], fed with its
    metrics, always reports a schema match: the verdict is PASSED exactly
    when the row counts match. *)
Theorem non_csv_schema_always_matches
    (csv_reader : string -> list (list string)) (md5 : string -> string)
    (int_of_str : string -> option Z) (cfg : Aws.Config)
    (get_object : string -> string -> Py.result string)
    (athena : Aws.Athena) (glue : Aws.Glue)
    (event : Validation.SourceEvent) (database table : string) (mode : option string)
    (ft : string) (sr : Validation.SourceResult) :
  Validation.validate_source csv_reader md5 cfg get_object event = Py.Ok sr ->
  Validation.file_type event = Some ft ->
  Py.lower ft <> "csv" ->
  let r := Validation.validate_target int_of_str cfg athena glue
             (target_event_of database table mode sr) in
  Validation.r_source_schema sr = [] /\
  Validation.schema_match r = true /\
  (Validation.validation_status r = "PASSED" <->
   Validation.row_count_match (Validation.validation_details r) = true).
Proof.
  intros Hsrc Hft Hcsv r.
  apply validate_source_inv in Hsrc as (key & ft' & content & _ & Hft' & _ & ->).
  assert (ft' = ft) as -> by congruence.
  assert (Hschema : Validation._get_source_schema csv_reader content ft = []).
  { unfold Validation._get_source_schema.
    apply String.eqb_neq in Hcsv. rewrite Hcsv. reflexivity. }
  assert (Hmatch : Validation.schema_match r = true).
  { unfold r. apply schema_match_spec. left.
    cbn [target_event_of Validation.source_schema Validation.r_source_schema
         default from_option id].
    exact Hschema. }
  split; [exact Hschema|]. split; [exact Hmatch|].
  unfold r in *. rewrite verdict_status, Hmatch, andb_true_r.
  destruct (Validation.row_count_match _); split; intros H;
    try reflexivity; discriminate H.
Qed.

Lemma non_csv_schema_always_matches_witness :
  let sr := {| Validation.r_source_row_count := 3;
               Validation.r_source_schema := [];
               Validation.r_source_checksum := md5_stub EmptyString;
               Validation.r_status := "VALIDATED" |} in
  let r := Validation.validate_target int_of_small test_cfg (athena_counting "10")
             (glue_listing ["id"]) (target_event_of "sales" "orders" (Some "full") sr) in
  Validation.r_source_schema sr = [] /\
  Validation.schema_match r = true /\
  (Validation.validation_status r = "PASSED" <->
   Validation.row_count_match (Validation.validation_details r) = true).
Proof.
  apply (non_csv_schema_always_matches (fun _ => []) md5_stub int_of_small test_cfg get_xml
           (athena_counting "10") (glue_listing ["id"])
           {| Validation.s3_key := Some "sales/orders/raw/o.xml";
              Validation.file_type := Some "XML" |}
           "sales" "orders" (Some "full") "XML").
  - reflexivity.
  - reflexivity.
  - vm_compute. discriminate.
Defined.




(* ===================================================================== *)
(** * Further properties of the job ledger *)
(* ===================================================================== *)

Lemma substring_length n : forall s,
  String.length (String.substring 0 n s) = Nat.min n (String.length s).
Proof.
  induction n as [|n IH]; intros [|c s]; cbn [String.substring String.length Nat.min];
    try reflexivity.
  now rewrite IH.
Qed.

Lemma substring_prefix n : forall s,
  String.prefix (String.substring 0 n s) s = true.
Proof.
  induction n as [|n IH]; intros [|c s]; cbn [String.substring String.prefix];
    try reflexivity.
  destruct (ascii_dec c c) as [_|Hne]; [apply IH | contradiction].
Qed.

(** X12: the record [log_failure] persists holds at most the first 1000
    characters of the error text (the cause, else the error name, else
    the printed error), while the value it returns carries the whole
    text. *)
Theorem error_message_is_bounded
    (uuid4 now_start now_end : string) (duration : string -> string)
    (str_of_error : MetadataLogger.ErrorInfo -> string)
    (event : MetadataLogger.Event)
    (tbl : gmap (string * string) (gmap string MetadataLogger.value)) :
  let full := MetadataLogger.error_message str_of_error event in
  let out :=
    MetadataLogger.log_failure uuid4 now_start now_end duration str_of_error event tbl in
  let key := (default uuid4 (MetadataLogger.job_id event),
              default now_start (MetadataLogger.start_time event)) in
  MetadataLogger.l_error (fst out) = Some full /\
  exists it stored,
    snd out !! key = Some it /\
    it !! "error_message" = Some (MetadataLogger.VStr stored) /\
    (String.length stored <= 1000)%nat /\
    String.length stored = Nat.min 1000 (String.length full) /\
    String.prefix stored full = true.
Proof.
  intros full out key. split; [reflexivity|].
  exists (MetadataLogger.failure_item uuid4 now_start now_end duration str_of_error event),
         (String.substring 0 1000 full).
  split; [apply log_failure_stores|]. split; [reflexivity|].
  rewrite substring_length. split; [lia|]. split; [reflexivity|].
  apply substring_prefix.
Qed.

(** A cause of 1200 characters is cut to 1000. *)
Example long_cause_is_cut :
  exists it stored,
    snd (MetadataLogger.log_failure "uuid" "t0" "t1" (fun _ => "0m 3s")
           str_of_error_stub failed_event ∅)
      !! ("job-7", "2024-05-01T10:00:00Z") = Some it /\
    it !! "error_message" = Some (MetadataLogger.VStr stored) /\
    String.length stored = 1000%nat /\
    String.length long_cause = 1200%nat.
Proof.
  eexists. eexists. split; [apply log_failure_stores|].
  split; [reflexivity|]. split; vm_compute; reflexivity.
Qed.

Lemma well_keyed_insert
    (tbl : gmap (string * string) (gmap string MetadataLogger.value))
    (k : string * string) (it : gmap string MetadataLogger.value) :
  well_keyed tbl ->
  it !! "job_id" = Some (MetadataLogger.VStr (fst k)) ->
  it !! "start_time" = Some (MetadataLogger.VStr (snd k)) ->
  well_keyed (<[k := it]> tbl).
Proof.
  intros Hw Hj Ht k' it' H. destruct (decide (k = k')) as [<-|Hne].
  - rewrite lookup_insert_eq in H. injection H as <-. split; assumption.
  - rewrite lookup_insert_ne in H by exact Hne. apply (Hw k' it' H).
Qed.

Lemma well_keyed_delete
    (tbl : gmap (string * string) (gmap string MetadataLogger.value))
    (k : string * string) :
  well_keyed tbl -> well_keyed (delete k tbl).
Proof.
  intros Hw k' it' H. apply lookup_delete_Some in H as [_ H]. apply (Hw k' it' H).
Qed.


Lemma well_keyed_empty : well_keyed ∅.
Proof. intros k it H. rewrite lookup_empty in H. discriminate H. Qed.








Lemma delete_all_spec items ks :
  Forall2 (fun it k => MetadataLogger.key_of it = Py.Ok k) items ks ->
  forall n (tbl : gmap (string * string) (gmap string MetadataLogger.value)),
  exists tbl',
    MetadataLogger.delete_all items n tbl = (Py.Ok (n + Z.of_nat (length ks)), tbl') /\
    forall k, tbl' !! k = if bool_decide (k ∈ ks) then None else tbl !! k.
Proof.
  induction 1 as [|it k items ks Hk _ IH]; intros n tbl.
  - exists tbl. split; [cbn; f_equal; f_equal; lia|].
    intros k. rewrite bool_decide_eq_false_2; [reflexivity | apply not_elem_of_nil].
  - cbn [MetadataLogger.delete_all]. rewrite Hk.
    destruct (IH (n + 1) (delete k tbl)) as (tbl' & E & Hl).
    exists tbl'. split.
    + rewrite E. f_equal. f_equal. cbn [length]. lia.
    + intros k'. rewrite Hl.
      destruct (decide (k' = k)) as [->|Hne].
      * rewrite (bool_decide_eq_true_2 (k ∈ k :: ks)) by apply list_elem_of_here.
        rewrite lookup_delete_eq. destruct (bool_decide _); reflexivity.
      * rewrite lookup_delete_ne by congruence.
        destruct (bool_decide (k' ∈ ks)) eqn:E1.
        -- apply bool_decide_eq_true in E1.
           rewrite bool_decide_eq_true_2; [reflexivity|]. now apply list_elem_of_further.
        -- apply bool_decide_eq_false in E1.
           rewrite bool_decide_eq_false_2; [reflexivity|].
           intros [?|?]%elem_of_cons; contradiction.
Qed.

Lemma keys_read_back (l : list ((string * string) * gmap string MetadataLogger.value)) :
  Forall (fun kv => MetadataLogger.key_of (snd kv) = Py.Ok (fst kv)) l ->
  Forall2 (fun it k => MetadataLogger.key_of it = Py.Ok k) (l.*2) (l.*1).
Proof. induction 1; cbn; constructor; assumption. Qed.

Lemma key_of_well_keyed
    (tbl : gmap (string * string) (gmap string MetadataLogger.value)) k it :
  well_keyed tbl -> tbl !! k = Some it -> MetadataLogger.key_of it = Py.Ok k.
Proof.
  intros Hw H. destruct (Hw k it H) as [Hj Ht].
  unfold MetadataLogger.key_of. rewrite Hj, Ht. destruct k; reflexivity.
Qed.

Lemma log_success_well_keyed_aux
    (uuid4 now_start now_end : string) (duration : string -> string)
    (event : MetadataLogger.Event) :
  well_keyed (snd (MetadataLogger.log_success uuid4 now_start now_end duration event ∅)).
Proof.
  unfold MetadataLogger.log_success, MetadataLogger.put_item. cbn [snd].
  apply well_keyed_insert; [exact well_keyed_empty | reflexivity | reflexivity].
Qed.

(** X14: on a ledger in which every record carries its own key,
    [delete_metadata] for a non-empty job id removes every record of that
    job (whatever its start time), leaves the records of all other jobs
    as they were, and reports how many records the job had; without a job
    id it answers that one is required and changes nothing. *)
Theorem delete_metadata_removes_the_job
    (tbl : gmap (string * string) (gmap string MetadataLogger.value))
    (job_id : string) :
  well_keyed tbl ->
  job_id <> EmptyString ->
  (exists tbl',
     MetadataLogger.delete_metadata (delete_event job_id) tbl =
       (Py.Ok (MetadataLogger.Deleted
                 (Z.of_nat (size (filter (fun kv => fst (fst kv) = job_id) tbl)))
                 job_id),
        tbl') /\
     (forall t, tbl' !! (job_id, t) = None) /\
     (forall j t, j <> job_id -> tbl' !! (j, t) = tbl !! (j, t))) /\
  MetadataLogger.delete_metadata
    {| MetadataLogger.pathParameters := None |} tbl =
    (Py.Ok MetadataLogger.JobIdRequired, tbl).
Proof.
  intros Hw Hjob. split; [|reflexivity].
  unfold MetadataLogger.delete_metadata, delete_event.
  cbn [MetadataLogger.pathParameters MetadataLogger.jobId from_option id].
  apply String.eqb_neq in Hjob. rewrite Hjob.
  unfold MetadataLogger.query_job.
  set (F := filter (fun kv => fst (fst kv) = job_id) tbl).
  assert (HF : forall k it, F !! k = Some it <-> tbl !! k = Some it /\ fst k = job_id).
  { intros k it. unfold F. rewrite map_lookup_filter_Some. reflexivity. }
  assert (Hkeys : Forall2 (fun it k => MetadataLogger.key_of it = Py.Ok k)
                    ((map_to_list F).*2) ((map_to_list F).*1)).
  { apply keys_read_back. apply Forall_forall. intros [k it] Hin.
    apply elem_of_map_to_list in Hin. apply HF in Hin as [Hin _].
    apply (key_of_well_keyed tbl k it Hw Hin). }
  destruct (delete_all_spec _ _ Hkeys 0 tbl) as (tbl' & E & Hl).
  rewrite E. exists tbl'.
  rewrite length_fmap, length_map_to_list, Z.add_0_l. split; [reflexivity|].
  assert (Hin : forall k, k ∈ (map_to_list F).*1 <-> is_Some (tbl !! k) /\ fst k = job_id).
  { intros k. rewrite list_elem_of_fmap. split.
    - intros [[k' it] [-> Hk]]. apply elem_of_map_to_list, HF in Hk as [Hk1 Hk2].
      split; [eexists; exact Hk1 | exact Hk2].
    - intros [[it Hit] Hk]. exists (k, it). split; [reflexivity|].
      apply elem_of_map_to_list, HF. split; assumption. }
  split.
  - intros t. rewrite Hl. destruct (bool_decide _) eqn:E1; [reflexivity|].
    apply bool_decide_eq_false in E1. rewrite Hin in E1.
    destruct (tbl !! (job_id, t)) as [it|] eqn:E2; [|reflexivity].
    exfalso. apply E1. split; [eexists; reflexivity | reflexivity].
  - intros j t Hj. rewrite Hl. rewrite bool_decide_eq_false_2; [reflexivity|].
    rewrite Hin. intros [_ H]. apply Hj. exact H.
Qed.

Lemma delete_metadata_removes_the_job_witness :
  exists tbl',
    MetadataLogger.delete_metadata (delete_event "job-7")
      (snd (MetadataLogger.log_success "uuid" "t0" "t1" (fun _ => "0m 3s")
              failed_validation_event ∅)) =
      (Py.Ok (MetadataLogger.Deleted
                (Z.of_nat (size (filter (fun kv => fst (fst kv) = "job-7")
                   (snd (MetadataLogger.log_success "uuid" "t0" "t1" (fun _ => "0m 3s")
                           failed_validation_event ∅)))))
                "job-7"),
       tbl') /\
    (forall t, tbl' !! ("job-7", t) = None) /\
    (forall j t, j <> "job-7" -> tbl' !! (j, t) =
       snd (MetadataLogger.log_success "uuid" "t0" "t1" (fun _ => "0m 3s")
              failed_validation_event ∅) !! (j, t)).
Proof.
  apply (proj1 (delete_metadata_removes_the_job
           (snd (MetadataLogger.log_success "uuid" "t0" "t1" (fun _ => "0m 3s")
                   failed_validation_event ∅)) "job-7"
           (log_success_well_keyed_aux "uuid" "t0" "t1" (fun _ => "0m 3s")
              failed_validation_event)
           ltac:(discriminate))).
Defined.

(** X15: the ledger keeps one record per job id and start time: a second
    log for the same job with the same start time replaces the first
    record and the ledger does not grow, while a log with another start
    time (a retried execution) is kept beside it. *)
Theorem relogging_replaces_or_adds
    (uuid4 now_start now_end : string) (duration : string -> string)
    (str_of_error : MetadataLogger.ErrorInfo -> string)
    (first second : MetadataLogger.Event)
    (tbl : gmap (string * string) (gmap string MetadataLogger.value)) :
  let k1 := ledger_key uuid4 now_start first in
  let k2 := ledger_key uuid4 now_start second in
  let tbl1 :=
    snd (MetadataLogger.log_success uuid4 now_start now_end duration first tbl) in
  let tbl2 :=
    snd (MetadataLogger.log_failure uuid4 now_start now_end duration str_of_error
           second tbl1) in
  tbl2 !! k2 =
    Some (MetadataLogger.failure_item uuid4 now_start now_end duration str_of_error second)
  /\
  (k1 = k2 -> size tbl2 = size tbl1) /\
  (k1 <> k2 ->
   tbl2 !! k1 = Some (MetadataLogger.success_item uuid4 now_start now_end duration first)).
Proof.
  intros k1 k2 tbl1 tbl2.
  assert (H1 : tbl1 !! k1 =
               Some (MetadataLogger.success_item uuid4 now_start now_end duration first))
    by apply log_success_stores.
  split; [apply log_failure_stores|].
  change tbl2 with
    (<[k2 := MetadataLogger.failure_item uuid4 now_start now_end duration
               str_of_error second]> tbl1).
  split.
  - intros Hk. apply map_size_insert_Some. rewrite <- Hk, H1. eexists. reflexivity.
  - intros Hk. rewrite lookup_insert_ne by congruence. exact H1.
Qed.

Lemma relogging_replaces_or_adds_witness :
  snd (MetadataLogger.log_failure "uuid" "t0" "t1" (fun _ => "0m 3s") str_of_error_stub
         retried_event
         (snd (MetadataLogger.log_success "uuid" "t0" "t1" (fun _ => "0m 3s")
                 failed_validation_event ∅)))
    !! ledger_key "uuid" "t0" failed_validation_event =
  Some (MetadataLogger.success_item "uuid" "t0" "t1" (fun _ => "0m 3s")
          failed_validation_event).
Proof.
  apply (proj2 (proj2 (relogging_replaces_or_adds "uuid" "t0" "t1" (fun _ => "0m 3s")
                  str_of_error_stub failed_validation_event retried_event ∅))).
  vm_compute. discriminate.
Defined.

(* ===================================================================== *)
(** * Further properties of the teardown coordinator *)
(* ===================================================================== *)

Section Sends.

Variable P : DeleteHandler.Call -> Prop.

Lemma sends_ret {A} (a : A) : sends P (DeleteHandler.ret a).
Proof. intros l. exists []. split; [cbn; now rewrite app_nil_r | constructor]. Qed.

Lemma sends_throw {A} e : sends P (@DeleteHandler.throw A e).
Proof. intros l. exists []. split; [cbn; now rewrite app_nil_r | constructor]. Qed.

Lemma sends_send {A} c (r : Py.result A) : P c -> sends P (DeleteHandler.send c r).
Proof. intros Hc l. exists [c]. split; [reflexivity | repeat constructor; exact Hc]. Qed.

Lemma sends_bind {A B} (m : DeleteHandler.M A) (k : A -> DeleteHandler.M B) :
  sends P m -> (forall a, sends P (k a)) -> sends P (DeleteHandler.bindM m k).
Proof.
  intros Hm Hk l. unfold DeleteHandler.bindM.
  destruct (Hm l) as (s1 & E1 & F1). destruct (m l) as [[a|e] l1]; cbn [snd] in E1; subst l1.
  - destruct (Hk a (l ++ s1)%list) as (s2 & E2 & F2).
    exists (s1 ++ s2)%list. split; [rewrite E2; now rewrite app_assoc|].
    apply Forall_app. split; assumption.
  - exists s1. split; [reflexivity | exact F1].
Qed.

Lemma sends_try_except {A} (m : DeleteHandler.M A) (h : Py.exn -> DeleteHandler.M A) :
  sends P m -> (forall e, sends P (h e)) -> sends P (DeleteHandler.try_except m h).
Proof.
  intros Hm Hh l. unfold DeleteHandler.try_except.
  destruct (Hm l) as (s1 & E1 & F1). destruct (m l) as [[a|e] l1]; cbn [snd] in E1; subst l1.
  - exists s1. split; [reflexivity | exact F1].
  - destruct (Hh e (l ++ s1)%list) as (s2 & E2 & F2).
    exists (s1 ++ s2)%list. split; [rewrite E2; now rewrite app_assoc|].
    apply Forall_app. split; assumption.
Qed.

Lemma sends_delete_pages w pages : forall n,
  (forall keys, Py.Ok keys ∈ pages -> keys <> [] -> P (DeleteHandler.S3DeleteObjects keys)) ->
  sends P (DeleteHandler.delete_pages w pages n).
Proof.
  induction pages as [|page pages IH]; intros n HP; cbn [DeleteHandler.delete_pages].
  - apply sends_ret.
  - assert (HP' : forall keys, Py.Ok keys ∈ pages -> keys <> [] ->
                    P (DeleteHandler.S3DeleteObjects keys)).
    { intros keys Hin. apply HP. now apply list_elem_of_further. }
    destruct page as [[|o os]|e].
    + apply IH, HP'.
    + apply sends_bind.
      * apply sends_send. apply HP; [apply list_elem_of_here | discriminate].
      * intros _. apply IH, HP'.
    + apply sends_throw.
Qed.

Lemma sends_delete_items w database items : forall n,
  (forall item j t, item ∈ items ->
     item !! "database_name" = Some (MetadataLogger.VStr database) ->
     item !! "job_id" = Some j -> item !! "start_time" = Some t ->
     P (DeleteHandler.DynamoDeleteItem j t)) ->
  sends P (DeleteHandler.delete_items w database items n).
Proof.
  induction items as [|item items IH]; intros n HP; cbn [DeleteHandler.delete_items].
  - apply sends_ret.
  - assert (HP' : forall it j t, it ∈ items ->
                    it !! "database_name" = Some (MetadataLogger.VStr database) ->
                    it !! "job_id" = Some j -> it !! "start_time" = Some t ->
                    P (DeleteHandler.DynamoDeleteItem j t)).
    { intros it j t Hin. apply HP. now apply list_elem_of_further. }
    destruct (DeleteHandler.in_database database item) eqn:Edb; [|apply IH, HP'].
    destruct (item !! "job_id") as [j|] eqn:Ej; [|apply sends_throw].
    destruct (item !! "start_time") as [t|] eqn:Et; [|apply sends_throw].
    apply sends_bind; [|intros _; apply IH, HP'].
    apply sends_send. apply (HP item j t); [apply list_elem_of_here | | exact Ej | exact Et].
    unfold DeleteHandler.in_database in Edb.
    destruct (item !! "database_name") as [[d| | | |]|]; try discriminate Edb.
    apply String.eqb_eq in Edb. now subst d.
Qed.

Lemma sends_drop cfg w database table :
  P (DeleteHandler.AthenaStartQuery (DeleteHandler.drop_query database table)) ->
  sends P (DeleteHandler._drop_iceberg_table cfg w database table).
Proof.
  intros HP. unfold DeleteHandler._drop_iceberg_table.
  apply sends_bind; [|intros r; apply sends_ret].
  unfold DeleteHandler.drop_iceberg_table_timed.
  apply sends_try_except; [|intros e; apply sends_ret].
  apply sends_bind; [apply sends_send, HP|].
  intros qid. destruct (Py.for_range 30 0 _ _) as [[| |b|e] c]; apply sends_ret.
Qed.

Lemma sends_glue w database table :
  P (DeleteHandler.GlueDeleteTable database table) ->
  sends P (DeleteHandler._delete_glue_table w database table).
Proof.
  intros HP. unfold DeleteHandler._delete_glue_table.
  apply sends_try_except.
  - apply sends_bind; [apply sends_send, HP | intros _; apply sends_ret].
  - intros e. destruct (String.eqb _ _); apply sends_ret.
Qed.

End Sends.

Lemma sends_teardown cfg w database table :
  sends (allowed_call cfg w database table) (DeleteHandler.teardown cfg w database table).
Proof.
  unfold DeleteHandler.teardown.
  apply sends_bind.
  { apply sends_delete_pages. intros keys Hin Hne. split; [exact Hne | left; exact Hin]. }
  intros raw_deleted. apply sends_bind.
  { apply sends_delete_pages. intros keys Hin Hne. split; [exact Hne | right; exact Hin]. }
  intros warehouse_deleted. apply sends_bind.
  { apply sends_drop. reflexivity. }
  intros dropped. apply sends_bind.
  { apply sends_glue. split; reflexivity. }
  intros glue_deleted. apply sends_bind; [|intros n; apply sends_ret].
  intros l. unfold DeleteHandler._delete_metadata_for_table.
  destruct (DeleteHandler.query (DeleteHandler.dynamodb w) table) as [items|e] eqn:Eq.
  - apply sends_delete_items. intros item j t Hin Hdb Hj Ht.
    exists items, item. repeat split; assumption.
  - exists []. split; [cbn; now rewrite app_nil_r | constructor].
Qed.

(** X16: whatever the stores answer and wherever the teardown stops, the
    handler only sends requests about the table it was asked to remove:
    deletions of non-empty batches of keys listed under its raw or its
    warehouse prefix, the drop statement and the catalog removal for that
    table, and deletions of ledger items the index returned for the table
    and whose database name is the given one; with a missing or empty
    database or table it answers 400 and sends nothing. *)
Theorem teardown_touches_only_its_table (cfg : Aws.Config) (w : DeleteHandler.World)
    (event : DeleteHandler.Event) (log : DeleteHandler.Log) :
  let params := default {| DeleteHandler.p_database := None; DeleteHandler.p_table := None |}
                  (DeleteHandler.pathParameters event) in
  let database := default EmptyString (DeleteHandler.p_database params) in
  let table := default EmptyString (DeleteHandler.p_table params) in
  exists sent,
    snd (DeleteHandler.handler cfg w event log) = (log ++ sent)%list /\
    Forall (allowed_call cfg w database table) sent /\
    (database = EmptyString \/ table = EmptyString ->
     sent = [] /\
     DeleteHandler.statusCode (fst (DeleteHandler.handler cfg w event log)) = 400).
Proof.
  intros params database table. unfold DeleteHandler.handler.
  fold params. fold database. fold table.
  destruct (String.eqb database EmptyString || String.eqb table EmptyString) eqn:E.
  - exists []. split; [cbn; now rewrite app_nil_r|]. split; [constructor|].
    intros _. split; reflexivity.
  - destruct (sends_teardown cfg w database table log) as (sent & Es & Fs).
    exists sent. destruct (DeleteHandler.teardown cfg w database table log) as [[r|e] l'];
      cbn [snd] in Es |- *; (split; [exact Es|]); (split; [exact Fs|]);
      intros [H|H]; rewrite H in E; cbn in E;
      try discriminate E; rewrite orb_true_r in E; discriminate E.
Qed.

Lemma empty_pages_ok w pages :
  Forall (fun page => page = Py.Ok []) pages ->
  forallb (page_ok (DeleteHandler.s3 w)) pages = true /\
  s3_count pages = 0 /\ s3_calls pages = [].
Proof.
  induction 1 as [|page pages -> _ (IH1 & IH2 & IH3)]; [repeat split|].
  cbn [forallb page_ok andb]. split; [exact IH1|]. split.
  - change (s3_count (Py.Ok [] :: pages)) with (0 + s3_count pages). lia.
  - exact IH3.
Qed.

(** X17: teardown is idempotent in its effect: run on a table of which
    nothing is left (no object under either prefix, no ledger item, no
    catalog entry), the handler answers 200 with overall status SUCCESS,
    reports 0 deleted objects and 0 deleted records, and sends nothing but
    the drop statement and the catalog removal, whether or not the drop
    statement succeeds: a catalog entry that is not found counts as
    removed. *)
Theorem teardown_of_removed_table (cfg : Aws.Config) (w : DeleteHandler.World)
    (database table : string) (log : DeleteHandler.Log) :
  database <> EmptyString -> table <> EmptyString ->
  already_removed cfg w database table ->
  exists dropped,
    DeleteHandler.handler cfg w (teardown_event database table) log =
    (DeleteHandler._cors_response 200
       (DeleteHandler.ResultsBody
          {| DeleteHandler.database := database;
             DeleteHandler.table := table;
             DeleteHandler.steps :=
               [ {| DeleteHandler.action := "delete_s3_raw";
                    DeleteHandler.detail :=
                      DeleteHandler.Prefix (DeleteHandler.raw_prefix database table) 0;
                    DeleteHandler.step_status := "SUCCESS" |};
                 {| DeleteHandler.action := "delete_s3_warehouse";
                    DeleteHandler.detail :=
                      DeleteHandler.Prefix (DeleteHandler.warehouse_prefix database table) 0;
                    DeleteHandler.step_status := "SUCCESS" |};
                 {| DeleteHandler.action := "delete_catalog_table";
                    DeleteHandler.detail := DeleteHandler.Catalog dropped true;
                    DeleteHandler.step_status := "SUCCESS" |};
                 {| DeleteHandler.action := "delete_metadata";
                    DeleteHandler.detail := DeleteHandler.Records 0;
                    DeleteHandler.step_status := "SUCCESS" |} ];
             DeleteHandler.status := "SUCCESS" |}),
     (log ++ [DeleteHandler.AthenaStartQuery
                (DeleteHandler.drop_query (Aws.GLUE_DATABASE cfg) table);
              DeleteHandler.GlueDeleteTable (Aws.GLUE_DATABASE cfg) table])%list).
Proof.
  intros Hdb Htable (Hraw & Hwh & Hq & e & Hglue & Hclass).
  apply String.eqb_neq in Hdb, Htable.
  destruct (empty_pages_ok w _ Hraw) as (Ok1 & C1 & S1).
  destruct (empty_pages_ok w _ Hwh) as (Ok2 & C2 & S2).
  destruct (drop_iceberg_table_total cfg w (Aws.GLUE_DATABASE cfg) table) as [dropped Hd].
  exists dropped.
  unfold DeleteHandler.handler, teardown_event.
  cbn [DeleteHandler.pathParameters DeleteHandler.p_database DeleteHandler.p_table
       from_option id].
  rewrite Hdb, Htable. cbn [orb].
  unfold DeleteHandler.teardown, DeleteHandler.bindM.
  rewrite (delete_s3_prefix_ok w _ log Ok1), C1, S1.
  rewrite (delete_s3_prefix_ok w _ _ Ok2), C2, S2.
  rewrite Hd.
  unfold DeleteHandler._delete_glue_table, DeleteHandler.try_except, DeleteHandler.bindM,
    DeleteHandler.send.
  rewrite Hglue, Hclass. cbn [String.eqb].
  change (String.eqb "EntityNotFoundException" "EntityNotFoundException") with true.
  cbv iota. unfold DeleteHandler.ret at 1.
  unfold DeleteHandler._delete_metadata_for_table. rewrite Hq.
  cbn [DeleteHandler.delete_items]. unfold DeleteHandler.ret.
  rewrite !app_nil_r, <- !app_assoc. cbn [app].
  destruct dropped; reflexivity.
Qed.

Lemma teardown_of_removed_table_witness :
  exists dropped,
    DeleteHandler.handler test_cfg world_gone (teardown_event "sales" "orders") [] =
    (DeleteHandler._cors_response 200
       (DeleteHandler.ResultsBody
          {| DeleteHandler.database := "sales";
             DeleteHandler.table := "orders";
             DeleteHandler.steps :=
               [ {| DeleteHandler.action := "delete_s3_raw";
                    DeleteHandler.detail :=
                      DeleteHandler.Prefix (DeleteHandler.raw_prefix "sales" "orders") 0;
                    DeleteHandler.step_status := "SUCCESS" |};
                 {| DeleteHandler.action := "delete_s3_warehouse";
                    DeleteHandler.detail :=
                      DeleteHandler.Prefix (DeleteHandler.warehouse_prefix "sales" "orders") 0;
                    DeleteHandler.step_status := "SUCCESS" |};
                 {| DeleteHandler.action := "delete_catalog_table";
                    DeleteHandler.detail := DeleteHandler.Catalog dropped true;
                    DeleteHandler.step_status := "SUCCESS" |};
                 {| DeleteHandler.action := "delete_metadata";
                    DeleteHandler.detail := DeleteHandler.Records 0;
                    DeleteHandler.step_status := "SUCCESS" |} ];
             DeleteHandler.status := "SUCCESS" |}),
     ([] ++ [DeleteHandler.AthenaStartQuery
                (DeleteHandler.drop_query (Aws.GLUE_DATABASE test_cfg) "orders");
             DeleteHandler.GlueDeleteTable (Aws.GLUE_DATABASE test_cfg) "orders"])%list).
Proof.
  apply (teardown_of_removed_table test_cfg world_gone "sales" "orders" []).
  - discriminate.
  - discriminate.
  - split; [repeat constructor|]. split; [repeat constructor|]. split; [reflexivity|].
    eexists. split; reflexivity.
Defined.

(* ===================================================================== *)
(** * Properties of the JSON helpers *)
(* ===================================================================== *)

(** Induction over nested values. *)
Lemma value_nested_ind (P : Json.value -> Prop) :
  P Json.Null ->
  (forall b, P (Json.Bool b)) ->
  (forall z, P (Json.Num z)) ->
  (forall r, P (Json.Float r)) ->
  (forall r, P (Json.Decimal r)) ->
  (forall s, P (Json.Str s)) ->
  (forall items, Forall P items -> P (Json.Arr items)) ->
  (forall fields, Forall (fun kv => P (snd kv)) fields -> P (Json.Obj fields)) ->
  forall v, P v.
Proof.
  intros HNull HBool HNum HFloat HDec HStr HArr HObj.
  refine (fix IH (v : Json.value) : P v :=
    match v with
    | Json.Null => HNull
    | Json.Bool b => HBool b
    | Json.Num z => HNum z
    | Json.Float r => HFloat r
    | Json.Decimal r => HDec r
    | Json.Str s => HStr s
    | Json.Arr items =>
        HArr items
          ((fix go (l : list Json.value) : Forall P l :=
              match l with
              | [] => @List.Forall_nil _ P
              | x :: xs => @List.Forall_cons _ P x xs (IH x) (go xs)
              end) items)
    | Json.Obj fields =>
        HObj fields
          ((fix go (l : list (string * Json.value)) : Forall (fun kv => P (snd kv)) l :=
              match l with
              | [] => List.Forall_nil _
              | (k, x) :: xs =>
                  @List.Forall_cons _ (fun kv => P (snd kv)) (k, x) xs (IH x) (go xs)
              end) fields)
    end).
Qed.

Lemma convert_floats_no_float v : Json.has_float (Json._convert_floats v) = false.
Proof.
  induction v as [| | | | | |items IH|fields IH] using value_nested_ind;
    try reflexivity.
  - cbn [Json._convert_floats Json.has_float].
    induction IH as [|x xs Hx _ IHxs]; [reflexivity|].
    cbn [map existsb]. now rewrite Hx, IHxs.
  - cbn [Json._convert_floats Json.has_float].
    induction IH as [|[k x] xs Hx _ IHxs]; [reflexivity|].
    cbn [map existsb snd] in *. now rewrite Hx, IHxs.
Qed.

Lemma convert_floats_fixes_float_free v :
  Json.has_float v = false -> Json._convert_floats v = v.
Proof.
  induction v as [| | | | | |items IH|fields IH] using value_nested_ind;
    try reflexivity; try discriminate.
  - cbn [Json._convert_floats Json.has_float]. intros H. f_equal.
    induction IH as [|x xs Hx _ IHxs]; [reflexivity|].
    cbn [map existsb] in *. apply orb_false_iff in H as [H1 H2].
    now rewrite (Hx H1), (IHxs H2).
  - cbn [Json._convert_floats Json.has_float]. intros H. f_equal.
    induction IH as [|[k x] xs Hx _ IHxs]; [reflexivity|].
    cbn [map existsb snd] in *. apply orb_false_iff in H as [H1 H2].
    now rewrite (Hx H1), (IHxs H2).
Qed.

Lemma lookup_converted (k : string) : forall fields : list (string * Json.value),
  Json.lookup k
    (map (fun kv => match kv with (k', x) => (k', Json._convert_floats x) end) fields)
  = Json._convert_floats <$> Json.lookup k fields.
Proof.
  induction fields as [|[k' x] fields IH]; [reflexivity|].
  cbn [map Json.lookup]. destruct (String.eqb k' k); [reflexivity | exact IH].
Qed.

Lemma at_path_converted (path : list step) : forall v : Json.value,
  at_path path (Json._convert_floats v) = Json._convert_floats <$> at_path path v.
Proof.
  induction path as [|[k|i] path IH]; intros v.
  - reflexivity.
  - destruct v; try reflexivity.
    cbn [Json._convert_floats at_path]. rewrite lookup_converted.
    destruct (Json.lookup k fields) as [x|]; [apply IH | reflexivity].
  - destruct v; try reflexivity.
    cbn [Json._convert_floats at_path].
    change (map Json._convert_floats items) with (Json._convert_floats <$> items).
    rewrite list_lookup_fmap.
    destruct (items !! i) as [x|]; [apply IH | reflexivity].
Qed.

Lemma convert_floats_undone v :
  has_decimal v = false -> to_floats (Json._convert_floats v) = v.
Proof.
  induction v as [| | | | | |items IH|fields IH] using value_nested_ind;
    try reflexivity; try discriminate.
  - cbn [Json._convert_floats has_decimal to_floats]. intros H. f_equal.
    induction IH as [|x xs Hx _ IHxs]; [reflexivity|].
    cbn [map existsb] in *. apply orb_false_iff in H as [H1 H2].
    now rewrite (Hx H1), (IHxs H2).
  - cbn [Json._convert_floats has_decimal to_floats]. intros H. f_equal.
    induction IH as [|[k x] xs Hx _ IHxs]; [reflexivity|].
    cbn [map existsb snd] in *. apply orb_false_iff in H as [H1 H2].
    now rewrite (Hx H1), (IHxs H2).
Qed.

(** X18: [_convert_floats] turns every float, at any depth of nested
    dictionaries and lists, into the [Decimal] of the same text, and
    changes nothing else: the value found along any path of keys and
    indices is the converted value found along the same path before, so
    dictionaries keep their keys, lists their length and order, and every
    other scalar its value.  Hence no float is left, the conversion can
    be undone by reading every [Decimal] back as a float when the value
    held no [Decimal] before, a value without a float is returned as it
    is, and converting twice is converting once. *)
Theorem convert_floats_removes_every_float (v : Json.value) :
  (forall (path : list step) (r : string),
     at_path path v = Some (Json.Float r) ->
     at_path path (Json._convert_floats v) = Some (Json.Decimal r)) /\
  (forall path : list step,
     at_path path (Json._convert_floats v)
     = Json._convert_floats <$> at_path path v) /\
  Json.has_float (Json._convert_floats v) = false /\
  (has_decimal v = false -> to_floats (Json._convert_floats v) = v) /\
  Json._convert_floats (Json._convert_floats v) = Json._convert_floats v /\
  (Json.has_float v = false -> Json._convert_floats v = v).
Proof.
  split; [|split; [|split; [|split; [|split]]]].
  - intros path r H. rewrite at_path_converted, H. reflexivity.
  - intros path. apply at_path_converted.
  - apply convert_floats_no_float.
  - apply convert_floats_undone.
  - apply convert_floats_fixes_float_free, convert_floats_no_float.
  - apply convert_floats_fixes_float_free.
Qed.

Lemma convert_floats_removes_every_float_witness :
  at_path [Key "stats"; Key "sizes"; Index 1] (Json._convert_floats nested_item)
  = Some (Json.Decimal "1.5") /\
  to_floats (Json._convert_floats nested_item) = nested_item /\
  Json._convert_floats plain_item = plain_item.
Proof.
  split; [|split].
  - apply (proj1 (convert_floats_removes_every_float nested_item)). reflexivity.
  - apply (proj1 (proj2 (proj2 (proj2 (convert_floats_removes_every_float nested_item))))).
    reflexivity.
  - apply (proj2 (proj2 (proj2 (proj2 (proj2
             (convert_floats_removes_every_float plain_item)))))).
    reflexivity.
Defined.

Example convert_floats_nested :
  Json._convert_floats nested_item =
  Json.Obj [("job_id", Json.Str "job-7");
            ("stats", Json.Obj [("ratio", Json.Decimal "0.75");
                                ("sizes", Json.Arr [Json.Num 3; Json.Decimal "1.5"])]);
            ("ok", Json.Bool true)].
Proof. reflexivity. Qed.

(* ===================================================================== *)
(** * Properties of the upload handler *)
(* ===================================================================== *)

Lemma get_obj (fields : list (string * Json.value)) (k : string) (dflt : Json.value) :
  Json.get (Json.Obj fields) k dflt = Py.Ok (default dflt (Json.lookup k fields)).
Proof. reflexivity. Qed.

Lemma extract_email_dig (event : Json.value) :
  UploadHandler._extract_email event = Py.Ok (email_of event).
Proof.
  unfold UploadHandler._extract_email, email_of, claims_path.
  cbn [app dig].
  destruct event;
    cbn [Py.bind Json.get default from_option id
         String.eqb Ascii.eqb Bool.eqb orb Py.exn_class Json.attribute_error];
    try reflexivity.
  repeat (chain_step; try reflexivity).
Qed.

Section UploadRuns.

Variable cfg : Aws.Config.
Variable presign : string -> string -> string -> Py.result string.
Variable start_execution : string -> UploadHandler.Payload -> Py.result string.
Variables uuid4 iso_now epoch_now : nat -> string.
Variables (database table load_type : string) (email : Json.value).


Lemma start_all_cons (k : nat) (file : option string * string)
    (rest : list (option string * string)) (results : list UploadHandler.Job)
    (log : list UploadHandler.Call) :
  (UploadHandler.start_all start_execution uuid4 iso_now epoch_now) k (file :: rest) database table load_type email results log
  = match start_execution ((start_name uuid4 epoch_now) k) ((start_payload uuid4 iso_now database table load_type email) k file) with
    | Py.Raise e =>
        (Py.Raise e,
         (log ++ [UploadHandler.StartExecution ((start_name uuid4 epoch_now) k) ((start_payload uuid4 iso_now database table load_type email) k file)])%list)
    | Py.Ok execution_arn =>
        (UploadHandler.start_all start_execution uuid4 iso_now epoch_now) (S k) rest database table load_type email
          (results ++ [ {| UploadHandler.j_job_id := uuid4 k;
                           UploadHandler.j_execution_arn := execution_arn;
                           UploadHandler.j_s3_key := fst file;
                           UploadHandler.j_status := "RUNNING" |} ])%list
          (log ++ [UploadHandler.StartExecution ((start_name uuid4 epoch_now) k) ((start_payload uuid4 iso_now database table load_type email) k file)])%list
    end.
Proof.
  destruct file as [key type].
  cbn [UploadHandler.start_all UploadHandler._start_pipeline
       UploadHandler.put_item_on_parameter fst snd].
  unfold start_name, start_payload. cbn [fst snd].
  destruct (start_execution _ _); reflexivity.
Qed.

(** When every execution is accepted, the loop reports one job per file
    and has sent one start per file. *)
Lemma start_all_accepted (arn : string -> UploadHandler.Payload -> string)
    (files : list (option string * string)) :
  forall (k : nat) (results : list UploadHandler.Job) (log : list UploadHandler.Call),
  (forall (i : nat) (file : option string * string),
      files !! i = Some file ->
      start_execution ((start_name uuid4 epoch_now) (k + i)%nat) ((start_payload uuid4 iso_now database table load_type email) (k + i)%nat file)
      = Py.Ok (arn ((start_name uuid4 epoch_now) (k + i)%nat) ((start_payload uuid4 iso_now database table load_type email) (k + i)%nat file))) ->
  (UploadHandler.start_all start_execution uuid4 iso_now epoch_now) k files database table load_type email results log
  = (Py.Ok (results ++ expected_jobs uuid4 iso_now epoch_now database table
                         load_type email arn k files)%list,
     (log ++ (expected_starts uuid4 iso_now epoch_now database table load_type email) k files)%list).
Proof.
  induction files as [|file rest IH]; intros k results log Hall.
  - cbn [UploadHandler.start_all expected_jobs expected_starts].
    rewrite !app_nil_r. reflexivity.
  - rewrite start_all_cons.
    pose proof (Hall 0%nat file eq_refl) as H0.
    rewrite Nat.add_0_r in H0. rewrite H0.
    rewrite IH.
    + cbn [expected_jobs expected_starts].
      rewrite <- !app_assoc. reflexivity.
    + intros i f Hi.
      replace (S k + i)%nat with (k + S i)%nat by lia.
      exact (Hall (S i) f Hi).
Qed.

(** When the [n]-th execution is the first one refused, the loop raises
    after [n + 1] (expected_starts uuid4 iso_now epoch_now database table load_type email). *)
Lemma start_all_refused (arn : string -> UploadHandler.Payload -> string)
    (e : Py.exn) (n : nat) (bad : option string * string) :
  forall (files : list (option string * string)) (k : nat)
         (results : list UploadHandler.Job) (log : list UploadHandler.Call),
  (forall (i : nat) (file : option string * string),
      (i < n)%nat -> files !! i = Some file ->
      start_execution ((start_name uuid4 epoch_now) (k + i)%nat) ((start_payload uuid4 iso_now database table load_type email) (k + i)%nat file)
      = Py.Ok (arn ((start_name uuid4 epoch_now) (k + i)%nat) ((start_payload uuid4 iso_now database table load_type email) (k + i)%nat file))) ->
  files !! n = Some bad ->
  start_execution ((start_name uuid4 epoch_now) (k + n)%nat) ((start_payload uuid4 iso_now database table load_type email) (k + n)%nat bad) = Py.Raise e ->
  (UploadHandler.start_all start_execution uuid4 iso_now epoch_now) k files database table load_type email results log
  = (Py.Raise e, (log ++ (expected_starts uuid4 iso_now epoch_now database table load_type email) k (take (S n) files))%list).
Proof.
  induction n as [|n IH]; intros files k results log Hall Hbad He.
  - destruct files as [|file rest]; [discriminate|].
    cbn in Hbad. injection Hbad as ->.
    rewrite start_all_cons. rewrite Nat.add_0_r in He. rewrite He.
    cbn [take expected_starts]. reflexivity.
  - destruct files as [|file rest]; [discriminate|].
    rewrite start_all_cons.
    pose proof (Hall 0%nat file ltac:(lia) eq_refl) as H0.
    rewrite Nat.add_0_r in H0. rewrite H0.
    rewrite (IH rest).
    + change (take (S (S n)) (file :: rest)) with (file :: take (S n) rest).
      cbn [expected_starts]. rewrite <- !app_assoc. reflexivity.
    + intros i f Hi Hf.
      replace (S k + i)%nat with (k + S i)%nat by lia.
      apply (Hall (S i) f); [lia | exact Hf].
    + exact Hbad.
    + replace (S k + n)%nat with (k + S n)%nat by lia. exact He.
Qed.

(** Whatever happens, the loop sends nothing but (expected_starts uuid4 iso_now epoch_now database table load_type email), one per file at
    most. *)
Lemma start_all_only_starts (files : list (option string * string)) :
  forall (k : nat) (results : list UploadHandler.Job) (log : list UploadHandler.Call),
  exists sent : list UploadHandler.Call,
    snd ((UploadHandler.start_all start_execution uuid4 iso_now epoch_now) k files database table load_type email results log)
    = (log ++ sent)%list /\
    Forall is_start sent /\ (length sent <= length files)%nat.
Proof.
  induction files as [|file rest IH]; intros k results log.
  - exists []. cbn [UploadHandler.start_all snd]. rewrite app_nil_r.
    repeat split; [constructor | cbn; lia].
  - rewrite start_all_cons.
    destruct (start_execution _ _) as [execution_arn|e].
    + destruct (IH (S k)
                  (results ++ [ {| UploadHandler.j_job_id := uuid4 k;
                                   UploadHandler.j_execution_arn := execution_arn;
                                   UploadHandler.j_s3_key := fst file;
                                   UploadHandler.j_status := "RUNNING" |} ])%list
                  (log ++ [UploadHandler.StartExecution ((start_name uuid4 epoch_now) k) ((start_payload uuid4 iso_now database table load_type email) k file)])%list)
        as (sent & Hs & Hf & Hl).
      exists (UploadHandler.StartExecution ((start_name uuid4 epoch_now) k) ((start_payload uuid4 iso_now database table load_type email) k file) :: sent).
      rewrite Hs. rewrite <- app_assoc.
      repeat split; [constructor; [exact I | exact Hf] | cbn [length]; lia].
    + exists [UploadHandler.StartExecution ((start_name uuid4 epoch_now) k) ((start_payload uuid4 iso_now database table load_type email) k file)].
      repeat split; [repeat constructor | cbn [length]; lia].
Qed.

End UploadRuns.

Lemma files_of_nonempty (b : UploadHandler.Body) :
  (1 <= length (UploadHandler.files_of b))%nat.
Proof.
  unfold UploadHandler.files_of.
  destruct (default [] (UploadHandler.files b)) as [|f fs]; cbn [length map]; lia.
Qed.

Lemma length_expected_jobs (uuid4 iso_now epoch_now : nat -> string)
    (database table load_type : string) (email : Json.value)
    (arn : string -> UploadHandler.Payload -> string)
    (files : list (option string * string)) :
  forall k : nat,
  length (expected_jobs uuid4 iso_now epoch_now database table load_type email arn k files)
  = length files.
Proof.
  induction files as [|file rest IH]; intros k; cbn [expected_jobs length];
    [reflexivity | rewrite IH; reflexivity].
Qed.

Lemma prefix_append (a : string) : forall x y : string,
  String.prefix (String.append a x) (String.append a y) = String.prefix x y.
Proof.
  induction a as [|c a IH]; intros x y.
  - reflexivity.
  - rewrite !append_cons. cbn [String.prefix].
    destruct (ascii_dec c c) as [_|Hne]; [apply IH | congruence].
Qed.

Lemma prefix_append_nil (a y : string) :
  String.prefix a (String.append a y) = true.
Proof.
  induction a as [|c a IH]; [destruct y; reflexivity|].
  rewrite append_cons. cbn [String.prefix].
  destruct (ascii_dec c c) as [_|Hne]; [exact IH | congruence].
Qed.

Lemma upload_key_under_raw_prefix (database table file_name : string) :
  String.prefix (DeleteHandler.raw_prefix database table)
                (UploadHandler.upload_key database table file_name) = true.
Proof.
  unfold DeleteHandler.raw_prefix, UploadHandler.upload_key.
  rewrite !prefix_append. apply prefix_append_nil.
Qed.

(** X19: a request on the pipeline route whose executions are all
    accepted is answered 200 with one job per file, in the order of the
    files and at least one; each job is RUNNING, has its own [uuid4] as
    id and the ARN of its execution, and exactly one execution was
    started per file, named after the job and given the job's id, key,
    type and the names of the request. *)
Theorem upload_starts_one_execution_per_file
    (cfg : Aws.Config) (presign : string -> string -> string -> Py.result string)
    (start_execution : string -> UploadHandler.Payload -> Py.result string)
    (uuid4 iso_now epoch_now : nat -> string)
    (arn : string -> UploadHandler.Payload -> string)
    (event : UploadHandler.Event) (b : UploadHandler.Body)
    (log : list UploadHandler.Call) :
  reaches_branch false event b ->
  (forall (i : nat) (file : option string * string),
      UploadHandler.files_of b !! i = Some file ->
      start_execution
        (start_name uuid4 epoch_now i)
        (start_payload uuid4 iso_now (database_of b) (table_of b) (load_type_of b)
           (email_of (UploadHandler.request event)) i file)
      = Py.Ok (arn (start_name uuid4 epoch_now i)
                 (start_payload uuid4 iso_now (database_of b) (table_of b)
                    (load_type_of b) (email_of (UploadHandler.request event)) i file))) ->
  UploadHandler.handler cfg presign start_execution uuid4 iso_now epoch_now event log
  = ({| UploadHandler.statusCode := 200;
        UploadHandler.reply :=
          UploadHandler.Started (length (UploadHandler.files_of b))
            (expected_jobs uuid4 iso_now epoch_now (database_of b) (table_of b)
               (load_type_of b) (email_of (UploadHandler.request event)) arn 0
               (UploadHandler.files_of b)) |},
     (log ++ expected_starts uuid4 iso_now epoch_now (database_of b) (table_of b)
               (load_type_of b) (email_of (UploadHandler.request event)) 0
               (UploadHandler.files_of b))%list)
  /\ (1 <= length (UploadHandler.files_of b))%nat.
Proof.
  intros (Hm & Hb & Hr) Hall. split; [|apply files_of_nonempty].
  unfold UploadHandler.handler.
  destruct (UploadHandler.http_method (UploadHandler.request event)) as [m|e];
    [|discriminate].
  cbn [Py.bind]. rewrite Hb, Hr, extract_email_dig.
  fold (database_of b) (table_of b) (load_type_of b).
  rewrite (start_all_accepted start_execution uuid4 iso_now epoch_now
             (database_of b) (table_of b) (load_type_of b)
             (email_of (UploadHandler.request event)) arn (UploadHandler.files_of b)
             0%nat [] log Hall).
  cbn [app]. rewrite length_expected_jobs. reflexivity.
Qed.

Lemma upload_starts_one_execution_per_file_witness :
  UploadHandler.handler test_cfg presign_stub sfn_up uuid_n iso_n epoch_n
    (upload_event "POST /upload" two_files_body) []
  = ({| UploadHandler.statusCode := 200;
        UploadHandler.reply :=
          UploadHandler.Started 2
            [ {| UploadHandler.j_job_id := "job-0";
                 UploadHandler.j_execution_arn :=
                   "arn:aws:states:execution:job-0-1704067200";
                 UploadHandler.j_s3_key := Some "sales/orders/raw/a.csv";
                 UploadHandler.j_status := "RUNNING" |};
              {| UploadHandler.j_job_id := "job-1";
                 UploadHandler.j_execution_arn :=
                   "arn:aws:states:execution:job-1-1704067200";
                 UploadHandler.j_s3_key := Some "sales/orders/raw/b.xml";
                 UploadHandler.j_status := "RUNNING" |} ] |},
     expected_starts uuid_n iso_n epoch_n "sales" "orders" "incremental"
       (Json.Str "unknown@unknown.com") 0
       [ (Some "sales/orders/raw/a.csv", "csv"); (Some "sales/orders/raw/b.xml", "xml") ]).
Proof.
  refine (proj1 (upload_starts_one_execution_per_file test_cfg presign_stub sfn_up
                   uuid_n iso_n epoch_n arn_of
                   (upload_event "POST /upload" two_files_body) two_files_body [] _ _)).
  - repeat split.
  - intros i file _. reflexivity.
Defined.

(** X20: when the state machine refuses the execution of the [n]-th file
    after accepting the earlier ones, the handler answers 500 with the
    message of the refusal and no list of jobs, although it has started
    the [n] earlier executions; nothing stops or records them, and the
    files after the [n]-th are not started. *)
Theorem upload_refusal_keeps_earlier_executions
    (cfg : Aws.Config) (presign : string -> string -> string -> Py.result string)
    (start_execution : string -> UploadHandler.Payload -> Py.result string)
    (uuid4 iso_now epoch_now : nat -> string)
    (arn : string -> UploadHandler.Payload -> string)
    (event : UploadHandler.Event) (b : UploadHandler.Body)
    (log : list UploadHandler.Call)
    (n : nat) (bad : option string * string) (e : Py.exn) :
  reaches_branch false event b ->
  (forall (i : nat) (file : option string * string),
      (i < n)%nat ->
      UploadHandler.files_of b !! i = Some file ->
      start_execution
        (start_name uuid4 epoch_now i)
        (start_payload uuid4 iso_now (database_of b) (table_of b) (load_type_of b)
           (email_of (UploadHandler.request event)) i file)
      = Py.Ok (arn (start_name uuid4 epoch_now i)
                 (start_payload uuid4 iso_now (database_of b) (table_of b)
                    (load_type_of b) (email_of (UploadHandler.request event)) i file))) ->
  UploadHandler.files_of b !! n = Some bad ->
  start_execution
    (start_name uuid4 epoch_now n)
    (start_payload uuid4 iso_now (database_of b) (table_of b) (load_type_of b)
       (email_of (UploadHandler.request event)) n bad)
  = Py.Raise e ->
  UploadHandler.handler cfg presign start_execution uuid4 iso_now epoch_now event log
  = ({| UploadHandler.statusCode := 500;
        UploadHandler.reply := UploadHandler.Failed (Py.exn_msg e) |},
     (log ++ expected_starts uuid4 iso_now epoch_now (database_of b) (table_of b)
               (load_type_of b) (email_of (UploadHandler.request event)) 0
               (take (S n) (UploadHandler.files_of b)))%list).
Proof.
  intros (Hm & Hb & Hr) Hall Hbad He.
  unfold UploadHandler.handler.
  destruct (UploadHandler.http_method (UploadHandler.request event)) as [m|e'];
    [|discriminate].
  cbn [Py.bind]. rewrite Hb, Hr, extract_email_dig.
  fold (database_of b) (table_of b) (load_type_of b).
  rewrite (start_all_refused start_execution uuid4 iso_now epoch_now
             (database_of b) (table_of b) (load_type_of b)
             (email_of (UploadHandler.request event)) arn e n bad
             (UploadHandler.files_of b) 0%nat [] log Hall Hbad He).
  reflexivity.
Qed.

Lemma upload_refusal_keeps_earlier_executions_witness :
  UploadHandler.handler test_cfg presign_stub (sfn_rejecting "job-1-1704067200")
    uuid_n iso_n epoch_n (upload_event "POST /upload" two_files_body) []
  = ({| UploadHandler.statusCode := 500;
        UploadHandler.reply := UploadHandler.Failed "ExecutionLimitExceeded" |},
     expected_starts uuid_n iso_n epoch_n "sales" "orders" "incremental"
       (Json.Str "unknown@unknown.com") 0
       [ (Some "sales/orders/raw/a.csv", "csv"); (Some "sales/orders/raw/b.xml", "xml") ]).
Proof.
  refine (upload_refusal_keeps_earlier_executions test_cfg presign_stub
            (sfn_rejecting "job-1-1704067200") uuid_n iso_n epoch_n arn_of
            (upload_event "POST /upload" two_files_body) two_files_body []
            1 (Some "sales/orders/raw/b.xml", "xml")
            (Py.Exn "ClientError" "ExecutionLimitExceeded") _ _ _ _).
  - repeat split.
  - intros i file Hi _. destruct i as [|i]; [reflexivity | lia].
  - reflexivity.
  - reflexivity.
Defined.

(** X21: whatever the request and whatever the services answer, the
    upload handler sends nothing but [start_execution] requests, at most
    one per file: the RUNNING record that [_start_pipeline] means to put
    in the ledger is never written, because inside it [table] is the
    table name of the request and not the DynamoDB table. *)
Theorem upload_never_writes_ledger
    (cfg : Aws.Config) (presign : string -> string -> string -> Py.result string)
    (start_execution : string -> UploadHandler.Payload -> Py.result string)
    (uuid4 iso_now epoch_now : nat -> string)
    (event : UploadHandler.Event) (log : list UploadHandler.Call) :
  exists sent : list UploadHandler.Call,
    snd (UploadHandler.handler cfg presign start_execution uuid4 iso_now epoch_now
           event log)
    = (log ++ sent)%list /\
    Forall is_start sent /\
    (length sent <= match UploadHandler.body event with
                    | Py.Ok b => length (UploadHandler.files_of b)
                    | Py.Raise _ => 0
                    end)%nat.
Proof.
  assert (Hnone : forall n : nat,
             log = (log ++ [])%list /\ Forall is_start [] /\ (length (@nil UploadHandler.Call) <= n)%nat).
  { intros n. rewrite app_nil_r. repeat split; [constructor | cbn; lia]. }
  unfold UploadHandler.handler.
  destruct (UploadHandler.http_method (UploadHandler.request event)) as [m|e];
    cbn [Py.bind]; [|exists []; apply Hnone].
  destruct (UploadHandler.body event) as [b|e]; [|exists []; apply Hnone].
  destruct (UploadHandler.contains _ _).
  - exists []. destruct (Py.bind _ _); apply Hnone.
  - rewrite extract_email_dig.
    destruct (start_all_only_starts start_execution uuid4 iso_now epoch_now
                (default "default_db" (UploadHandler.database b))
                (default "default_table" (UploadHandler.table b))
                (default "full" (UploadHandler.load_type b))
                (email_of (UploadHandler.request event))
                (UploadHandler.files_of b) 0%nat [] log) as (sent & Hs & Hf & Hl).
    exists sent.
    destruct (UploadHandler.start_all _ _ _ _ _ _ _ _ _ _ _ _) as [[results|e] log'];
      cbn [snd] in *; auto.
Qed.

(** X22: a request on the presigned-url route is answered without any
    request to the ledger or the state machine; when the URL is signed
    the answer is 200 with the URL, the bucket and the key
    database/table/raw/file_name, which lies under the raw prefix that
    the teardown of that database and table empties. *)
Theorem presigned_upload_lands_under_raw_prefix
    (cfg : Aws.Config) (presign : string -> string -> string -> Py.result string)
    (start_execution : string -> UploadHandler.Payload -> Py.result string)
    (uuid4 iso_now epoch_now : nat -> string)
    (event : UploadHandler.Event) (b : UploadHandler.Body) (url : string)
    (log : list UploadHandler.Call) :
  reaches_branch true event b ->
  presign (Aws.DATA_BUCKET cfg)
    (UploadHandler.upload_key (database_of b) (table_of b)
       (default "unknown" (UploadHandler.file_name b)))
    (UploadHandler.content_type_of (default "csv" (UploadHandler.file_type b)))
  = Py.Ok url ->
  UploadHandler.handler cfg presign start_execution uuid4 iso_now epoch_now event log
  = ({| UploadHandler.statusCode := 200;
        UploadHandler.reply :=
          UploadHandler.Presigned url
            (UploadHandler.upload_key (database_of b) (table_of b)
               (default "unknown" (UploadHandler.file_name b)))
            (Aws.DATA_BUCKET cfg) |},
     log)
  /\ String.prefix (DeleteHandler.raw_prefix (database_of b) (table_of b))
       (UploadHandler.upload_key (database_of b) (table_of b)
          (default "unknown" (UploadHandler.file_name b))) = true.
Proof.
  intros (Hm & Hb & Hr) Hurl. split; [|apply upload_key_under_raw_prefix].
  unfold UploadHandler.handler.
  destruct (UploadHandler.http_method (UploadHandler.request event)) as [m|e];
    [|discriminate].
  cbn [Py.bind]. rewrite Hb, Hr.
  fold (database_of b) (table_of b).
  unfold UploadHandler._generate_presigned_url. rewrite Hurl. reflexivity.
Qed.

Lemma presigned_upload_lands_under_raw_prefix_witness :
  UploadHandler.handler test_cfg presign_stub sfn_up uuid_n iso_n epoch_n
    (upload_event "POST /presigned-url" named_body) []
  = ({| UploadHandler.statusCode := 200;
        UploadHandler.reply :=
          UploadHandler.Presigned "https://s3/bucket/sales/orders/raw/a.csv"
            "sales/orders/raw/a.csv" "bucket" |},
     [])
  /\ String.prefix "sales/orders/raw/" "sales/orders/raw/a.csv" = true.
Proof.
  refine (presigned_upload_lands_under_raw_prefix test_cfg presign_stub sfn_up
            uuid_n iso_n epoch_n (upload_event "POST /presigned-url" named_body)
            named_body "https://s3/bucket/sales/orders/raw/a.csv" [] _ _).
  - repeat split.
  - reflexivity.
Defined.

(** X23: [_extract_email] never raises: it answers the value at
    requestContext.authorizer.jwt.claims.email when the event has one,
    whatever its type, and unknown@unknown.com when a key of the path is
    missing or a value on the way is not a dictionary. *)
Theorem extract_email_reads_the_claim (event : Json.value) :
  UploadHandler._extract_email event
  = Py.Ok (default (Json.Str "unknown@unknown.com")
             (dig ["requestContext"; "authorizer"; "jwt"; "claims"; "email"] event)).
Proof. exact (extract_email_dig event). Qed.

(* ===================================================================== *)
(** * Properties of the query handler *)
(* ===================================================================== *)

Lemma upper_append (a : string) : forall b : string,
  Py.upper (String.append a b) = (Py.upper a ++ Py.upper b)%list.
Proof.
  induction a as [|c a IH]; intros b.
  - reflexivity.
  - rewrite append_cons. cbn [Py.upper]. rewrite IH, app_assoc. reflexivity.
Qed.

Lemma lstrip_points_keeps (n : N) (k y : list N) :
  Py.isspace_point n = false ->
  forall x : list N, exists x' : list N,
    Py.lstrip_points (x ++ (n :: k) ++ y) = (x' ++ (n :: k) ++ y)%list.
Proof.
  intros Hn. induction x as [|c x IH].
  - exists []. cbn [app Py.lstrip_points]. rewrite Hn. reflexivity.
  - cbn [app Py.lstrip_points]. destruct (Py.isspace_point c).
    + exact IH.
    + exists (c :: x). reflexivity.
Qed.

Lemma rstrip_points_keeps (z : N) (y : list N) :
  Py.isspace_point z = false ->
  forall p : list N,
    Py.rstrip_points (p ++ z :: y) = (p ++ z :: Py.rstrip_points y)%list.
Proof.
  intros Hz. induction p as [|c p IH].
  - cbn [app Py.rstrip_points]. destruct (Py.rstrip_points y); [rewrite Hz|]; reflexivity.
  - cbn [app Py.rstrip_points]. rewrite IH.
    destruct p; reflexivity.
Qed.

Lemma prefix_points_app (k y : list N) : Py.prefix_points k (k ++ y) = true.
Proof.
  induction k as [|n k IH]; [reflexivity|].
  cbn [app Py.prefix_points]. rewrite N.eqb_refl. exact IH.
Qed.

Lemma contains_points_app (k y : list N) : forall x : list N,
  Py.contains_points k (x ++ k ++ y) = true.
Proof.
  induction x as [|c x IH].
  - cbn [app]. destruct (k ++ y)%list eqn:E.
    + cbn [Py.contains_points]. rewrite <- E, prefix_points_app. reflexivity.
    + cbn [Py.contains_points]. rewrite <- E, prefix_points_app. reflexivity.
  - cbn [app Py.contains_points]. rewrite IH. apply orb_true_r.
Qed.

(** Stripping leaves in place a word that neither starts nor ends with
    white space. *)
Lemma strip_points_keeps (n z : N) (k p x y : list N) :
  Py.isspace_point n = false -> Py.isspace_point z = false ->
  n :: k = (p ++ [z])%list ->
  Py.contains_points (n :: k) (Py.strip_points (x ++ (n :: k) ++ y)) = true.
Proof.
  intros Hn Hz Hk. unfold Py.strip_points.
  destruct (lstrip_points_keeps n k y Hn x) as [x' ->].
  rewrite Hk.
  replace (x' ++ (p ++ [z]) ++ y)%list with ((x' ++ p) ++ z :: y)%list
    by (rewrite <- !app_assoc; reflexivity).
  rewrite (rstrip_points_keeps z y Hz).
  replace ((x' ++ p) ++ z :: Py.rstrip_points y)%list
    with (x' ++ (p ++ [z]) ++ Py.rstrip_points y)%list
    by (rewrite <- !app_assoc; reflexivity).
  apply contains_points_app.
Qed.

Lemma mentioned_keyword_is_found (kw q : string) :
  In kw AthenaQuery.dangerous_keywords -> mentions kw q ->
  Py.contains_points (Py.points kw) (Py.strip_points (Py.upper q)) = true /\
  String.eqb q EmptyString = false.
Proof.
  intros Hin (a & m & b & -> & Hm). split.
  - rewrite !upper_append, Hm.
    cbn [AthenaQuery.dangerous_keywords In] in Hin.
    destruct Hin as [<-|[<-|[<-|[<-|[]]]]].
    + apply (strip_points_keeps 68 69 _ (Py.points "DROP DATABAS")); reflexivity.
    + apply (strip_points_keeps 68 65 _ (Py.points "DROP SCHEM")); reflexivity.
    + apply (strip_points_keeps 67 82 _ (Py.points "CREATE USE")); reflexivity.
    + apply (strip_points_keeps 71 84 _ (Py.points "GRAN")); reflexivity.
  - destruct a as [|c a]; [|reflexivity].
    destruct m as [|c m]; [|reflexivity].
    cbn [AthenaQuery.dangerous_keywords In] in Hin.
    destruct Hin as [<-|[<-|[<-|[<-|[]]]]]; discriminate Hm.
Qed.

(** X24: a query that holds one of the keywords DROP DATABASE, DROP
    SCHEMA, CREATE USER or GRANT anywhere in its text, in any mix of
    letter cases and also inside a longer word, is refused with 400 and
    the name of a keyword, whatever the engine would answer and without a
    poll, unless the action is list_tables. *)
Theorem dangerous_query_is_refused (cfg : Aws.Config) (athena : Aws.Athena)
    (event : AthenaQuery.Event) (b : AthenaQuery.Body) (kw q : string) :
  AthenaQuery.body event = Py.Ok b ->
  default "query" (AthenaQuery.action b) <> "list_tables" ->
  AthenaQuery.query b = Some q ->
  In kw AthenaQuery.dangerous_keywords ->
  mentions kw q ->
  exists found : string,
    In found AthenaQuery.dangerous_keywords /\
    AthenaQuery.handler cfg athena event
    = ({| AthenaQuery.statusCode := 400;
          AthenaQuery.reply :=
            AthenaQuery.Error (String.append "Dangerous operation detected: " found) |},
       Aws.clock0).
Proof.
  intros Hb Ha Hq Hin Hm.
  destruct (mentioned_keyword_is_found kw q Hin Hm) as [Hc Hne].
  unfold AthenaQuery.handler. rewrite Hb.
  apply String.eqb_neq in Ha. rewrite Ha, Hq.
  cbn [default from_option id]. rewrite Hne.
  destruct (AthenaQuery.first_dangerous (Py.strip_points (Py.upper q))) as [found|] eqn:E.
  - exists found. split; [|reflexivity].
    unfold AthenaQuery.first_dangerous in E.
    apply find_some in E. exact (proj1 E).
  - unfold AthenaQuery.first_dangerous in E.
    pose proof (find_none _ _ E kw Hin) as Hno. cbv beta in Hno.
    rewrite Hc in Hno. discriminate Hno.
Qed.

Lemma dangerous_query_is_refused_witness :
  exists found : string,
    In found AthenaQuery.dangerous_keywords /\
    AthenaQuery.handler test_cfg athena_down
      (query_event None (Some "select granted_at from orders") None)
    = ({| AthenaQuery.statusCode := 400;
          AthenaQuery.reply :=
            AthenaQuery.Error (String.append "Dangerous operation detected: " found) |},
       Aws.clock0).
Proof.
  apply (dangerous_query_is_refused test_cfg athena_down
           (query_event None (Some "select granted_at from orders") None)
           {| AthenaQuery.action := None;
              AthenaQuery.query := Some "select granted_at from orders";
              AthenaQuery.database := None |}
           "GRANT" "select granted_at from orders").
  - reflexivity.
  - discriminate.
  - reflexivity.
  - cbn [AthenaQuery.dangerous_keywords In]. auto.
  - exists "select ", "grant", "ed_at from orders". split; reflexivity.
Defined.

Lemma execute_query_fails (cfg : Aws.Config) (athena : Aws.Athena)
    (query : string) (db : option string) (qid : string)
    (k : nat) (r : Aws.QueryExecution) :
  (forall q d g, Aws.start_query_execution athena q d g = Py.Ok qid) ->
  first_terminal athena qid k r ->
  (k < 60)%nat ->
  is_failed (Aws.State r) = true ->
  AthenaQuery._execute_query cfg athena query db =
    (Py.Ok (AthenaQuery.failure (Aws.State r)
              (default "Query execution failed" (Aws.StateChangeReason r)) qid),
     {| Aws.polls := S k; Aws.slept := 2 * Z.of_nat k |}).
Proof.
  intros Hstart [Hstall Hr] Hk Hf.
  pose proof (is_failed_not_succeeded _ Hf) as Hs.
  destruct (split_budget 60 k Hk) as [m Hm].
  unfold AthenaQuery._execute_query. rewrite Hstart, Hm.
  rewrite (primitive_loop_fails _ qid k m r 0 Aws.clock0 None Hstall Hr Hs Hf).
  reflexivity.
Qed.

(** X25: when the engine reports FAILED or CANCELLED within the budget,
    a request whose query passes the screening is answered 400, but the
    same request with the action list_tables is answered 200; in both
    cases the body holds the failed state and the engine's reason, and
    the polls made are the same. *)
Theorem failed_listing_is_answered_200 (cfg : Aws.Config) (athena : Aws.Athena)
    (action database : option string) (q qid : string)
    (k : nat) (r : Aws.QueryExecution) :
  (forall q d g, Aws.start_query_execution athena q d g = Py.Ok qid) ->
  first_terminal athena qid k r ->
  (k < 60)%nat ->
  is_failed (Aws.State r) = true ->
  q <> EmptyString ->
  AthenaQuery.first_dangerous (Py.strip_points (Py.upper q)) = None ->
  AthenaQuery.handler cfg athena (query_event action (Some q) database)
  = ({| AthenaQuery.statusCode :=
          if String.eqb (default "query" action) "list_tables" then 200 else 400;
        AthenaQuery.reply :=
          AthenaQuery.Result
            (AthenaQuery.failure (Aws.State r)
               (default "Query execution failed" (Aws.StateChangeReason r)) qid) |},
     {| Aws.polls := S k; Aws.slept := 2 * Z.of_nat k |}).
Proof.
  intros Hstart Hfirst Hk Hf Hne Hsafe.
  pose proof (is_failed_not_succeeded _ Hf) as Hs.
  apply String.eqb_neq in Hne.
  unfold AthenaQuery.handler, AthenaQuery._list_tables, query_event.
  cbn [AthenaQuery.body AthenaQuery.action AthenaQuery.query AthenaQuery.database].
  destruct (String.eqb (default "query" action) "list_tables").
  - rewrite (execute_query_fails cfg athena _ _ qid k r Hstart Hfirst Hk Hf).
    reflexivity.
  - cbn [default from_option id]. rewrite Hne, Hsafe.
    rewrite (execute_query_fails cfg athena _ _ qid k r Hstart Hfirst Hk Hf).
    cbn [AthenaQuery.status AthenaQuery.failure]. rewrite Hs. reflexivity.
Qed.

Lemma failed_listing_is_answered_200_witness :
  AthenaQuery.statusCode
    (fst (AthenaQuery.handler test_cfg
            (athena_after 3 (failed_with (Some "Insufficient permissions"))
               (Py.Ok {| Aws.ColumnInfo := []; Aws.Rows := [] |}))
            (query_event (Some "list_tables") (Some "select 1") None))) = 200 /\
  AthenaQuery.statusCode
    (fst (AthenaQuery.handler test_cfg
            (athena_after 3 (failed_with (Some "Insufficient permissions"))
               (Py.Ok {| Aws.ColumnInfo := []; Aws.Rows := [] |}))
            (query_event None (Some "select 1") None))) = 400.
Proof.
  assert (Hstalls : first_terminal
            (athena_after 3 (failed_with (Some "Insufficient permissions"))
               (Py.Ok {| Aws.ColumnInfo := []; Aws.Rows := [] |}))
            "q-1" 3 (failed_with (Some "Insufficient permissions"))).
  { split; [|reflexivity]. intros i Hi.
    assert (Hlt : (i < 3)%nat) by lia. clear Hi.
    do 3 (destruct i as [|i]; [reflexivity|]). lia. }
  split.
  - rewrite (failed_listing_is_answered_200 test_cfg _ (Some "list_tables") None
               "select 1" "q-1" 3 (failed_with (Some "Insufficient permissions")));
      [reflexivity | intros; reflexivity | exact Hstalls | lia | reflexivity
       | discriminate | reflexivity].
  - rewrite (failed_listing_is_answered_200 test_cfg _ None None
               "select 1" "q-1" 3 (failed_with (Some "Insufficient permissions")));
      [reflexivity | intros; reflexivity | exact Hstalls | lia | reflexivity
       | discriminate | reflexivity].
Defined.

(* ===================================================================== *)
(** * Properties of the authentication helpers *)
(* ===================================================================== *)

Lemma append_nil_r (s : string) : String.append s EmptyString = s.
Proof.
  induction s as [|c s IH]; [reflexivity|].
  rewrite append_cons, IH. reflexivity.
Qed.

Lemma length_times (ch : ascii) (n : nat) :
  String.length (AuthMiddleware.times ch n) = n.
Proof.
  induction n as [|n IH]; [reflexivity|].
  cbn [AuthMiddleware.times String.length]. rewrite IH. reflexivity.
Qed.

(** X26: [_base64url_decode] hands to the decoder the data followed by
    the least number of [=] signs, between 0 and 3, that makes its
    length a multiple of 4; data of such a length is handed on as it
    is. *)
Theorem base64url_padding (urlsafe_b64decode : string -> Py.result string)
    (data : string) :
  exists n : nat,
    (n < 4)%nat /\
    AuthMiddleware._base64url_decode urlsafe_b64decode data
    = urlsafe_b64decode (String.append data (AuthMiddleware.times "=" n)) /\
    ((String.length data + n) mod 4 = 0)%nat /\
    ((String.length data mod 4 = 0)%nat -> n = 0%nat).
Proof.
  unfold AuthMiddleware._base64url_decode, AuthMiddleware.padded.
  pose proof (Nat.mod_upper_bound (String.length data) 4 ltac:(lia)) as Hlt.
  pose proof (Nat.div_mod_eq (String.length data) 4) as Hdiv.
  destruct (String.length data mod 4)%nat as [|r] eqn:Er.
  - exists 0%nat. cbn [Nat.sub Nat.eqb negb AuthMiddleware.times].
    rewrite append_nil_r, Nat.add_0_r.
    repeat split; [lia | exact Er].
  - exists (4 - S r)%nat.
    assert (Hne : ((4 - S r) =? 4)%nat = false) by (apply Nat.eqb_neq; lia).
    rewrite Hne. cbn [negb].
    repeat split; [lia | | intros H; discriminate H].
    replace (String.length data + (4 - S r))%nat
      with (0 + (String.length data / 4 + 1) * 4)%nat by lia.
    apply Nat.Div0.mod_add.
Qed.

Lemma bearer_absent (s : string) :
  all_chars (fun c => negb (Ascii.eqb c " ")) s = true ->
  String.prefix "Bearer " s = false.
Proof.
  intros H.
  destruct s as [|c0 [|c1 [|c2 [|c3 [|c4 [|c5 [|c6 s]]]]]]];
    cbn [String.prefix]; repeat (destruct (ascii_dec _ _); [|reflexivity]);
    try reflexivity.
  subst. cbn in H. discriminate H.
Qed.

Lemma remove_free (s : string) :
  all_chars (fun c => negb (Ascii.eqb c " ")) s = true ->
  AuthMiddleware.remove "Bearer " s = s.
Proof.
  unfold AuthMiddleware.remove.
  induction s as [|c s IH]; intros H; [reflexivity|].
  cbn [AuthMiddleware.remove_from]. rewrite (bearer_absent _ H).
  cbn [all_chars] in H. apply andb_true_iff in H.
  rewrite (IH (proj2 H)). reflexivity.
Qed.

Lemma remove_bearer (t : string) :
  AuthMiddleware.remove "Bearer " (String.append "Bearer " t)
  = AuthMiddleware.remove "Bearer " t.
Proof.
  unfold AuthMiddleware.remove.
  change (String.append "Bearer " t)
    with (String "B" (String "e" (String "a" (String "r" (String "e" (String "r"
           (String " " t))))))).
  cbn [AuthMiddleware.remove_from].
  change (String "B" (String "e" (String "a" (String "r" (String "e" (String "r"
           (String " " t)))))))
    with (String.append "Bearer " t).
  rewrite prefix_append_nil. reflexivity.
Qed.

Lemma split_free (s : string) :
  all_chars (fun c => negb (Ascii.eqb c ".")) s = true ->
  AuthMiddleware.split "." s = [s].
Proof.
  induction s as [|c s IH]; intros H; [reflexivity|].
  cbn [all_chars] in H. apply andb_true_iff in H. destruct H as [Hc Hs].
  cbn [AuthMiddleware.split]. apply negb_true_iff in Hc. rewrite Hc, (IH Hs).
  reflexivity.
Qed.

Lemma split_append (a r : string) :
  all_chars (fun c => negb (Ascii.eqb c ".")) a = true ->
  AuthMiddleware.split "." (String.append a (String "." r))
  = a :: AuthMiddleware.split "." r.
Proof.
  induction a as [|c a IH]; intros H.
  - reflexivity.
  - cbn [all_chars] in H. apply andb_true_iff in H. destruct H as [Hc Ha].
    rewrite append_cons. cbn [AuthMiddleware.split].
    apply negb_true_iff in Hc. rewrite Hc, (IH Ha). reflexivity.
Qed.

Lemma token_part_no_period (s : string) :
  token_part s = true -> all_chars (fun c => negb (Ascii.eqb c ".")) s = true.
Proof.
  apply all_chars_impl. intros c H. apply andb_true_iff in H. exact (proj1 H).
Qed.

Lemma token_part_no_space (s : string) :
  token_part s = true -> all_chars (fun c => negb (Ascii.eqb c " ")) s = true.
Proof.
  apply all_chars_impl. intros c H. apply andb_true_iff in H. exact (proj2 H).
Qed.

Lemma jwt_parts (h p s : string) :
  token_part h = true -> token_part p = true -> token_part s = true ->
  AuthMiddleware.split "." (AuthMiddleware.remove "Bearer " (jwt h p s)) = [h; p; s] /\
  AuthMiddleware.split "." (AuthMiddleware.remove "Bearer "
                              (String.append "Bearer " (jwt h p s))) = [h; p; s].
Proof.
  intros Hh Hp Hs.
  assert (Hfree : AuthMiddleware.remove "Bearer " (jwt h p s) = jwt h p s).
  { apply remove_free. unfold jwt.
    rewrite all_chars_append. cbn [all_chars]. rewrite all_chars_append.
    cbn [all_chars].
    rewrite (token_part_no_space h Hh), (token_part_no_space p Hp),
      (token_part_no_space s Hs). reflexivity. }
  assert (Hsplit : AuthMiddleware.split "." (jwt h p s) = [h; p; s]).
  { unfold jwt.
    rewrite (split_append h _ (token_part_no_period h Hh)).
    rewrite (split_append p _ (token_part_no_period p Hp)).
    rewrite (split_free s (token_part_no_period s Hs)). reflexivity. }
  split.
  - rewrite Hfree. exact Hsplit.
  - rewrite remove_bearer, Hfree. exact Hsplit.
Qed.

Lemma decode_jwt (urlsafe_b64decode : string -> Py.result string)
    (loads_utf8 : string -> Py.result Json.value) (h p s : string) :
  token_part h = true -> token_part p = true -> token_part s = true ->
  AuthMiddleware.decode_jwt_payload urlsafe_b64decode loads_utf8
    (Json.Str (jwt h p s))
  = decoded_part urlsafe_b64decode loads_utf8 p /\
  AuthMiddleware.decode_jwt_payload urlsafe_b64decode loads_utf8
    (Json.Str (String.append "Bearer " (jwt h p s)))
  = decoded_part urlsafe_b64decode loads_utf8 p.
Proof.
  intros Hh Hp Hs. destruct (jwt_parts h p s Hh Hp Hs) as [H1 H2].
  unfold AuthMiddleware.decode_jwt_payload, decoded_part,
    AuthMiddleware._base64url_decode.
  rewrite H1, H2. split; reflexivity.
Qed.

(** X27: [decode_jwt_payload] reads the middle part of a token of three
    parts, with or without the Bearer prefix, and nothing else: the
    answer is what the decoders make of that part padded, whatever the
    header and the signature are, and no signature is checked.  Whatever
    fails, the exception that comes out is a ValueError. *)
Theorem jwt_payload_ignores_signature
    (urlsafe_b64decode : string -> Py.result string)
    (loads_utf8 : string -> Py.result Json.value) (h p s : string) :
  token_part h = true -> token_part p = true -> token_part s = true ->
  (forall h' s' : string,
     token_part h' = true -> token_part s' = true ->
     AuthMiddleware.decode_jwt_payload urlsafe_b64decode loads_utf8
       (Json.Str (String.append "Bearer " (jwt h' p s')))
     = AuthMiddleware.decode_jwt_payload urlsafe_b64decode loads_utf8
         (Json.Str (jwt h p s))) /\
  AuthMiddleware.decode_jwt_payload urlsafe_b64decode loads_utf8 (Json.Str (jwt h p s))
  = match Py.bind (urlsafe_b64decode (AuthMiddleware.padded p)) loads_utf8 with
    | Py.Ok claims => Py.Ok claims
    | Py.Raise e =>
        Py.Raise (Py.Exn "ValueError"
                    (String.append "Failed to decode JWT: " (Py.exn_msg e)))
    end /\
  (forall (token : Json.value) (e : Py.exn),
     AuthMiddleware.decode_jwt_payload urlsafe_b64decode loads_utf8 token = Py.Raise e ->
     Py.exn_class e = "ValueError").
Proof.
  intros Hh Hp Hs. split; [|split].
  - intros h' s' Hh' Hs'.
    rewrite (proj2 (decode_jwt urlsafe_b64decode loads_utf8 h' p s' Hh' Hp Hs')).
    rewrite (proj1 (decode_jwt urlsafe_b64decode loads_utf8 h p s Hh Hp Hs)).
    reflexivity.
  - exact (proj1 (decode_jwt urlsafe_b64decode loads_utf8 h p s Hh Hp Hs)).
  - intros token e. unfold AuthMiddleware.decode_jwt_payload.
    match goal with
    | |- match ?a with _ => _ end = _ -> _ => destruct a
    end; intros [= <-]; reflexivity.
Qed.

Lemma jwt_payload_ignores_signature_witness :
  AuthMiddleware.decode_jwt_payload b64_stub loads_stub
    (Json.Str "Bearer forged.cGF5bG9hZA.unsigned")
  = AuthMiddleware.decode_jwt_payload b64_stub loads_stub
      (Json.Str "eyJhbGciOiJSUzI1NiJ9.cGF5bG9hZA.c2ln").
Proof.
  apply (proj1 (jwt_payload_ignores_signature b64_stub loads_stub
                  "eyJhbGciOiJSUzI1NiJ9" "cGF5bG9hZA" "c2ln"
                  eq_refl eq_refl eq_refl) "forged" "unsigned"); reflexivity.
Defined.

Lemma extract_user_sub_dig (event : Json.value) :
  AuthMiddleware.extract_user_sub event = claim "sub" (Json.Str EmptyString) event.
Proof.
  unfold AuthMiddleware.extract_user_sub, claim, claims_path.
  cbn [app dig].
  destruct event; cbn [Py.bind Json.get default from_option id]; try reflexivity.
  repeat (chain_step; try reflexivity).
Qed.

(** [extract_user_email] in one expression: the email claim when it is
    true in a test; else, when the claims could be read, what the
    payload of the Authorization header gives. *)
Lemma extract_user_email_dig (urlsafe_b64decode : string -> Py.result string)
    (loads_utf8 : string -> Py.result Json.value) (event : Json.value) :
  AuthMiddleware.extract_user_email urlsafe_b64decode loads_utf8 event
  = if Json.truthy (claim "email" (Json.Str EmptyString) event)
    then claim "email" (Json.Str EmptyString) event
    else if passes claims_path event && Json.truthy (authorization event)
    then match Py.bind
                 (AuthMiddleware.decode_jwt_payload urlsafe_b64decode loads_utf8
                    (authorization event))
                 (fun payload =>
                    Json.get payload "email" (Json.Str AuthMiddleware.unknown_email)) with
         | Py.Ok email => email
         | Py.Raise _ => Json.Str AuthMiddleware.unknown_email
         end
    else Json.Str AuthMiddleware.unknown_email.
Proof.
  unfold AuthMiddleware.extract_user_email, claim, authorization, claims_path.
  cbn [app dig].
  destruct event;
    cbn [Py.bind Json.get default from_option id passes andb Json.truthy String.eqb negb];
    try reflexivity.
  repeat (auth_step; try reflexivity).
Qed.

Lemma serializable_lookup (k : string) (x : Json.value) :
  forall fields : list (string * Json.value),
  forallb (fun kv => match kv with (_, v) => AuthMiddleware.serializable v end) fields
  = true ->
  Json.lookup k fields = Some x ->
  AuthMiddleware.serializable x = true.
Proof.
  induction fields as [|[k' v] fields IH]; intros Hall Hx; [discriminate Hx|].
  cbn [forallb] in Hall. apply andb_true_iff in Hall. destruct Hall as [Hv Hrest].
  cbn [Json.lookup] in Hx. destruct (String.eqb k' k).
  - injection Hx as <-. exact Hv.
  - exact (IH Hrest Hx).
Qed.

Lemma serializable_dig (path : list string) :
  forall v x : Json.value,
  AuthMiddleware.serializable v = true ->
  dig path v = Some x ->
  AuthMiddleware.serializable x = true.
Proof.
  induction path as [|k path IH]; intros v x Hv Hx.
  - injection Hx as <-. exact Hv.
  - destruct v; try discriminate Hx.
    cbn [dig] in Hx. destruct (Json.lookup k fields) as [y|] eqn:Ey; [|discriminate Hx].
    cbn [AuthMiddleware.serializable] in Hv.
    exact (IH y x (serializable_lookup k y fields Hv Ey) Hx).
Qed.

Lemma serializable_claim (k : string) (dflt event : Json.value) :
  AuthMiddleware.serializable event = true ->
  AuthMiddleware.serializable dflt = true ->
  AuthMiddleware.serializable (claim k dflt event) = true.
Proof.
  intros He Hd. unfold claim.
  destruct (dig (claims_path ++ [k])%list event) as [x|] eqn:E; cbn [default from_option id].
  - exact (serializable_dig _ event x He E).
  - exact Hd.
Qed.

(** X28: a request of JSON whose claims hold an email that is true in a
    test is answered 200 with that email and the sub claim (the empty
    string when there is none), unless the email is unknown@unknown.com
    and the sub is empty; the Authorization header is not read. *)
Theorem claims_authenticate
    (urlsafe_b64decode : string -> Py.result string)
    (loads_utf8 : string -> Py.result Json.value) (event e : Json.value) :
  AuthMiddleware.serializable event = true ->
  dig ["requestContext"; "authorizer"; "jwt"; "claims"; "email"] event = Some e ->
  Json.truthy e = true ->
  AuthMiddleware.is_unknown e = false \/
  Json.truthy (claim "sub" (Json.Str EmptyString) event) = true ->
  AuthMiddleware.handler urlsafe_b64decode loads_utf8 event
  = Py.Ok {| AuthMiddleware.statusCode := 200;
             AuthMiddleware.body :=
               AuthMiddleware.User
                 {| AuthMiddleware.email := e;
                    AuthMiddleware.sub := claim "sub" (Json.Str EmptyString) event;
                    AuthMiddleware.authenticated := true |} |}.
Proof.
  intros Hjson He Ht Hknown.
  assert (Hclaim : claim "email" (Json.Str EmptyString) event = e).
  { unfold claim, claims_path. cbn [app]. rewrite He. reflexivity. }
  unfold AuthMiddleware.handler, AuthMiddleware.validate_request.
  rewrite extract_user_email_dig, extract_user_sub_dig, Hclaim, Ht.
  assert (Hgo : AuthMiddleware.is_unknown e &&
                negb (Json.truthy (claim "sub" (Json.Str EmptyString) event)) = false).
  { destruct Hknown as [-> | ->]; [reflexivity | apply andb_false_r]. }
  rewrite Hgo. cbn [AuthMiddleware.email AuthMiddleware.sub].
  rewrite (serializable_dig _ event e Hjson He).
  rewrite (serializable_claim "sub" (Json.Str EmptyString) event Hjson eq_refl).
  reflexivity.
Qed.

Lemma claims_authenticate_witness :
  AuthMiddleware.handler b64_stub loads_stub
    (claims_event [("email", Json.Str "ann@example.com"); ("sub", Json.Str "u-1")])
  = Py.Ok {| AuthMiddleware.statusCode := 200;
             AuthMiddleware.body :=
               AuthMiddleware.User
                 {| AuthMiddleware.email := Json.Str "ann@example.com";
                    AuthMiddleware.sub := Json.Str "u-1";
                    AuthMiddleware.authenticated := true |} |}.
Proof.
  apply (claims_authenticate b64_stub loads_stub
           (claims_event [("email", Json.Str "ann@example.com"); ("sub", Json.Str "u-1")])
           (Json.Str "ann@example.com")).
  - reflexivity.
  - reflexivity.
  - reflexivity.
  - left. reflexivity.
Defined.

(** X29: a request without an email claim, a sub claim and an
    Authorization header that are true in a test is answered 401,
    Authentication required; a value on the way to one of them that is
    not a dictionary counts as an absent one. *)
Theorem anonymous_request_is_refused
    (urlsafe_b64decode : string -> Py.result string)
    (loads_utf8 : string -> Py.result Json.value) (event : Json.value) :
  Json.truthy (claim "email" (Json.Str EmptyString) event) = false ->
  Json.truthy (claim "sub" (Json.Str EmptyString) event) = false ->
  Json.truthy (authorization event) = false ->
  AuthMiddleware.handler urlsafe_b64decode loads_utf8 event
  = Py.Ok {| AuthMiddleware.statusCode := 401;
             AuthMiddleware.body := AuthMiddleware.Error "Authentication required" |}.
Proof.
  intros He Hs Ha.
  unfold AuthMiddleware.handler, AuthMiddleware.validate_request.
  rewrite extract_user_email_dig, extract_user_sub_dig, He, Hs, Ha.
  rewrite andb_false_r. reflexivity.
Qed.

Lemma anonymous_request_is_refused_witness :
  AuthMiddleware.handler b64_stub loads_stub
    (Json.Obj [("requestContext", Json.Str "none"); ("headers", Json.Null)])
  = Py.Ok {| AuthMiddleware.statusCode := 401;
             AuthMiddleware.body := AuthMiddleware.Error "Authentication required" |}.
Proof.
  apply (anonymous_request_is_refused b64_stub loads_stub
           (Json.Obj [("requestContext", Json.Str "none"); ("headers", Json.Null)]));
    reflexivity.
Defined.

(** X30: when the claims hold no email that is true in a test, the
    request is answered from its Authorization header alone: a token of
    three parts whose middle part decodes to a dictionary with an email
    other than unknown@unknown.com (an empty one included) is answered
    200 with that email, whatever its header and signature parts are. *)
Theorem unverified_token_authenticates
    (urlsafe_b64decode : string -> Py.result string)
    (loads_utf8 : string -> Py.result Json.value) (event : Json.value)
    (h p s bytes : string) (fields : list (string * Json.value)) (e : Json.value) :
  AuthMiddleware.serializable event = true ->
  passes claims_path event = true ->
  Json.truthy (claim "email" (Json.Str EmptyString) event) = false ->
  authorization event = Json.Str (String.append "Bearer " (jwt h p s)) ->
  token_part h = true -> token_part p = true -> token_part s = true ->
  urlsafe_b64decode (AuthMiddleware.padded p) = Py.Ok bytes ->
  loads_utf8 bytes = Py.Ok (Json.Obj fields) ->
  Json.lookup "email" fields = Some e ->
  AuthMiddleware.is_unknown e = false ->
  AuthMiddleware.serializable e = true ->
  AuthMiddleware.handler urlsafe_b64decode loads_utf8 event
  = Py.Ok {| AuthMiddleware.statusCode := 200;
             AuthMiddleware.body :=
               AuthMiddleware.User
                 {| AuthMiddleware.email := e;
                    AuthMiddleware.sub := claim "sub" (Json.Str EmptyString) event;
                    AuthMiddleware.authenticated := true |} |}.
Proof.
  intros Hjson Hpass He Ha Hh Hp Hs Hb Hl Hf Hknown Hser.
  unfold AuthMiddleware.handler, AuthMiddleware.validate_request.
  rewrite extract_user_email_dig, extract_user_sub_dig, He, Hpass, Ha.
  rewrite (proj2 (decode_jwt urlsafe_b64decode loads_utf8 h p s Hh Hp Hs)).
  unfold decoded_part. rewrite Hb. cbn [Py.bind]. rewrite Hl.
  assert (Hne : String.eqb (String.append "Bearer " (jwt h p s)) EmptyString = false)
    by reflexivity.
  cbn [Py.bind Json.get Json.truthy andb]. rewrite Hne.
  cbn [negb]. rewrite Hf. cbn [default from_option id]. rewrite Hknown.
  cbn [andb AuthMiddleware.email AuthMiddleware.sub]. rewrite Hser.
  rewrite (serializable_claim "sub" (Json.Str EmptyString) event Hjson eq_refl).
  reflexivity.
Qed.

Lemma unverified_token_authenticates_witness :
  AuthMiddleware.handler b64_stub loads_stub
    (header_event "Bearer forged.cGF5bG9hZA.unsigned")
  = Py.Ok {| AuthMiddleware.statusCode := 200;
             AuthMiddleware.body :=
               AuthMiddleware.User
                 {| AuthMiddleware.email := Json.Str "ann@example.com";
                    AuthMiddleware.sub := Json.Str EmptyString;
                    AuthMiddleware.authenticated := true |} |}.
Proof.
  apply (unverified_token_authenticates b64_stub loads_stub
           (header_event "Bearer forged.cGF5bG9hZA.unsigned")
           "forged" "cGF5bG9hZA" "unsigned" "payload"
           [("email", Json.Str "ann@example.com")] (Json.Str "ann@example.com"));
    reflexivity.
Defined.
